(** * H2 tank sizing: a shallow embedding of [H2_heat_influx.py]

    The Python program sizes a double-wall liquid-hydrogen tank.  Its core
    is [Tank.maximum_Qin], a forward-Euler integration of the
    self-pressurisation of a two-phase fluid, driven by a bracketing root
    finder ([compute_Qleak]), followed by a steady-state heat balance
    ([Tank.heat_influx]) and closed-form thickness formulas.

    Numbers.  Python floats and numpy floats are modelled as exact
    rationals ([Qc], canonical rationals with Leibniz equality).  Rounding,
    infinities and NaN are therefore outside the model: an equation that
    holds "within floating-point tolerance" in the program is an exact
    equation here.  Where Python raises on a division by zero
    ([ZeroDivisionError], operands that are plain Python numbers) the model
    raises too; where numpy would silently produce [inf] or [nan] the model
    uses the total division of [Qc] and the theorems that depend on such a
    quotient assume the divisor is not zero.

    External libraries.  CoolProp, numpy's transcendental functions and the
    two scipy solvers are not part of the repository.  They are interfaces
    here (type classes); every definition is parametric in them. *)

From Stdlib Require Import QArith Qcanon Qcabs Qround ZArith.
From Stdlib Require Import List Ascii String Bool Lia.
Import ListNotations.

Local Open Scope string_scope.
Local Open Scope Qc_scope.

(** ** Numbers *)

(** A numeric literal of the source, read exactly: [num 6.5e-06]. *)
Definition num (q : Q) : Qc := Q2Qc q.
Arguments num q%_Q.

(** A Python [int] used in float arithmetic. *)
Definition of_int (z : Z) : Qc := Q2Qc (inject_Z z).

Definition Qcltb (a b : Qc) : bool :=
  match a ?= b with Lt => true | _ => false end.

Definition Qcleb (a b : Qc) : bool :=
  match a ?= b with Gt => false | _ => true end.

Infix "<?" := Qcltb (at level 70, no associativity) : Qc_scope.
Infix "<=?" := Qcleb (at level 70, no associativity) : Qc_scope.
Infix "=?" := Qc_eq_bool (at level 70, no associativity) : Qc_scope.

Definition Qcmax (a b : Qc) : Qc := if a <? b then b else a.

(** ** Exceptions and results

    A computation returns a value, raises a Python exception, or is cut
    off because the fuel given to a [while] loop ran out (the loop of the
    source has no iteration cap). *)

Inductive exn : Set :=
| ValueError          (* CoolProp out of range; scipy: no sign change *)
| ZeroDivisionError
| LinAlgError         (* numpy.linalg.solve on a singular matrix *)
| UnboundLocalError   (* a local read before any assignment *)
| IndexError.

Inductive result (A : Type) : Type :=
| Ok (a : A)
| Raise (e : exn)
| OutOfFuel.

Arguments Ok {A} a.
Arguments Raise {A} e.
Arguments OutOfFuel {A}.

Definition bind {A B} (m : result A) (k : A -> result B) : result B :=
  match m with
  | Ok a => k a
  | Raise e => Raise e
  | OutOfFuel => OutOfFuel
  end.

Declare Scope result_scope.
Delimit Scope result_scope with result.
Notation "x <- m ;; k" := (bind m (fun x => k))
  (at level 100, m at next level, right associativity) : result_scope.
Notation "' p <- m ;; k" := (bind m (fun v => let p := v in k))
  (at level 100, p pattern, m at next level, right associativity)
  : result_scope.
Local Open Scope result_scope.

Definition is_ok {A} (m : result A) : bool :=
  match m with Ok _ => true | _ => false end.

(** [a / b] on plain Python numbers. *)
Definition truediv (a b : Qc) : result Qc :=
  if b =? 0 then Raise ZeroDivisionError else Ok (a / b).

(** [l[-1]]; every list of the source this is used on starts non-empty
    and only grows. *)
Definition lst {A} (d : A) (l : list A) : A := last l d.

Definition append {A} (l : list A) (a : A) : list A := l ++ [a].

(** ** External libraries *)

(** [CoolProp.CoolProp.PropsSI(output, name1, value1, name2, value2, fluid)].
    It raises [ValueError] outside the range of the equation of state. *)
Class CoolProp := {
  PropsSI : string -> string -> Qc -> string -> Qc -> string -> result Qc
}.

(** The numpy functions and the constant the program uses. *)
Class NumPy := {
  np_pi : Qc;
  np_log : Qc -> Qc;
  np_cos : Qc -> Qc;
  np_tan : Qc -> Qc;
  np_sqrt : Qc -> Qc
}.

(** What [scipy.optimize.root_scalar] returns. *)
Record RootResults := { root : Qc; converged : bool }.

(** [root_scalar f a b] is [scipy.optimize.root_scalar(f, bracket=[a, b],
    method='brentq')], [fsolve f x0] is [scipy.optimize.fsolve(f, x0)[0]].
    Of brentq the development uses one documented fact: it raises
    [ValueError] ("f(a) and f(b) must have different signs") when the
    objective has the same strict sign at both ends of the bracket. *)
Class SciPy := {
  root_scalar : (Qc -> result Qc) -> Qc -> Qc -> result RootResults;
  fsolve : (Qc -> result Qc) -> Qc -> result Qc;
  root_scalar_same_sign :
    forall f a b fa fb,
      f a = Ok fa -> f b = Ok fb -> 0 < fa * fb ->
      root_scalar f a b = Raise ValueError
}.

(** ** numpy.linalg.solve on a 4x4 system *)

Definition vec4 : Type := Qc * Qc * Qc * Qc.
Definition mat4 : Type := vec4 * vec4 * vec4 * vec4.

Definition det3 (a b c d e f g h i : Qc) : Qc :=
  a * (e * i - f * h) - b * (d * i - f * g) + c * (d * h - e * g).

Definition det4 (A : mat4) : Qc :=
  let '((a11, a12, a13, a14), (a21, a22, a23, a24),
        (a31, a32, a33, a34), (a41, a42, a43, a44)) := A in
  a11 * det3 a22 a23 a24 a32 a33 a34 a42 a43 a44
  - a12 * det3 a21 a23 a24 a31 a33 a34 a41 a43 a44
  + a13 * det3 a21 a22 a24 a31 a32 a34 a41 a42 a44
  - a14 * det3 a21 a22 a23 a31 a32 a33 a41 a42 a43.

(** Column [j] of [A] replaced by [B]. *)
Definition replace_col (j : nat) (A : mat4) (B : vec4) : mat4 :=
  let '(r1, r2, r3, r4) := A in
  let '(b1, b2, b3, b4) := B in
  let put (r : vec4) (b : Qc) : vec4 :=
    let '(x1, x2, x3, x4) := r in
    match j with
    | 0%nat => (b, x2, x3, x4)
    | 1%nat => (x1, b, x3, x4)
    | 2%nat => (x1, x2, b, x4)
    | _ => (x1, x2, x3, b)
    end in
  (put r1 b1, put r2 b2, put r3 b3, put r4 b4).

(** The unique solution of [A x = B], or [LinAlgError] when [A] is
    singular.  In exact arithmetic the LU factorisation of the source
    computes the same vector as Cramer's rule. *)
Definition linalg_solve (A : mat4) (B : vec4) : result vec4 :=
  let d := det4 A in
  if d =? 0 then Raise LinAlgError
  else Ok (det4 (replace_col 0 A B) / d, det4 (replace_col 1 A B) / d,
           det4 (replace_col 2 A B) / d, det4 (replace_col 3 A B) / d).

Definition row_dot (r x : vec4) : Qc :=
  let '(r1, r2, r3, r4) := r in
  let '(x1, x2, x3, x4) := x in
  r1 * x1 + r2 * x2 + r3 * x3 + r4 * x4.

Definition mat_vec (A : mat4) (x : vec4) : vec4 :=
  let '(r1, r2, r3, r4) := A in
  (row_dot r1 x, row_dot r2 x, row_dot r3 x, row_dot r4 x).

(** ** The material table row

    [mat_property] is a seven-entry list in the source; the fields are
    named after its indices: [0] density, [1] yield strength, [2] thermal
    conductivity, [3] emissivity, [4] CO2, [5] embodied energy, [6] fibre
    ratio. *)
Record MatProperty := {
  density : Qc;
  yield_strength : Qc;
  thermal_conductivity : Qc;
  emissivity : Qc;
  co2 : Qc;
  ee : Qc;
  fibre_ratio : Qc
}.

(** ** class Tank *)

Module Tank.

Record t := {
  material : string;
  material2 : string;
  mat_property : MatProperty;
  mat2_property : MatProperty;
  dormancy : Z;
  fill_ratio : Qc;
  mass_h2 : Qc;
  stratification_factor : Z;
  k_str : Qc;
  MAWP : Qc;
  Pvent : Qc;
  P0 : Qc;
  T0 : Qc;
  rhol0 : Qc;
  rhog0 : Qc;
  V_in : Qc;
  mg0 : Qc;
  ml0 : Qc;
  hg0 : Qc;
  hl0 : Qc;
  x0 : Qc;
  R_in : Qc;
  Q_leak_min : Qc;
  Q_leak_max : Qc
}.

Definition mat_density (self : t) := density (mat_property self).
Definition mat_ee (self : t) := ee (mat_property self).
Definition mat2_density (self : t) := density (mat2_property self).
Definition mat2_ee (self : t) := ee (mat2_property self).

Section Methods.
Context `{CP : CoolProp} `{NP : NumPy} `{SP : SciPy}.

(** [Tank.__init__] *)
Definition __init__ (MAWP : Qc) (material material2 : string)
    (mat_property : MatProperty) (mass_h2 : Qc) (mat2_property : MatProperty)
    (fill V_in p_vent : Qc) : result t :=
  let P0 := num 101000 in
  T0 <- PropsSI "T" "P" P0 "Q" (num 0.1) "ParaHydrogen" ;;
  rhol0 <- PropsSI "D" "T" T0 "Q" 0 "ParaHydrogen" ;;
  rhog0 <- PropsSI "D" "T" T0 "Q" 1 "ParaHydrogen" ;;
  rg <- PropsSI "D" "T" T0 "Q" 1 "ParaHydrogen" ;;
  let mg0 := rg * V_in * (1 - fill) in
  rl <- PropsSI "D" "T" T0 "Q" 0 "ParaHydrogen" ;;
  let ml0 := rl * V_in * fill in
  hg0 <- PropsSI "H" "T" T0 "Q" 1 "ParaHydrogen" ;;
  hl0 <- PropsSI "H" "T" T0 "Q" 0 "ParaHydrogen" ;;
  x0 <- truediv mg0 (mg0 + ml0) ;;
  Ok {| material := material; material2 := material2;
        mat_property := mat_property; mat2_property := mat2_property;
        dormancy := 24; fill_ratio := fill; mass_h2 := mass_h2;
        stratification_factor := 2; k_str := num 1.9;
        MAWP := MAWP; Pvent := p_vent;
        P0 := P0; T0 := T0; rhol0 := rhol0; rhog0 := rhog0; V_in := V_in;
        mg0 := mg0; ml0 := ml0; hg0 := hg0; hl0 := hl0; x0 := x0;
        R_in := num 0.8; Q_leak_min := num 10; Q_leak_max := num 1000 |}.

(** *** [Tank.maximum_Qin]

    The local lists of the method. *)
Record vars := {
  P : list Qc; T : list Qc; mg : list Qc; ml : list Qc;
  rhog : list Qc; rhol : list Qc; hg : list Qc; hl : list Qc;
  x : list Qc; Ps : list Qc; time : list Z
}.

Definition initial (self : t) : vars :=
  {| P := [P0 self]; T := [T0 self]; mg := [mg0 self]; ml := [ml0 self];
     rhog := [rhog0 self]; rhol := [rhol0 self];
     hg := [hg0 self]; hl := [hl0 self];
     x := [x0 self]; Ps := [P0 self]; time := [0%Z] |}.

Definition dt : Z := 250.

Notation "l [-1]" := (lst (0 : Qc) l) (at level 1, format "l [-1]").

(** Lines 79-109: the property derivatives, the coefficient matrix and
    the solution of the linear system.  [rhog[-1]**2] divides a value
    that is a numpy float from the second iteration on; when a density is
    zero the construction of [A] raises at [1/rhog[-1]] in every
    iteration, which is what the model keeps. *)
Definition differential_matrix (self : t) (Qleak : Qc) (v : vars)
  : result vec4 :=
  delrhog_delP <- PropsSI "d(D)/d(P)|T" "T" (T v)[-1] "Q" 1 "ParaHydrogen" ;;
  delrhol_delP <- PropsSI "d(D)/d(P)|T" "T" (T v)[-1] "Q" 0 "ParaHydrogen" ;;
  delrhog_delT <- PropsSI "d(D)/d(T)|P" "P" (P v)[-1] "Q" 1 "ParaHydrogen" ;;
  delrhol_delT <- PropsSI "d(D)/d(T)|P" "P" (P v)[-1] "Q" 0 "ParaHydrogen" ;;
  delhg_delP <- PropsSI "d(H)/d(P)|T" "T" (T v)[-1] "Q" 1 "ParaHydrogen" ;;
  delhl_delP <- PropsSI "d(H)/d(P)|T" "T" (T v)[-1] "Q" 0 "ParaHydrogen" ;;
  delhg_delT <- PropsSI "d(H)/d(T)|P" "P" (P v)[-1] "Q" 1 "ParaHydrogen" ;;
  delhl_delT <- PropsSI "d(H)/d(T)|P" "P" (P v)[-1] "Q" 0 "ParaHydrogen" ;;
  let T_increment := num 6.5e-06 in
  let T_new := (T v)[-1] + T_increment in
  P_new <- PropsSI "P" "T" T_new "Q" (num 0.1) "ParaHydrogen" ;;
  let dPs_dT := (P_new - (P v)[-1]) / (T_new - (T v)[-1]) in
  let A21 := - ((((mg v)[-1] / ((rhog v)[-1] ^ 2)) * delrhog_delP)
                + (((ml v)[-1] / ((rhol v)[-1] ^ 2)) * delrhol_delP)) in
  let A22 := - ((((mg v)[-1] / ((rhog v)[-1] ^ 2)) * delrhog_delT)
                + (((ml v)[-1] / ((rhol v)[-1] ^ 2)) * delrhol_delT)) in
  let A42 := ((ml v)[-1] * delhl_delT) + ((mg v)[-1] * delhg_delT)
             + ((((ml v)[-1] * delhl_delP) + ((mg v)[-1] * delhg_delP)
                 - V_in self) * dPs_dT) in
  inv_rhog <- truediv 1 (rhog v)[-1] ;;
  inv_rhol <- truediv 1 (rhol v)[-1] ;;
  let A : mat4 :=
    ((1, - dPs_dT, 0, 0),
     (A21, A22, inv_rhog - inv_rhol, 0),
     (0, 0, 1, 1),
     (0, A42, - ((hl v)[-1] - (hg v)[-1]), 0)) in
  let B : vec4 := (0, 0, 0, Qleak) in
  linalg_solve A B.

(** Lines 110 and 115: the pressure the Euler step appends, from the
    first solved derivative and the stratification factor. *)
Definition next_P (self : t) (v : vars) (d0 : Qc) : Qc :=
  let dP_dt := d0 * of_int (stratification_factor self) in
  (P v)[-1] + (of_int dt * dP_dt).

(** Lines 110-128: the Euler update from the solved derivatives. *)
Definition update (self : t) (v : vars) (d : vec4) : result vars :=
  let '(d0, d1, d2, d3) := d in
  let dT_dt := d1 in
  let dmg_dt := d2 in
  let dml_dt := d3 in
  let P' := append (P v) (next_P self v d0) in
  T_sat <- PropsSI "T" "P" P'[-1] "Q" (num 0.1) "ParaHydrogen" ;;
  let T' := append (T v) T_sat in
  if (mg v)[-1] + (of_int dt * dmg_dt) <=? 0 then
    Ok {| P := P'; T := T'; mg := append (mg v) 0; ml := ml v;
          rhog := rhog v; rhol := rhol v; hg := hg v; hl := hl v;
          x := x v; Ps := Ps v; time := time v |}
  else
    let mg' := append (mg v) ((mg v)[-1] + (of_int dt * dmg_dt)) in
    let ml' := append (ml v) ((ml v)[-1] + (of_int dt * dml_dt)) in
    let x' := append (x v) (mg'[-1] / (mg'[-1] + ml'[-1])) in
    rg <- PropsSI "D" "P" P'[-1] "Q" 1 "ParaHydrogen" ;;
    rl <- PropsSI "D" "P" P'[-1] "Q" 0 "ParaHydrogen" ;;
    h_g <- PropsSI "H" "P" P'[-1] "Q" 1 "ParaHydrogen" ;;
    h_l <- PropsSI "H" "P" P'[-1] "Q" 0 "ParaHydrogen" ;;
    p_s <- PropsSI "P" "T" T'[-1] "Q" (num 0.5) "ParaHydrogen" ;;
    Ok {| P := P'; T := T'; mg := mg'; ml := ml';
          rhog := append (rhog v) rg; rhol := append (rhol v) rl;
          hg := append (hg v) h_g; hl := append (hl v) h_l;
          x := x'; Ps := append (Ps v) p_s;
          time := append (time v) (lst 0%Z (time v) + dt)%Z |}.

(** The test of line 117, on the derivatives of the current iteration. *)
Definition clamps (v : vars) (d : vec4) : bool :=
  let '(_, _, dmg_dt, _) := d in
  (mg v)[-1] + (of_int dt * dmg_dt) <=? 0.

(** One pass through the body of the [while] loop. *)
Definition loop_body (self : t) (Qleak : Qc) (v : vars) : result vars :=
  d <- differential_matrix self Qleak v ;;
  update self v d.

(** [while P[-1] < self.Pvent: ...], cut off after [fuel] iterations. *)
Fixpoint while_loop (fuel : nat) (self : t) (Qleak : Qc) (v : vars)
  : result vars :=
  if (P v)[-1] <? Pvent self then
    match fuel with
    | O => OutOfFuel
    | S fuel' =>
        v' <- loop_body self Qleak v ;;
        while_loop fuel' self Qleak v'
    end
  else Ok v.

(** [time_hours[-1] - self.dormancy] *)
Definition objective (self : t) (v : vars) : Qc :=
  of_int (lst 0%Z (time v)) / num 3600 - of_int (dormancy self).

Definition maximum_Qin (fuel : nat) (self : t) (Qleak : Qc) : result Qc :=
  v <- while_loop fuel self Qleak (initial self) ;;
  Ok (objective self v).

(** *** [Tank.volume_equation] *)
Definition volume_equation (self : t) (l : Qc) : Qc :=
  let L_cyl := l - num 2 * R_in self in
  if L_cyl <? 0 then num 1e6
  else
    let V := np_pi * R_in self ^ 2 * L_cyl
             + (num 4 / num 3) * np_pi * R_in self ^ 3 in
    V - V_in self.

(** *** The winding-angle search

    Lines 151-161 and, a second time, lines 233-243. *)
Definition angle : list Qc := [num 0; num 90; num 0.1].

Definition composite (name : string) : bool :=
  (name =? "G10")%string || (name =? "Carbon Fibre Woven Prepreg (QI)")%string.

(** The body of the loop up to [t]: netting thickness in helical and hoop
    direction, divided by the fibre volume fraction.  All three quotients
    are numpy divisions. *)
Definition netting_thickness (N_theta_p N_phi_p : Qc) (prop : MatProperty)
    (ang : Qc) : Qc :=
  let t_heli := N_phi_p / (yield_strength prop * np_cos ang ^ 2) in
  let t_hoop := (N_theta_p - N_phi_p * np_tan ang ^ 2) / yield_strength prop in
  (t_heli + t_hoop) / fibre_ratio prop.

(** [if t < t_min: t_min = t; alpha = ang], on the pair [(t_min, alpha)]. *)
Definition keep_smaller (thickness : Qc -> Qc) (acc : Qc * Qc) (ang : Qc)
  : Qc * Qc :=
  let t' := thickness ang in
  if t' <? fst acc then (t', ang) else acc.

Definition angle_search (thickness : Qc -> Qc) (angles : list Qc)
    (t_min alpha : Qc) : Qc * Qc :=
  fold_left (keep_smaller thickness) angles (t_min, alpha).

(** *** [Tank.inner_tank_thickness] *)
Definition P_test (self : t) : Qc :=
  (MAWP self + num 0.2 * num 100000) * num 1.3.

Definition inner_tank_thickness (self : t) : result (Qc * Qc) :=
  let alpha := num 0 in
  if composite (material self) then
    let N_theta_p := P_test self * R_in self in
    let N_phi_p := P_test self * R_in self / num 2 in
    let t_min := num 1000 in
    Ok (angle_search (netting_thickness N_theta_p N_phi_p (mat_property self))
          angle t_min alpha)
  else
    th <- truediv (P_test self * R_in self)
            (yield_strength (mat_property self)) ;;
    Ok (th, alpha).

(** *** [Tank.heat_influx] *)
Section HeatInflux.
Variables (self : t) (L_in_max Q_str t1 emis_mli k_vac t_mli k_mli Qmax : Qc).

Let T_tank := T0 self.
Let T_amb := num 300.
Let P_amb := num 101325.
Let r_in := R_in self.
Let t2 := t1.
Let Q_in_max := Qmax.
Let k_1 := thermal_conductivity (mat_property self).
Let k_2 := thermal_conductivity (mat2_property self).
Let eps2 := emissivity (mat2_property self).

(** The first two ratios divide plain Python numbers; everything that
    involves [np.log] or [dv] is a numpy value. *)
Definition Q_cond (dv : Qc) : result Qc :=
  q1 <- truediv (r_in + t1) r_in ;;
  let R_cond := np_log q1 / (num 2 * np_pi * L_in_max * k_1) in
  q2 <- truediv (r_in + t1 + t_mli) (r_in + t1) ;;
  let R_cond := R_cond + np_log q2 / (num 2 * np_pi * L_in_max * k_mli) in
  let R_cond := R_cond
    + np_log ((r_in + t1 + t_mli + dv) / (r_in + t1 + t_mli))
      / (num 2 * np_pi * L_in_max * k_vac) in
  let R_cond := R_cond
    + np_log ((r_in + t1 + dv + t_mli + t2) / (r_in + t1 + dv + t_mli))
      / (num 2 * np_pi * L_in_max * k_2) in
  Ok ((T_amb - T_tank) / R_cond).

Definition Q_rad (dv : Qc) : result Qc :=
  let r1 := r_in + t1 + t_mli in
  let r2 := r1 + dv in
  let A1 := num 2 * np_pi * r1 * (L_in_max + num 2 * r1) in
  let A2 := num 2 * np_pi * r2 * (L_in_max + num 2 * r2) in
  let num_ := num 5.670374419e-8 * (T_amb ^ 4 - T_tank ^ 4) in
  i1 <- truediv 1 emis_mli ;;
  i2 <- truediv 1 eps2 ;;
  let denom := i1 + i2 - 1 in
  Ok (num_ * A2 / denom).

Definition total_heat_influx (dv : Qc) : result Qc :=
  Q_cond_value <- Q_cond dv ;;
  Q_rad_value <- Q_rad dv ;;
  Ok (Q_cond_value + Q_rad_value + Q_str).

Definition equation (dv : Qc) : result Qc :=
  total <- total_heat_influx dv ;;
  Ok (total - Q_in_max).

Definition dv_initial_guess : Qc := num 0.01.

(** The outer-shell thickness of lines 225-245, for a solved gap [dv]. *)
Definition outer_thickness (dv : Qc) : Qc * Qc :=
  let t2_min := num 1000 in
  let P_test := P_amb in
  let alpha := num 0 in
  if composite (material2 self) then
    let N_theta_p := P_test * (r_in + t1 + dv + t_mli) in
    let N_phi_p := P_test * (r_in + t1 + dv + t_mli) / num 2 in
    angle_search (netting_thickness N_theta_p N_phi_p (mat2_property self))
      angle t2_min alpha
  else
    (P_amb * (r_in + t1 + dv + t_mli) / yield_strength (mat2_property self),
     alpha).

(** Returns [(dv, t2_min, alpha, Q_in_max, Q_cond(dv), Q_rad(dv))]. *)
Definition heat_influx : result (Qc * Qc * Qc * Qc * Qc * Qc) :=
  dv <- fsolve equation dv_initial_guess ;;
  let '(t2_min, alpha) := outer_thickness dv in
  Q_cond_dv <- Q_cond dv ;;
  Q_rad_dv <- Q_rad dv ;;
  Ok (dv, t2_min, alpha, Q_in_max, Q_cond_dv, Q_rad_dv).

End HeatInflux.

(** *** Tank dimensions *)
Definition total_volume (self : t) (l dv t1 t2 t_mli : Qc) : Qc :=
  let R_out := R_in self + dv + t1 + t2 + t_mli in
  np_pi * R_out ^ 2 * (l - num 2 * R_in self)
  + (num 4 / num 3) * np_pi * R_out ^ 3.

Definition total_mass (self : t) (l dv t1 t2 t_mli dens_mli : Qc)
  : Qc * Qc * Qc :=
  let R_out := R_in self + dv + t1 + t2 + t_mli in
  let L_cyl := l - num 2 * R_in self in
  let surface_inner :=
    num 2 * np_pi * R_in self * L_cyl + num 4 * np_pi * R_in self ^ 2 in
  let surface_outer :=
    num 2 * np_pi * R_out * L_cyl + num 4 * np_pi * R_out ^ 2 in
  let mass_inner := surface_inner * t1 * mat_density self in
  let mass_outer := surface_outer * t2 * mat2_density self in
  let mass_mli := surface_inner * t_mli * dens_mli in
  (mass_inner, mass_outer, mass_mli).

Definition kg_co2 (self : t)
    (mass_inner mass_outer mass_mli mass_str mli_co2 co2_kevlar : Qc) : Qc :=
  let lca_inner := mass_inner * co2 (mat_property self) in
  let lca_outer := mass_outer * co2 (mat2_property self) in
  let lca_mli := mass_mli * mli_co2 in
  let lca_str := mass_str * co2_kevlar in
  lca_inner + lca_outer + lca_mli + lca_str.

Definition embodied_energy (self : t)
    (mass_inner mass_outer mass_mli mass_str kevlar_ee mli_ee : Qc) : Qc :=
  let ee_inner := mass_inner * mat_ee self in
  let ee_outer := mass_outer * mat2_ee self in
  let ee_mli := mass_mli * mli_ee in
  let ee_str := mass_str * kevlar_ee in
  ee_inner + ee_outer + ee_mli + ee_str.

End Methods.
End Tank.

(** ** Module level: the tank database and the structure constants *)

Definition all_materials : list string :=
  ["Al-7075-T6"; "G10"; "SS-304"; "Carbon Fibre Woven Prepreg (QI)"; "SS-316"].

Definition SF : Qc := num 0.9.

Definition row (d y k e c en f : Qc) : MatProperty :=
  {| density := d; yield_strength := y; thermal_conductivity := k;
     emissivity := e; co2 := c; ee := en; fibre_ratio := f |}.

Definition Al_7075_T6 : MatProperty :=
  row (num 2800) (num 495 * num 1e6 * SF) (num 134) (num 0.11)
      (num 7.795) (num 106) (num 0).
Definition G10 : MatProperty :=
  row (num 1900) (num 298 * num 1e6 * SF) (num 0.5) (num 0.95)
      (num 15.25) (num 369) (num 0.4).
Definition SS_304 : MatProperty :=
  row (num 7955) (num 257.5 * num 1e6 * SF) (num 15.5) (num 0.35)
      (num 3) (num 42.75) (num 0).
Definition Carbon_Fibre : MatProperty :=
  row (num 1575) (num 549.5 * num 1e6 * SF) (num 1.64) (num 0.77)
      (num 47.8) (num 686.5) (num 0.625).
Definition SS_316 : MatProperty :=
  row (num 7970) (num 257.5 * num 1e6 * SF) (num 15) (num 0.35)
      (num 4.265) (num 49.75) (num 0).

Definition all_mat_properties : list MatProperty :=
  [Al_7075_T6; G10; SS_304; Carbon_Fibre; SS_316].

Definition MAWP : Qc := num 1200000.
Definition P_vents : list Qc := [num 600000; num 800000; num 1000000].

Definition n_mats : nat := 2.
Definition materials : list string := firstn n_mats all_materials.
Definition mat_properties : list MatProperty :=
  firstn n_mats all_mat_properties.

Definition Q_og_str : Qc := num 0.4.
Definition k_kevlar : Qc := num 1.9.
Definition og_str_mass : Qc := num 2.1.
Definition og_lh2 : Qc := num 6.2.
Definition grav_idx : Qc := num 0.35.
Definition co2_kevlar : Qc := num 13.1.
Definition kevlar_ee : Qc := num 257.

Definition mass_h2 : Qc := num 532.65.
Definition estimated_mass : Qc := mass_h2 / grav_idx - mass_h2.
Definition t_limit : Qc := num 0.001.

Definition t_mli : Qc := num 10 * num 1e-3.
Definition dens_mli : Qc := num 180.
Definition emis_mli : Qc := num 0.23.
Definition k_vac : Qc := num 0.015 * num 1e-1.
Definition k_mli : Qc := num 0.035.
Definition mli_co2 : Qc := num 8.03.
Definition mli_ee : Qc := num 108.4.

(** The tuple [compute_tank_volume] returns, in its order; [Vh2] occurs
    twice in the source tuple (positions 3 and 8). *)
Record Sizing := {
  Vt : Qc; Mt : Qc; mass_error : Qc; Vh2 : Qc; t1 : Qc; t2 : Qc; dv : Qc;
  L_in : Qc; R_in : Qc; co2_kg : Qc; emb_energy : Qc;
  ang1_w : Qc; ang2_w : Qc; p_vent : Qc; Qleak : Qc; Qcond : Qc; Qrad : Qc
}.

Section Pipeline.
Context `{CP : CoolProp} `{NP : NumPy} `{SP : SciPy}.

(** [fA(mh2, P_vent, fl_final = 0.98)] *)
Definition fA (mh2 P_vent : Qc) : result (Qc * Qc) :=
  let fl_final := num 0.98 in
  rho_l_f <- PropsSI "D" "P" P_vent "Q" 0 "ParaHydrogen" ;;
  V_l_fin <- truediv mh2 rho_l_f ;;
  V_tot <- truediv V_l_fin fl_final ;;
  rho_l_0 <- PropsSI "D" "P" (num 101325) "Q" 0 "ParaHydrogen" ;;
  V_l_0 <- truediv mh2 rho_l_0 ;;
  fl_init <- truediv V_l_0 V_tot ;;
  Ok (V_tot, fl_init).

(** [compute_Qleak]; [fuel] bounds each run of the integrator.  When the
    solver reports no convergence the source only prints, and
    [return Qmax] reads a local that was never bound. *)
Definition compute_Qleak (fuel : nat) (material material2 : string)
    (mat_property : MatProperty) (MAWP mass_h2 Q_str : Qc)
    (mat2_property : MatProperty) (str_mass fill_ratio V_in P_vent : Qc)
  : result Qc :=
  tankh2 <- Tank.__init__ MAWP material material2 mat_property mass_h2
              mat2_property fill_ratio V_in P_vent ;;
  Q_solution <- root_scalar (Tank.maximum_Qin fuel tankh2)
                  (Tank.Q_leak_min tankh2) (Tank.Q_leak_max tankh2) ;;
  if converged Q_solution then Ok (root Q_solution)
  else Raise UnboundLocalError.

(** [compute_tank_volume] *)
Definition compute_tank_volume (material material2 : string)
    (mat_property : MatProperty) (MAWP mass_h2 Q_str : Qc)
    (mat2_property : MatProperty)
    (str_mass fill_ratio V_in P_vent Qmax : Qc) : result Sizing :=
  tankh2 <- Tank.__init__ MAWP material material2 mat_property mass_h2
              mat2_property fill_ratio V_in P_vent ;;
  L_solution <- root_scalar (fun l => Ok (Tank.volume_equation tankh2 l))
                  (num 2 * Tank.R_in tankh2) (num 10) ;;
  let L_in := if converged L_solution then Some (root L_solution)
              else None in
  ' (t1, ang1_w) <- Tank.inner_tank_thickness tankh2 ;;
  let t1 := if t1 <? t_limit then t_limit else t1 in
  L_in <- match L_in with
          | Some l => Ok l
          | None => Raise UnboundLocalError
          end ;;
  ' (dv, t2, ang2_w, Qleak, Qcond, Qrad) <-
      Tank.heat_influx tankh2 L_in Q_str t1 emis_mli k_vac t_mli k_mli Qmax ;;
  let t2 := Qcmax t2 t_limit in
  let Vt := Tank.total_volume tankh2 L_in dv t1 t2 t_mli in
  let '(mass_inner, mass_outer, mass_mli) :=
    Tank.total_mass tankh2 L_in dv t1 t2 t_mli dens_mli in
  let Mt := mass_inner + mass_outer + mass_mli + mass_h2 in
  let Mt := Mt + str_mass in
  let mass_error := Mt - estimated_mass - mass_h2 in
  let Vh2 := Tank.V_in tankh2 in
  let co2_kg := Tank.kg_co2 tankh2 mass_inner mass_outer mass_mli str_mass
                  mli_co2 co2_kevlar in
  let embodied_energy :=
    Tank.embodied_energy tankh2 mass_inner mass_outer mass_mli str_mass
      kevlar_ee mli_ee in
  Ok {| Vt := Vt; Mt := Mt; mass_error := mass_error; Vh2 := Vh2;
        t1 := t1; t2 := t2; dv := dv; L_in := L_in;
        R_in := Tank.R_in tankh2; co2_kg := co2_kg;
        emb_energy := embodied_energy; ang1_w := ang1_w; ang2_w := ang2_w;
        p_vent := P_vent; Qleak := Qleak; Qcond := Qcond; Qrad := Qrad |}.

End Pipeline.

(** ** Module level: the sweep over vent pressures and material pairs

    The state the sweep mutates: the ten [plot_*] lists and the file
    [tank_results.csv] ([None] while the file does not exist). *)

Inductive cell : Type :=
| Str (s : string)
| Num (q : Qc).

Record World := {
  plot_mats : list string;
  plot_mats2 : list string;
  plot_MAWPS : list Qc;
  plot_volumes : list Qc;
  plot_masses : list Qc;
  plot_mass_errors : list Qc;
  plot_co2 : list Qc;
  plot_embodied_energy : list Qc;
  plot_P_vents : list Qc;
  plot_vh2 : list Qc;
  tank_results_csv : option (list (list cell))
}.

Definition header : list cell :=
  map Str
    ["Material Inner"; "Material Outer"; "MAWP (Pa)"; "Tank Volume (m^3)";
     "Tank Mass (kg)"; "Mass Error (kg)";
     "Inner Tank Thickness (m)"; "Outer Tank Thickness (m)";
     "Vacuum Gap (m)"; "Inner Tank Length (m)"; "Vh2 (m^3)"; "R_in (m)";
     "CO2 (kg)"; "Embodied Energy (MJ)"; "Angle of winding inner";
     "Angle of winding outer"; "P_vent"; "Qleak"; "Q_cond"; "Q_rad"].

Definition data_row (material material2 : string) (r : Sizing) : list cell :=
  [Str material; Str material2; Num MAWP; Num (Vt r); Num (Mt r);
   Num (mass_error r); Num (t1 r); Num (t2 r); Num (dv r); Num (L_in r);
   Num (Vh2 r); Num (R_in r); Num (co2_kg r); Num (emb_energy r);
   Num (ang1_w r); Num (ang2_w r); Num (p_vent r); Num (Qleak r);
   Num (Qcond r); Num (Qrad r)].

(** Lines 430-445: the header is written when the file did not exist. *)
Definition write_csv (material material2 : string) (r : Sizing)
    (file : option (list (list cell))) : option (list (list cell)) :=
  match file with
  | Some rows => Some (append rows (data_row material material2 r))
  | None => Some [header; data_row material material2 r]
  end.

(** Lines 418-445: what the sweep stores after one sizing returned. *)
Definition store (material material2 : string) (P_vent : Qc) (r : Sizing)
    (w : World) : World :=
  {| plot_mats := append (plot_mats w) material;
     plot_mats2 := append (plot_mats2 w) material2;
     plot_MAWPS := append (plot_MAWPS w) MAWP;
     plot_volumes := append (plot_volumes w) (Vt r);
     plot_masses := append (plot_masses w) (Mt r);
     plot_mass_errors := append (plot_mass_errors w) (mass_error r);
     plot_co2 := append (plot_co2 w) (co2_kg r);
     plot_embodied_energy := append (plot_embodied_energy w) (emb_energy r);
     plot_P_vents := append (plot_P_vents w) P_vent;
     plot_vh2 := append (plot_vh2 w) (Vh2 r);
     tank_results_csv := write_csv material material2 r (tank_results_csv w) |}.

(** A statement that changes the world and may raise: the world it
    leaves behind and how it ended. *)
Definition stmt : Type := World -> World * result unit.

(** [for a in l: body(a)]; an exception leaves the loop at once. *)
Fixpoint for_each {A} (body : A -> stmt) (l : list A) : stmt :=
  fun w =>
    match l with
    | [] => (w, Ok tt)
    | a :: l' =>
        match body a w with
        | (w', Ok _) => for_each body l' w'
        | stopped => stopped
        end
    end.

(** A pure computation followed by the statement that uses its value. *)
Definition on_value {A} (m : result A) (k : A -> stmt) : stmt :=
  fun w =>
    match m with
    | Ok a => k a w
    | Raise e => (w, Raise e)
    | OutOfFuel => (w, OutOfFuel)
    end.

Definition index0 {A} (l : list A) : result A :=
  match l with a :: _ => Ok a | [] => Raise IndexError end.

Section Sweep.
Context `{CP : CoolProp} `{NP : NumPy} `{SP : SciPy}.
Variable fuel : nat.
Variables (materials : list string) (mat_properties : list MatProperty).

(** Lines 404-411, for one material pair. *)
Definition size_pair (P_vent V_in fill_ratio Qmax : Qc)
    (inner outer : string * MatProperty) : result Sizing :=
  let '(material, mat_property) := inner in
  let '(material2, mat2_property) := outer in
  let og_tank_mass :=
    if Tank.composite material then num 4.8 + num 3.15
    else num 8.4 + num 3.6 in
  let ratio := og_str_mass / (og_tank_mass + og_lh2) in
  let str_mass := estimated_mass * ratio in
  let Q_str := Q_og_str * np_sqrt (ratio / ratio) in
  compute_tank_volume material material2 mat_property MAWP mass_h2 Q_str
    mat2_property str_mass fill_ratio V_in P_vent Qmax.

(** Lines 400-401: what is computed once per vent pressure. *)
Definition per_vent (P_vent : Qc) : result (Qc * Qc * Qc) :=
  ' (V_in, fill_ratio) <- fA mass_h2 P_vent ;;
  m0 <- index0 materials ;;
  m0' <- index0 materials ;;
  p0 <- index0 mat_properties ;;
  p0' <- index0 mat_properties ;;
  Qmax <- compute_Qleak fuel m0 m0' p0 MAWP mass_h2 0 p0' 0 fill_ratio
            V_in P_vent ;;
  Ok (V_in, fill_ratio, Qmax).

(** Lines 399-445, the body of [if RUN:]. *)
Definition sweep (P_vents : list Qc) : stmt :=
  for_each (fun P_vent =>
    on_value (per_vent P_vent) (fun '(V_in, fill_ratio, Qmax) =>
      for_each (fun inner =>
        for_each (fun outer =>
          on_value (size_pair P_vent V_in fill_ratio Qmax inner outer)
            (fun r w => (store (fst inner) (fst outer) P_vent r w, Ok tt)))
          (combine materials mat_properties))
        (combine materials mat_properties)))
    P_vents.

(** The combinations in the order the three loops visit them, and what
    sizing one of them computes: the per-pressure part, then the pair. *)
Definition combination : Type :=
  Qc * (string * MatProperty) * (string * MatProperty).

Definition combinations (P_vents : list Qc) : list combination :=
  flat_map (fun P_vent =>
    flat_map (fun inner =>
      map (fun outer => (P_vent, inner, outer))
        (combine materials mat_properties))
      (combine materials mat_properties))
    P_vents.

Definition sizing_of (c : combination) : result Sizing :=
  let '(P_vent, inner, outer) := c in
  ' (V_in, fill_ratio, Qmax) <- per_vent P_vent ;;
  size_pair P_vent V_in fill_ratio Qmax inner outer.

(** What the three nested loops do for one combination: size it, then
    store the result. *)
Definition visit (c : combination) : stmt :=
  let '(P_vent, inner, outer) := c in
  on_value (sizing_of c)
    (fun r w => (store (fst inner) (fst outer) P_vent r w, Ok tt)).

(** The world after the sweep stored the results of [cs], in order. *)
Fixpoint stored (cs : list combination) (w : World) : World :=
  match cs with
  | [] => w
  | (P_vent, inner, outer) :: cs' =>
      match sizing_of (P_vent, inner, outer) with
      | Ok r => stored cs' (store (fst inner) (fst outer) P_vent r w)
      | _ => w
      end
  end.

End Sweep.

(** Lines 384 and 398: the sweep runs over the module's own tables when
    [RUN] is set; as shipped it is not. *)
Definition RUN : bool := false.

Definition run_block `{CP : CoolProp} `{NP : NumPy} `{SP : SciPy}
    (fuel : nat) : stmt :=
  if RUN then sweep fuel materials mat_properties P_vents
  else fun w => (w, Ok tt).

Definition empty_world : World :=
  {| plot_mats := []; plot_mats2 := []; plot_MAWPS := [];
     plot_volumes := []; plot_masses := []; plot_mass_errors := [];
     plot_co2 := []; plot_embodied_energy := []; plot_P_vents := [];
     plot_vh2 := []; tank_results_csv := None |}.

(** ** What a completed sweep leaves behind *)

Section SweepRows.
Context `{CP : CoolProp} `{NP : NumPy} `{SP : SciPy}.
Variable fuel : nat.
Variables (materials : list string) (mat_properties : list MatProperty).

(** The data rows the sweep writes for the combinations [cs]: one for
    each combination that can be sized. *)
Definition csv_rows (cs : list combination) : list (list cell) :=
  flat_map (fun c : combination =>
    match sizing_of fuel materials mat_properties c with
    | Ok r => [data_row (fst (snd (fst c))) (fst (snd c)) r]%list
    | _ => []%list
    end) cs.

End SweepRows.

(** The ten plot lists hold one entry per stored result. *)
Definition balanced (w : World) : Prop :=
  let n := List.length (plot_mats w) in
  List.length (plot_mats2 w) = n /\ List.length (plot_MAWPS w) = n /\
  List.length (plot_volumes w) = n /\ List.length (plot_masses w) = n /\
  List.length (plot_mass_errors w) = n /\ List.length (plot_co2 w) = n /\
  List.length (plot_embodied_energy w) = n /\
  List.length (plot_P_vents w) = n /\ List.length (plot_vh2 w) = n.

(** ** Module level: reading the results back

    Lines 448-462, the body of [if OPEN:].  The file is text: a cell
    [Num q] of the model stands for the text [csv.writer] produced for a
    number, [str(q)], and [float] reads text back. *)

(** [py_str q] is [str(q)] as [csv.writer] applies it to a number,
    [py_float s] is [float(s)], which raises [ValueError] on text that is
    no number.  Of the two the development uses one documented fact:
    [float(str(x)) == x] for every float [x]. *)
Class PyText := {
  py_str : Qc -> string;
  py_float : string -> result Qc;
  py_float_str : forall q, py_float (py_str q) = Ok q
}.

(** Line 385. *)
Definition OPEN : bool := true.

Section Open.
Context `{PT : PyText}.

(** The string [csv.reader] yields for a cell. *)
Definition text (c : cell) : string :=
  match c with
  | Str s => s
  | Num q => py_str q
  end.

(** [row[i]] and [float(row[i])]. *)
Definition getitem (row : list cell) (i : nat) : result string :=
  match nth_error row i with
  | Some c => Ok (text c)
  | None => Raise IndexError
  end.

Definition float_at (row : list cell) (i : nat) : result Qc :=
  s <- getitem row i ;; py_float s.

(** One [plot_*.append] each. *)
Definition append_mats (a : string) (w : World) : World :=
  {| plot_mats := append (plot_mats w) a; plot_mats2 := plot_mats2 w;
     plot_MAWPS := plot_MAWPS w; plot_volumes := plot_volumes w;
     plot_masses := plot_masses w; plot_mass_errors := plot_mass_errors w;
     plot_co2 := plot_co2 w; plot_embodied_energy := plot_embodied_energy w;
     plot_P_vents := plot_P_vents w; plot_vh2 := plot_vh2 w;
     tank_results_csv := tank_results_csv w |}.

Definition append_mats2 (a : string) (w : World) : World :=
  {| plot_mats := plot_mats w; plot_mats2 := append (plot_mats2 w) a;
     plot_MAWPS := plot_MAWPS w; plot_volumes := plot_volumes w;
     plot_masses := plot_masses w; plot_mass_errors := plot_mass_errors w;
     plot_co2 := plot_co2 w; plot_embodied_energy := plot_embodied_energy w;
     plot_P_vents := plot_P_vents w; plot_vh2 := plot_vh2 w;
     tank_results_csv := tank_results_csv w |}.

Definition append_MAWPS (a : Qc) (w : World) : World :=
  {| plot_mats := plot_mats w; plot_mats2 := plot_mats2 w;
     plot_MAWPS := append (plot_MAWPS w) a; plot_volumes := plot_volumes w;
     plot_masses := plot_masses w; plot_mass_errors := plot_mass_errors w;
     plot_co2 := plot_co2 w; plot_embodied_energy := plot_embodied_energy w;
     plot_P_vents := plot_P_vents w; plot_vh2 := plot_vh2 w;
     tank_results_csv := tank_results_csv w |}.

Definition append_volumes (a : Qc) (w : World) : World :=
  {| plot_mats := plot_mats w; plot_mats2 := plot_mats2 w;
     plot_MAWPS := plot_MAWPS w; plot_volumes := append (plot_volumes w) a;
     plot_masses := plot_masses w; plot_mass_errors := plot_mass_errors w;
     plot_co2 := plot_co2 w; plot_embodied_energy := plot_embodied_energy w;
     plot_P_vents := plot_P_vents w; plot_vh2 := plot_vh2 w;
     tank_results_csv := tank_results_csv w |}.

Definition append_masses (a : Qc) (w : World) : World :=
  {| plot_mats := plot_mats w; plot_mats2 := plot_mats2 w;
     plot_MAWPS := plot_MAWPS w; plot_volumes := plot_volumes w;
     plot_masses := append (plot_masses w) a;
     plot_mass_errors := plot_mass_errors w;
     plot_co2 := plot_co2 w; plot_embodied_energy := plot_embodied_energy w;
     plot_P_vents := plot_P_vents w; plot_vh2 := plot_vh2 w;
     tank_results_csv := tank_results_csv w |}.

Definition append_mass_errors (a : Qc) (w : World) : World :=
  {| plot_mats := plot_mats w; plot_mats2 := plot_mats2 w;
     plot_MAWPS := plot_MAWPS w; plot_volumes := plot_volumes w;
     plot_masses := plot_masses w;
     plot_mass_errors := append (plot_mass_errors w) a;
     plot_co2 := plot_co2 w; plot_embodied_energy := plot_embodied_energy w;
     plot_P_vents := plot_P_vents w; plot_vh2 := plot_vh2 w;
     tank_results_csv := tank_results_csv w |}.

Definition append_vh2 (a : Qc) (w : World) : World :=
  {| plot_mats := plot_mats w; plot_mats2 := plot_mats2 w;
     plot_MAWPS := plot_MAWPS w; plot_volumes := plot_volumes w;
     plot_masses := plot_masses w; plot_mass_errors := plot_mass_errors w;
     plot_co2 := plot_co2 w; plot_embodied_energy := plot_embodied_energy w;
     plot_P_vents := plot_P_vents w; plot_vh2 := append (plot_vh2 w) a;
     tank_results_csv := tank_results_csv w |}.

Definition append_co2 (a : Qc) (w : World) : World :=
  {| plot_mats := plot_mats w; plot_mats2 := plot_mats2 w;
     plot_MAWPS := plot_MAWPS w; plot_volumes := plot_volumes w;
     plot_masses := plot_masses w; plot_mass_errors := plot_mass_errors w;
     plot_co2 := append (plot_co2 w) a;
     plot_embodied_energy := plot_embodied_energy w;
     plot_P_vents := plot_P_vents w; plot_vh2 := plot_vh2 w;
     tank_results_csv := tank_results_csv w |}.

Definition append_embodied_energy (a : Qc) (w : World) : World :=
  {| plot_mats := plot_mats w; plot_mats2 := plot_mats2 w;
     plot_MAWPS := plot_MAWPS w; plot_volumes := plot_volumes w;
     plot_masses := plot_masses w; plot_mass_errors := plot_mass_errors w;
     plot_co2 := plot_co2 w;
     plot_embodied_energy := append (plot_embodied_energy w) a;
     plot_P_vents := plot_P_vents w; plot_vh2 := plot_vh2 w;
     tank_results_csv := tank_results_csv w |}.

Definition append_P_vents (a : Qc) (w : World) : World :=
  {| plot_mats := plot_mats w; plot_mats2 := plot_mats2 w;
     plot_MAWPS := plot_MAWPS w; plot_volumes := plot_volumes w;
     plot_masses := plot_masses w; plot_mass_errors := plot_mass_errors w;
     plot_co2 := plot_co2 w; plot_embodied_energy := plot_embodied_energy w;
     plot_P_vents := append (plot_P_vents w) a; plot_vh2 := plot_vh2 w;
     tank_results_csv := tank_results_csv w |}.

(** [plot_x.append(e)]: evaluating [e] may raise, the append does not. *)
Definition append_to {A} (put : A -> World -> World) (e : result A) : stmt :=
  on_value e (fun a w => (put a w, Ok tt)).

(** Two statements in sequence. *)
Definition and_then (s1 s2 : stmt) : stmt :=
  fun w =>
    match s1 w with
    | (w', Ok _) => s2 w'
    | stopped => stopped
    end.

(** Lines 453-462, the body of [for row in reader:]. *)
Definition read_row (row : list cell) : stmt :=
  and_then (append_to append_mats (getitem row 0))
 (and_then (append_to append_mats2 (getitem row 1))
 (and_then (append_to append_MAWPS (float_at row 2))
 (and_then (append_to append_volumes (float_at row 3))
 (and_then (append_to append_masses (float_at row 4))
 (and_then (append_to append_mass_errors (float_at row 5))
 (and_then (append_to append_vh2 (float_at row 10))
 (and_then (append_to append_co2 (float_at row 12))
 (and_then (append_to append_embodied_energy (float_at row 13))
           (append_to append_P_vents (float_at row 16)))))))))).

(** How [if OPEN:] ends: with one of the two exceptions of the file
    itself ([open] on a missing file, [next] on an empty one), or with
    the loop over the rows after the header. *)
Inductive opened : Type :=
| FileNotFoundError
| StopIteration
| Rows (w : World) (r : result unit).

Definition open_block (w : World) : opened :=
  if OPEN then
    match tank_results_csv w with
    | None => FileNotFoundError
    | Some [] => StopIteration
    | Some (_ :: rows) =>
        let '(w', r) := for_each read_row rows w in Rows w' r
    end
  else Rows w (Ok tt).

End Open.

(** The world [w] with the file [f] in place of its own. *)
Definition with_file (f : option (list (list cell))) (w : World) : World :=
  {| plot_mats := plot_mats w; plot_mats2 := plot_mats2 w;
     plot_MAWPS := plot_MAWPS w; plot_volumes := plot_volumes w;
     plot_masses := plot_masses w; plot_mass_errors := plot_mass_errors w;
     plot_co2 := plot_co2 w; plot_embodied_energy := plot_embodied_energy w;
     plot_P_vents := plot_P_vents w; plot_vh2 := plot_vh2 w;
     tank_results_csv := f |}.

(** ** Stand-ins for the external libraries

    A synthetic fluid with closed-form properties and rational stand-ins
    for the numpy functions and the scipy solvers.  They make every
    definition above executable on concrete inputs; the general theorems
    do not depend on them. *)

Module Synthetic.

(** Saturation line [P = 30000 (T - 17)]; liquid density 70, vapour
    density 2; vapour enthalpy 450000 above the liquid; heat capacities
    10000 and 12000; the liquid expands on heating from 300000 Pa on.
    Above the critical pressure 1286000 Pa a saturation query raises. *)
Definition props (out key : string) (v : Qc) (q : Qc) : result Qc :=
  if negb ((0 <=? q) && (q <=? 1)) then Raise ValueError else
  let Pc := num 1286000 in
  let p := if (key =? "P")%string then v else num 30000 * (v - num 17) in
  if negb ((0 <? p) && (p <? Pc)) then Raise ValueError else
  if (out =? "T")%string then Ok (num 17 + p / num 30000)
  else if (out =? "P")%string then Ok p
  else if (out =? "D")%string then
    Ok (1 / (q / num 2 + (1 - q) / num 70))
  else if (out =? "H")%string then Ok (q * num 450000)
  else if (out =? "d(D)/d(P)|T")%string then Ok 0
  else if (out =? "d(D)/d(T)|P")%string then
    Ok (if (q =? 0) && (num 300000 <=? p) then - (1) else 0)
  else if (out =? "d(H)/d(P)|T")%string then Ok 0
  else if (out =? "d(H)/d(T)|P")%string then
    Ok (if q =? 0 then num 10000 else num 12000)
  else Raise ValueError.

#[export] Instance fluid : CoolProp := {|
  PropsSI out key v _ q _ := props out key v q
|}.

(** Rational stand-ins: [cos] and [tan] through the half-angle
    parametrisation (so that [1/cos^2 = 1 + tan^2] holds exactly), the
    first term of the area-tangent series for [log], one Heron step for
    [sqrt]. *)
Definition half (a : Qc) : Qc := a / num 2.

#[export] Instance numpy : NumPy := {|
  np_pi := num 355 / num 113;
  np_log a := num 2 * (a - 1) / (a + 1);
  np_cos a := (1 - half a ^ 2) / (1 + half a ^ 2);
  np_tan a := num 2 * half a / (1 - half a ^ 2);
  np_sqrt a := (1 + a) / num 2
|}.

(** False position on a bracket with a sign change, until the bracket is
    no wider than [xtol]. *)
Definition xtol : Qc := num 0.01.
Definition maxiter : nat := 100.

Fixpoint falsi (n : nat) (f : Qc -> result Qc) (a fa b fb : Qc)
  : result RootResults :=
  if Qcabs (b - a) <=? xtol then Ok {| root := b; converged := true |}
  else
    match n with
    | O => Ok {| root := b; converged := false |}
    | S n' =>
        let c := (a * fb - b * fa) / (fb - fa) in
        fc <- f c ;;
        if fc =? 0 then Ok {| root := c; converged := true |}
        else if 0 <? fa * fc then falsi n' f c fc b fb
        else falsi n' f a fa c fc
    end.

Definition brentq (f : Qc -> result Qc) (a b : Qc) : result RootResults :=
  fa <- f a ;;
  fb <- f b ;;
  if 0 <? fa * fb then Raise ValueError
  else if fa =? 0 then Ok {| root := a; converged := true |}
  else if fb =? 0 then Ok {| root := b; converged := true |}
  else falsi maxiter f a fa b fb.

(** Newton steps with a forward-difference slope; every iterate is
    rounded down to nine decimals, and the iteration stops when the
    rounded iterate no longer moves. *)
Definition round9 (a : Qc) : Qc :=
  of_int (Qfloor (a * num 1e9)) / num 1e9.

Fixpoint newton (n : nat) (f : Qc -> result Qc) (a : Qc) : result Qc :=
  match n with
  | O => Ok a
  | S n' =>
      fa <- f a ;;
      if fa =? 0 then Ok a
      else
        let h := num 1e-6 in
        fh <- f (a + h) ;;
        let slope := (fh - fa) / h in
        if slope =? 0 then Ok a
        else
          let a' := round9 (a - fa / slope) in
          if a' =? a then Ok a else newton n' f a'
  end.

Definition hybr (f : Qc -> result Qc) (x0 : Qc) : result Qc := newton 20 f x0.

#[export] Instance scipy : SciPy.
Proof.
  refine {| root_scalar := brentq; fsolve := hybr;
            root_scalar_same_sign := _ |}.
  intros f a b fa fb Ha Hb Hs. unfold brentq. rewrite Ha, Hb. cbn [bind].
  unfold Qcltb. rewrite (proj1 (Qclt_alt 0 (fa * fb)) Hs). reflexivity.
Defined.

(** A material row with twice the yield strength. *)
Definition double_yield (p : MatProperty) : MatProperty :=
  row (density p) (num 2 * yield_strength p) (thermal_conductivity p)
    (emissivity p) (co2 p) (ee p) (fibre_ratio p).

(** A bracketing solver that stops after [n] steps of false position. *)
Definition brentq_within (n : nat) (f : Qc -> result Qc) (a b : Qc)
  : result RootResults :=
  fa <- f a ;;
  fb <- f b ;;
  if 0 <? fa * fb then Raise ValueError
  else if fa =? 0 then Ok {| root := a; converged := true |}
  else if fb =? 0 then Ok {| root := b; converged := true |}
  else falsi n f a fa b fb.

(** The solvers with an iteration limit of zero: the root finder checks
    the bracket and reports that it did not converge. *)
Definition impatient : SciPy.
Proof.
  refine {| root_scalar := brentq_within 0; fsolve := hybr;
            root_scalar_same_sign := _ |}.
  intros f a b fa fb Ha Hb Hs. unfold brentq_within. rewrite Ha, Hb.
  cbn [bind]. unfold Qcltb. rewrite (proj1 (Qclt_alt 0 (fa * fb)) Hs).
  reflexivity.
Defined.

(** Numbers as text: a sign, then numerator and denominator in binary,
    lowest bit first, each closed by a full stop; zero is [0]. *)
Fixpoint bits (p : positive) : string :=
  match p with
  | xH => "."
  | xO p' => String "0" (bits p')
  | xI p' => String "1" (bits p')
  end.

Fixpoint read_bits (s : string) : option (positive * string) :=
  match s with
  | String c s' =>
      if (c =? ".")%char then Some (xH, s')
      else if (c =? "0")%char then
        match read_bits s' with
        | Some (p, rest) => Some (xO p, rest)
        | None => None
        end
      else if (c =? "1")%char then
        match read_bits s' with
        | Some (p, rest) => Some (xI p, rest)
        | None => None
        end
      else None
  | EmptyString => None
  end.

Definition to_text (q : Qc) : string :=
  match Qnum q with
  | Z0 => "0"
  | Zpos n => String "+" (bits n ++ bits (Qden q))
  | Zneg n => String "-" (bits n ++ bits (Qden q))
  end.

Definition of_text (s : string) : result Qc :=
  match s with
  | String c s' =>
      if (c =? "0")%char then
        match s' with
        | EmptyString => Ok 0
        | _ => Raise ValueError
        end
      else
        match read_bits s' with
        | Some (n, rest) =>
            match read_bits rest with
            | Some (d, EmptyString) =>
                if (c =? "+")%char then Ok (Q2Qc (Zpos n # d))
                else if (c =? "-")%char then Ok (Q2Qc (Zneg n # d))
                else Raise ValueError
            | _ => Raise ValueError
            end
        | None => Raise ValueError
        end
  | EmptyString => Raise ValueError
  end.

#[export] Instance csv_text : PyText.
Proof.
  refine {| py_str := to_text; py_float := of_text; py_float_str := _ |}.
  assert (Hbits : forall p rest, read_bits (bits p ++ rest) = Some (p, rest))
    by (induction p as [p IH | p IH |]; intros rest; cbn;
        [rewrite IH .. |]; reflexivity).
  assert (Hend : forall p, read_bits (bits p) = Some (p, EmptyString))
    by (induction p as [p IH | p IH |]; cbn; [rewrite IH .. |]; reflexivity).
  intros [[n d] Hc]. unfold to_text. cbn [Qnum Qden this].
  destruct n as [| n | n]; cbn; rewrite ?Hbits, ?Hend; f_equal;
    apply Qc_is_canon; [reflexivity | apply Qred_correct ..].
Defined.

End Synthetic.

(** ** Runs of the integrator that never took the clamp branch

    The states the [while] loop of [maximum_Qin] passes through, from the
    initial one, as long as every iteration so far took the [else] branch
    of line 117. *)
Inductive unclamped_run `{CP : CoolProp} (self : Tank.t) (Qleak : Qc)
  : Tank.vars -> Prop :=
| unclamped_start : unclamped_run self Qleak (Tank.initial self)
| unclamped_next v d v' :
    unclamped_run self Qleak v ->
    (lst 0 (Tank.P v) <? Tank.Pvent self) = true ->
    Tank.differential_matrix self Qleak v = Ok d ->
    Tank.clamps v d = false ->
    Tank.update self v d = Ok v' ->
    unclamped_run self Qleak v'.

(** The shape the eleven lists of [maximum_Qin] keep: [P], [T] and [mg]
    grow in every iteration, the other eight only in iterations that did
    not clamp, and the last time is 250 s per sample after the first. *)
Definition aligned (v : Tank.vars) : Prop :=
  List.length (Tank.T v) = List.length (Tank.P v) /\
  List.length (Tank.mg v) = List.length (Tank.P v) /\
  List.length (Tank.ml v) = List.length (Tank.time v) /\
  List.length (Tank.x v) = List.length (Tank.time v) /\
  List.length (Tank.rhog v) = List.length (Tank.time v) /\
  List.length (Tank.rhol v) = List.length (Tank.time v) /\
  List.length (Tank.hg v) = List.length (Tank.time v) /\
  List.length (Tank.hl v) = List.length (Tank.time v) /\
  List.length (Tank.Ps v) = List.length (Tank.time v) /\
  (1 <= List.length (Tank.time v) <= List.length (Tank.P v))%nat /\
  lst 0%Z (Tank.time v)
  = (Tank.dt * (Z.of_nat (List.length (Tank.time v)) - 1))%Z.

(** * Properties *)

(** ** Comparisons and results *)

Lemma Qcltb_lt (a b : Qc) : (a <? b) = true <-> a < b.
Proof.
  unfold Qcltb. rewrite Qclt_alt.
  destruct (a ?= b); split; congruence.
Qed.

Lemma Qcleb_le (a b : Qc) : (a <=? b) = true <-> a <= b.
Proof.
  unfold Qcleb. rewrite Qcle_alt.
  destruct (a ?= b); split; congruence.
Qed.

Lemma Qcleb_gt (a b : Qc) : (a <=? b) = false <-> b < a.
Proof.
  split; intros H.
  - apply Qcnot_le_lt. intros L. apply Qcleb_le in L. congruence.
  - destruct (a <=? b) eqn:E; [| reflexivity].
    apply Qcleb_le in E. exfalso. exact (Qclt_not_le _ _ H E).
Qed.

Lemma Qcltb_ge (a b : Qc) : (a <? b) = false <-> b <= a.
Proof.
  split; intros H.
  - apply Qcnot_lt_le. intros L. apply Qcltb_lt in L. congruence.
  - destruct (a <? b) eqn:E; [| reflexivity].
    apply Qcltb_lt in E. exfalso. exact (Qcle_not_lt _ _ H E).
Qed.

Lemma Qc_eqb_neq (a b : Qc) : (a =? b) = false -> a <> b.
Proof.
  unfold Qc_eq_bool. destruct (Qc_eq_dec a b); congruence.
Qed.

Lemma Qc_eqb_eq (a b : Qc) : (a =? b) = true -> a = b.
Proof. apply Qc_eq_bool_correct. Qed.

Lemma bind_Ok {A B} (m : result A) (k : A -> result B) (b : B) :
  bind m k = Ok b -> exists a, m = Ok a /\ k a = Ok b.
Proof. destruct m; simpl; intros H; try discriminate. eauto. Qed.

Lemma truediv_Ok (a b c : Qc) :
  truediv a b = Ok c -> b <> 0 /\ c = a / b.
Proof.
  unfold truediv. destruct (b =? 0) eqn:E; intros H; [discriminate |].
  injection H as <-. split; [exact (Qc_eqb_neq _ _ E) | reflexivity].
Qed.

Lemma truediv_nonzero (a b : Qc) : b <> 0 -> truediv a b = Ok (a / b).
Proof.
  intros H. unfold truediv. destruct (b =? 0) eqn:E; [| reflexivity].
  apply Qc_eqb_eq in E. contradiction.
Qed.

(** Peels the binds off a hypothesis [bind m k = Ok b]. *)
Ltac bind_inv H :=
  repeat match type of H with
  | bind _ _ = Ok _ =>
      let a := fresh "r" in
      let E := fresh "E" in
      apply bind_Ok in H; destruct H as (a & E & H)
  end.

(** ** The linear solve *)

Lemma linalg_solve_sound (A : mat4) (B x : vec4) :
  linalg_solve A B = Ok x -> mat_vec A x = B.
Proof.
  unfold linalg_solve. destruct (det4 A =? 0) eqn:E; [discriminate |].
  apply Qc_eqb_neq in E. intros H. injection H as <-.
  destruct A as [[[[[[a11 a12] a13] a14] [[[a21 a22] a23] a24]]
                   [[[a31 a32] a33] a34]] [[[a41 a42] a43] a44]].
  destruct B as [[[b1 b2] b3] b4].
  unfold mat_vec, row_dot, replace_col, det4, det3 in *.
  repeat f_equal; field; exact E.
Qed.

Lemma linalg_solve_row3 (r1 r2 r3 r4 : vec4) (b1 b2 b3 b4 : Qc) (x : vec4) :
  linalg_solve (r1, r2, r3, r4) (b1, b2, b3, b4) = Ok x -> row_dot r3 x = b3.
Proof.
  intros H. apply linalg_solve_sound in H. unfold mat_vec in H.
  injection H as _ _ H3 _. exact H3.
Qed.

(** The third row of the system of [maximum_Qin] is [dmg + dml = 0]. *)
Lemma differential_matrix_mass `{CP : CoolProp} self Qleak v dP dT dmg dml :
  Tank.differential_matrix self Qleak v = Ok (dP, dT, dmg, dml) ->
  dmg + dml = 0.
Proof.
  unfold Tank.differential_matrix. intros H. bind_inv H.
  cbv zeta in H. apply linalg_solve_row3 in H. unfold row_dot in H.
  rewrite <- H. ring.
Qed.

(** ** Lists *)

Lemma lst_append {A} (d : A) (l : list A) (a : A) : lst d (append l a) = a.
Proof. unfold lst, append. apply last_last. Qed.

Lemma Forall2_lst {A} (R : A -> A -> Prop) (d : A) (l1 l2 : list A) :
  Forall2 R l1 l2 -> l1 <> [] -> R (lst d l1) (lst d l2).
Proof.
  unfold lst. induction 1 as [| a b l1 l2 Hab H IH]; [congruence |].
  intros _. destruct H as [| a' b' l1' l2' Hab' H'].
  - exact Hab.
  - apply IH. discriminate.
Qed.

Lemma Forall2_append {A} (R : A -> A -> Prop) (l1 l2 : list A) (a b : A) :
  Forall2 R l1 l2 -> R a b -> Forall2 R (append l1 a) (append l2 b).
Proof.
  intros H Hab. unfold append. apply Forall2_app; [exact H |].
  constructor; [exact Hab | constructor].
Qed.

(** ** One iteration of the integrator *)

Section Integrator.
Context `{CP : CoolProp}.
Variables (self : Tank.t) (Qleak : Qc).

Notation "l [-1]" := (lst (0 : Qc) l) (at level 1, format "l [-1]").

Lemma update_clamped v dP dT dmg dml v' :
  (Tank.mg v)[-1] + of_int Tank.dt * dmg <= 0 ->
  Tank.update self v (dP, dT, dmg, dml) = Ok v' ->
  exists T_sat,
    PropsSI "T" "P" (Tank.next_P self v dP) "Q" (num 0.1) "ParaHydrogen"
    = Ok T_sat /\
    v' = {| Tank.P := append (Tank.P v) (Tank.next_P self v dP);
            Tank.T := append (Tank.T v) T_sat;
            Tank.mg := append (Tank.mg v) 0; Tank.ml := Tank.ml v;
            Tank.rhog := Tank.rhog v; Tank.rhol := Tank.rhol v;
            Tank.hg := Tank.hg v; Tank.hl := Tank.hl v;
            Tank.x := Tank.x v; Tank.Ps := Tank.Ps v;
            Tank.time := Tank.time v |}.
Proof.
  intros Hc H. unfold Tank.update in H. rewrite lst_append in H.
  apply bind_Ok in H. destruct H as (T_sat & ET & H).
  apply Qcleb_le in Hc. rewrite Hc in H. injection H as <-.
  exists T_sat. split; [exact ET | reflexivity].
Qed.

Lemma update_unclamped v dP dT dmg dml v' :
  0 < (Tank.mg v)[-1] + of_int Tank.dt * dmg ->
  Tank.update self v (dP, dT, dmg, dml) = Ok v' ->
  exists T_sat rg rl h_g h_l p_s,
    PropsSI "T" "P" (Tank.next_P self v dP) "Q" (num 0.1) "ParaHydrogen"
    = Ok T_sat /\
    PropsSI "D" "P" (Tank.next_P self v dP) "Q" 1 "ParaHydrogen" = Ok rg /\
    PropsSI "D" "P" (Tank.next_P self v dP) "Q" 0 "ParaHydrogen" = Ok rl /\
    PropsSI "H" "P" (Tank.next_P self v dP) "Q" 1 "ParaHydrogen" = Ok h_g /\
    PropsSI "H" "P" (Tank.next_P self v dP) "Q" 0 "ParaHydrogen" = Ok h_l /\
    PropsSI "P" "T" T_sat "Q" (num 0.5) "ParaHydrogen" = Ok p_s /\
    let mg' := (Tank.mg v)[-1] + of_int Tank.dt * dmg in
    let ml' := (Tank.ml v)[-1] + of_int Tank.dt * dml in
    v' = {| Tank.P := append (Tank.P v) (Tank.next_P self v dP);
            Tank.T := append (Tank.T v) T_sat;
            Tank.mg := append (Tank.mg v) mg';
            Tank.ml := append (Tank.ml v) ml';
            Tank.rhog := append (Tank.rhog v) rg;
            Tank.rhol := append (Tank.rhol v) rl;
            Tank.hg := append (Tank.hg v) h_g;
            Tank.hl := append (Tank.hl v) h_l;
            Tank.x := append (Tank.x v) (mg' / (mg' + ml'));
            Tank.Ps := append (Tank.Ps v) p_s;
            Tank.time := append (Tank.time v)
                           (lst 0%Z (Tank.time v) + Tank.dt)%Z |}.
Proof.
  intros Hc H. unfold Tank.update in H. rewrite !lst_append in H.
  apply bind_Ok in H. destruct H as (T_sat & ET & H).
  apply Qcleb_gt in Hc. rewrite Hc in H.
  bind_inv H. injection H as <-. rewrite ?lst_append in *.
  exists T_sat, r, r0, r1, r2, r3. repeat (split; [assumption |]).
  reflexivity.
Qed.

Lemma clamps_true v dP dT dmg dml :
  Tank.clamps v (dP, dT, dmg, dml) = true <->
  (Tank.mg v)[-1] + of_int Tank.dt * dmg <= 0.
Proof. unfold Tank.clamps. apply Qcleb_le. Qed.

Lemma clamps_false v dP dT dmg dml :
  Tank.clamps v (dP, dT, dmg, dml) = false <->
  0 < (Tank.mg v)[-1] + of_int Tank.dt * dmg.
Proof. unfold Tank.clamps. apply Qcleb_gt. Qed.


(** C1.  During one run of [maximum_Qin], whatever the heat input, in
    every state reached while no iteration has taken the clamp branch the
    vapour and liquid samples add up, pairwise and in particular at the
    latest sample, to the initial fluid mass [mg0 + ml0]: the third row
    of the linear system forces [dmg/dt + dml/dt = 0] and both masses
    take the same Euler step.  (Exact arithmetic: the floating-point
    tolerance of the program is an exact equation here.) *)
Theorem mass_conservation v :
  unclamped_run self Qleak v ->
  Forall2 (fun g l => g + l = Tank.mg0 self + Tank.ml0 self)
    (Tank.mg v) (Tank.ml v) /\
  (Tank.mg v)[-1] + (Tank.ml v)[-1] = Tank.mg0 self + Tank.ml0 self.
Proof.
  intros Hrun.
  assert (Hall : Forall2 (fun g l => g + l = Tank.mg0 self + Tank.ml0 self)
                   (Tank.mg v) (Tank.ml v) /\ Tank.mg v <> []).
  { induction Hrun as [| v d v' Hrun [IH Hne] Hguard Hd Hc Hu].
    - split; [| discriminate]. repeat constructor.
    - destruct d as [[[dP dT] dmg] dml].
      apply clamps_false in Hc.
      destruct (update_unclamped v dP dT dmg dml v' Hc Hu)
        as (T_sat & rg & rl & h_g & h_l & p_s & _ & _ & _ & _ & _ & _ & ->).
      cbn [Tank.mg Tank.ml]. split.
      + apply Forall2_append; [exact IH |].
        pose proof (Forall2_lst _ 0 _ _ IH Hne) as Hlast. cbv beta in Hlast.
        pose proof (differential_matrix_mass _ _ _ _ _ _ _ Hd) as Hsum.
        rewrite <- Hlast.
        replace dml with (- dmg)
          by (rewrite <- (Qcplus_0_l (- dmg)), <- Hsum; ring).
        ring.
      + unfold append. intros E. apply app_eq_nil in E.
        destruct E; discriminate. }
  destruct Hall as [Hall Hne]. split; [exact Hall |].
  exact (Forall2_lst _ 0 _ _ Hall Hne).
Qed.


(** C3.  One pass through the loop body, for the solved derivatives
    [(dP, dT, dmg, dml)].  Pressure and temperature get a new sample in
    both branches.  When the Euler-updated vapour mass is non-positive,
    [0] is appended to the vapour masses and the liquid masses, quality,
    densities, enthalpies, saturation pressures and elapsed times keep
    the samples they had: nothing is appended.  Otherwise every list
    gets one sample (the updated masses and quality, the properties read
    at the new pressure) and the elapsed time advances by [dt = 250]. *)
Theorem clamp_or_advance v dP dT dmg dml v' :
  Tank.differential_matrix self Qleak v = Ok (dP, dT, dmg, dml) ->
  Tank.loop_body self Qleak v = Ok v' ->
  let mg' := (Tank.mg v)[-1] + of_int Tank.dt * dmg in
  let ml' := (Tank.ml v)[-1] + of_int Tank.dt * dml in
  Tank.P v' = append (Tank.P v) (Tank.next_P self v dP) /\
  (exists T_sat,
     PropsSI "T" "P" (Tank.next_P self v dP) "Q" (num 0.1) "ParaHydrogen"
    = Ok T_sat /\
     Tank.T v' = append (Tank.T v) T_sat) /\
  (mg' <= 0 ->
     Tank.mg v' = append (Tank.mg v) 0 /\
     Tank.ml v' = Tank.ml v /\ Tank.x v' = Tank.x v /\
     Tank.rhog v' = Tank.rhog v /\ Tank.rhol v' = Tank.rhol v /\
     Tank.hg v' = Tank.hg v /\ Tank.hl v' = Tank.hl v /\
     Tank.Ps v' = Tank.Ps v /\ Tank.time v' = Tank.time v) /\
  (0 < mg' ->
     Tank.mg v' = append (Tank.mg v) mg' /\
     Tank.ml v' = append (Tank.ml v) ml' /\
     Tank.x v' = append (Tank.x v) (mg' / (mg' + ml')) /\
     (exists rg rl h_g h_l p_s,
        PropsSI "D" "P" (Tank.next_P self v dP) "Q" 1 "ParaHydrogen" = Ok rg /\
        PropsSI "D" "P" (Tank.next_P self v dP) "Q" 0 "ParaHydrogen" = Ok rl /\
        PropsSI "H" "P" (Tank.next_P self v dP) "Q" 1 "ParaHydrogen" = Ok h_g /\
        PropsSI "H" "P" (Tank.next_P self v dP) "Q" 0 "ParaHydrogen" = Ok h_l /\
        PropsSI "P" "T" (Tank.T v')[-1] "Q" (num 0.5) "ParaHydrogen"
          = Ok p_s /\
        Tank.rhog v' = append (Tank.rhog v) rg /\
        Tank.rhol v' = append (Tank.rhol v) rl /\
        Tank.hg v' = append (Tank.hg v) h_g /\
        Tank.hl v' = append (Tank.hl v) h_l /\
        Tank.Ps v' = append (Tank.Ps v) p_s) /\
     Tank.time v' = append (Tank.time v)
                      (lst 0%Z (Tank.time v) + 250)%Z).
Proof.
  intros Hd Hbody mg' ml'. unfold Tank.loop_body in Hbody.
  rewrite Hd in Hbody. cbn [bind] in Hbody.
  destruct (Qclt_le_dec 0 mg') as [Hpos | Hneg].
  - destruct (update_unclamped v dP dT dmg dml v' Hpos Hbody)
      as (T_sat & rg & rl & h_g & h_l & p_s
          & ET & Erg & Erl & Ehg & Ehl & Eps & ->).
    cbn [Tank.P Tank.T Tank.mg Tank.ml Tank.x Tank.rhog Tank.rhol Tank.hg
         Tank.hl Tank.Ps Tank.time].
    split; [reflexivity |].
    split; [exists T_sat; split; [exact ET | reflexivity] |].
    split.
    + intros Hle. exfalso. exact (Qclt_not_le _ _ Hpos Hle).
    + intros _. repeat (split; [reflexivity |]). split; [| reflexivity].
      exists rg, rl, h_g, h_l, p_s. rewrite lst_append.
      repeat (split; [assumption || reflexivity |]). reflexivity.
  - destruct (update_clamped v dP dT dmg dml v' Hneg Hbody)
      as (T_sat & ET & ->).
    cbn [Tank.P Tank.T Tank.mg Tank.ml Tank.x Tank.rhog Tank.rhol Tank.hg
         Tank.hl Tank.Ps Tank.time].
    split; [reflexivity |].
    split; [exists T_sat; split; [exact ET | reflexivity] |].
    split.
    + intros _. repeat (split; [reflexivity |]). reflexivity.
    + intros Hpos. exfalso. exact (Qclt_not_le _ _ Hpos Hneg).
Qed.

End Integrator.

(** ** The loop and its result *)

Section Loop.
Context `{CP : CoolProp}.
Variables (self : Tank.t) (Qleak : Qc).

(** The elapsed time only ever takes whole steps of 250 s. *)
Lemma update_time v d v' :
  Tank.update self v d = Ok v' ->
  (exists n, (0 <= n)%Z /\ lst 0%Z (Tank.time v) = (250 * n)%Z) ->
  exists n, (0 <= n)%Z /\ lst 0%Z (Tank.time v') = (250 * n)%Z.
Proof.
  destruct d as [[[dP dT] dmg] dml]. intros Hu (n & Hn & Ht).
  destruct (Qclt_le_dec 0 (lst 0 (Tank.mg v) + of_int Tank.dt * dmg))
    as [Hpos | Hneg].
  - destruct (update_unclamped _ _ _ _ _ _ _ Hpos Hu)
      as (T_sat & rg & rl & h_g & h_l & p_s & _ & _ & _ & _ & _ & _ & ->).
    cbn [Tank.time]. rewrite lst_append, Ht. exists (n + 1)%Z.
    unfold Tank.dt. split; lia.
  - destruct (update_clamped _ _ _ _ _ _ _ Hneg Hu) as (T_sat & _ & ->).
    cbn [Tank.time]. exists n. split; assumption.
Qed.

Lemma while_loop_time fuel v v' :
  Tank.while_loop fuel self Qleak v = Ok v' ->
  (exists n, (0 <= n)%Z /\ lst 0%Z (Tank.time v) = (250 * n)%Z) ->
  exists n, (0 <= n)%Z /\ lst 0%Z (Tank.time v') = (250 * n)%Z.
Proof.
  revert v. induction fuel as [| fuel IH]; intros v H Hv;
    cbn [Tank.while_loop] in H.
  - destruct (_ <? _); [discriminate |]. injection H as <-. exact Hv.
  - destruct (_ <? _); [| injection H as <-; exact Hv].
    apply bind_Ok in H. destruct H as (v1 & Hbody & H).
    apply (IH v1 H). unfold Tank.loop_body in Hbody.
    apply bind_Ok in Hbody. destruct Hbody as (d & _ & Hu).
    exact (update_time v d v1 Hu Hv).
Qed.

(** Whatever the heat input, the value [maximum_Qin] returns is a whole
    number of time steps minus the dormancy. *)
Lemma maximum_Qin_on_grid fuel r :
  Tank.maximum_Qin fuel self Qleak = Ok r ->
  exists n, (0 <= n)%Z /\
    r = of_int (250 * n) / num 3600 - of_int (Tank.dormancy self).
Proof.
  unfold Tank.maximum_Qin. intros H. apply bind_Ok in H.
  destruct H as (v & Hloop & H). injection H as <-.
  destruct (while_loop_time fuel _ v Hloop) as (n & Hn & Ht).
  - exists 0%Z. split; [lia | reflexivity].
  - exists n. split; [exact Hn |]. unfold Tank.objective. rewrite Ht.
    reflexivity.
Qed.

Lemma while_loop_S fuel v :
  Tank.while_loop (S fuel) self Qleak v =
  if lst 0 (Tank.P v) <? Tank.Pvent self
  then bind (Tank.loop_body self Qleak v) (Tank.while_loop fuel self Qleak)
  else Ok v.
Proof. reflexivity. Qed.

(** More fuel does not change a run that ended. *)
Lemma while_loop_fuel fuel v :
  Tank.while_loop fuel self Qleak v <> OutOfFuel ->
  Tank.while_loop (S fuel) self Qleak v = Tank.while_loop fuel self Qleak v.
Proof.
  revert v. induction fuel as [| fuel IH]; intros v H.
  - cbn [Tank.while_loop] in *. destruct (_ <? _); [congruence | reflexivity].
  - rewrite (while_loop_S (S fuel)). rewrite (while_loop_S fuel) in H |- *.
    destruct (_ <? _); [| reflexivity].
    destruct (Tank.loop_body self Qleak v) as [v1 | e |]; cbn [bind] in *;
      [apply IH; exact H | reflexivity | reflexivity].
Qed.

(** The states of an unclamped run are states the [while] loop passes
    through: the loop started in the initial state continues from them. *)
Lemma unclamped_run_loop v :
  unclamped_run self Qleak v ->
  exists k, forall fuel,
    Tank.while_loop (k + fuel) self Qleak (Tank.initial self)
    = Tank.while_loop fuel self Qleak v.
Proof.
  induction 1 as [| v d v' Hrun [k IH] Hguard Hd Hc Hu].
  - exists 0%nat. reflexivity.
  - exists (S k). intros fuel.
    replace (S k + fuel)%nat with (k + S fuel)%nat by lia.
    rewrite IH, while_loop_S, Hguard. unfold Tank.loop_body.
    rewrite Hd. cbn [bind]. rewrite Hu. reflexivity.
Qed.

Lemma maximum_Qin_fuel fuel :
  Tank.maximum_Qin fuel self Qleak <> OutOfFuel ->
  Tank.maximum_Qin (S fuel) self Qleak = Tank.maximum_Qin fuel self Qleak.
Proof.
  unfold Tank.maximum_Qin. intros H. rewrite while_loop_fuel; [reflexivity |].
  intros E. rewrite E in H. apply H. reflexivity.
Qed.

End Loop.

(** What [__init__] fixes, whatever its arguments. *)
Lemma init_constants `{CP : CoolProp} MAWP material material2 mat_property
    mass_h2 mat2_property fill V_in p_vent self :
  Tank.__init__ MAWP material material2 mat_property mass_h2 mat2_property
    fill V_in p_vent = Ok self ->
  Tank.dormancy self = 24%Z /\ Tank.Q_leak_min self = num 10 /\
  Tank.Q_leak_max self = num 1000 /\ Tank.R_in self = num 0.8 /\
  Tank.material self = material /\ Tank.mat_property self = mat_property /\
  Tank.MAWP self = MAWP.
Proof.
  unfold Tank.__init__. intros H. bind_inv H. injection H as <-.
  cbn. repeat split.
Qed.

(** No whole number of 250 s steps comes within 100 s of 24 h. *)
Lemma objective_gap (n : Z) :
  (0 <= n)%Z ->
  num (1 / 36) <= Qcabs (of_int (250 * n) / num 3600 - of_int 24).
Proof.
  intros Hn.
  assert (Hcase : (250 * n <= 86250)%Z \/ (86500 <= 250 * n)%Z) by lia.
  clear Hn. generalize dependent (250 * n)%Z. clear n. intros m Hcase.
  set (r := of_int m / num 3600 - of_int 24).
  assert (Hr : (this r == inject_Z m / 3600 - inject_Z 24)%Q).
  { unfold r, of_int, num, Qcminus, Qcplus, Qcopp, Qcdiv, Qcmult, Qcinv, Q2Qc.
    cbn [this]. rewrite !Qred_correct. reflexivity. }
  destruct Hcase as [Hlo | Hhi].
  - assert (Hneg : r <= 0).
    { unfold Qcle. rewrite Hr. cbn [this Q2Qc].
      unfold Qle, Qminus, Qplus, Qopp, Qdiv, Qmult, Qinv, inject_Z. cbn. lia. }
    rewrite (Qcabs_neg _ Hneg).
    unfold Qcle, Qcopp, num, Q2Qc. cbn [this]. rewrite !Qred_correct, Hr.
    unfold Qle, Qminus, Qplus, Qopp, Qdiv, Qmult, Qinv, inject_Z. cbn. lia.
  - assert (Hpos : 0 <= r).
    { unfold Qcle. rewrite Hr. cbn [this Q2Qc].
      unfold Qle, Qminus, Qplus, Qopp, Qdiv, Qmult, Qinv, inject_Z. cbn. lia. }
    rewrite (Qcabs_pos _ Hpos).
    unfold Qcle, num, Q2Qc. cbn [this]. rewrite !Qred_correct, Hr.
    unfold Qle, Qminus, Qplus, Qopp, Qdiv, Qmult, Qinv, inject_Z. cbn. lia.
Qed.

(** ** The dormancy root finder *)

Section Dormancy.
Context `{CP : CoolProp} `{SP : SciPy}.
Variables (fuel : nat) (material material2 : string)
  (mat_property mat2_property : MatProperty)
  (MAWP mass_h2 Q_str str_mass fill_ratio V_in P_vent : Qc).

(** A value [compute_Qleak] returns is the root brentq reported as
    converged on the bracket [10, 1000]. *)
Lemma compute_Qleak_Ok self Qmax :
  Tank.__init__ MAWP material material2 mat_property mass_h2 mat2_property
    fill_ratio V_in P_vent = Ok self ->
  compute_Qleak fuel material material2 mat_property MAWP mass_h2 Q_str
    mat2_property str_mass fill_ratio V_in P_vent = Ok Qmax ->
  root_scalar (Tank.maximum_Qin fuel self) (num 10) (num 1000)
  = Ok {| root := Qmax; converged := true |}.
Proof.
  intros Hinit H. unfold compute_Qleak in H. rewrite Hinit in H.
  cbn [bind] in H.
  destruct (init_constants _ _ _ _ _ _ _ _ _ _ Hinit)
    as (_ & Hmin & Hmax & _).
  rewrite Hmin, Hmax in H.
  destruct (root_scalar _ _ _) as [[q c] | e |]; cbn [bind] in H;
    try discriminate.
  cbn [converged root] in H. destruct c; [| discriminate].
  injection H as ->. reflexivity.
Qed.

(** C2, as the code has it.  Feed the heat leak [compute_Qleak] returned
    (the root brentq reported as converged on the bracket [10, 1000]) back
    into [maximum_Qin]: the elapsed time is a whole number [n] of 250 s
    steps, so the result [250 n / 3600 - 24] is never zero and stays at
    least 1/36 h (100 s) away from the 24 h dormancy.  The returned heat
    leak is a point where the step-shaped objective changes sign, not a
    zero of it. *)
Theorem round_trip_off_grid fuel' self Qmax r :
  Tank.__init__ MAWP material material2 mat_property mass_h2 mat2_property
    fill_ratio V_in P_vent = Ok self ->
  compute_Qleak fuel material material2 mat_property MAWP mass_h2 Q_str
    mat2_property str_mass fill_ratio V_in P_vent = Ok Qmax ->
  Tank.maximum_Qin fuel' self Qmax = Ok r ->
  root_scalar (Tank.maximum_Qin fuel self) (num 10) (num 1000)
  = Ok {| root := Qmax; converged := true |} /\
  (exists n, (0 <= n)%Z /\ r = of_int (250 * n) / num 3600 - of_int 24) /\
  num (1 / 36) <= Qcabs r.
Proof.
  intros Hinit Hq Hr. split; [exact (compute_Qleak_Ok self Qmax Hinit Hq) |].
  destruct (maximum_Qin_on_grid _ _ _ _ Hr) as (n & Hn & ->).
  destruct (init_constants _ _ _ _ _ _ _ _ _ _ Hinit) as (-> & _).
  split; [exists n; split; [exact Hn | reflexivity] |].
  exact (objective_gap n Hn).
Qed.

(** C5.  When the dormancy objective has the same strict sign at both
    ends of the bracket [10, 1000], [compute_Qleak] ends in the solver's
    [ValueError] (the root-finding error of the design): the exception
    reaches the caller and no heat-leak value is returned in its place. *)
Theorem no_sign_change_raises self fa fb :
  Tank.__init__ MAWP material material2 mat_property mass_h2 mat2_property
    fill_ratio V_in P_vent = Ok self ->
  Tank.maximum_Qin fuel self (num 10) = Ok fa ->
  Tank.maximum_Qin fuel self (num 1000) = Ok fb ->
  0 < fa * fb ->
  compute_Qleak fuel material material2 mat_property MAWP mass_h2 Q_str
    mat2_property str_mass fill_ratio V_in P_vent = Raise ValueError.
Proof.
  intros Hinit Ha Hb Hs. unfold compute_Qleak. rewrite Hinit. cbn [bind].
  destruct (init_constants _ _ _ _ _ _ _ _ _ _ Hinit) as (_ & -> & -> & _).
  rewrite (root_scalar_same_sign _ _ _ fa fb Ha Hb Hs). reflexivity.
Qed.

End Dormancy.

(** C10.  Two tanks built from the same arguments except [mass_h2] give
    the same result of [maximum_Qin] for every heat input (and every
    fuel): the initial masses come from the volume, the fill ratio and
    the saturation densities at the fixed initial pressure. *)
Theorem mass_h2_irrelevant `{CP : CoolProp} MAWP material material2
    mat_property mat2_property fill V_in p_vent m1 m2 self1 self2 :
  Tank.__init__ MAWP material material2 mat_property m1 mat2_property
    fill V_in p_vent = Ok self1 ->
  Tank.__init__ MAWP material material2 mat_property m2 mat2_property
    fill V_in p_vent = Ok self2 ->
  forall fuel Qleak,
    Tank.maximum_Qin fuel self1 Qleak = Tank.maximum_Qin fuel self2 Qleak.
Proof.
  unfold Tank.__init__. intros H1 H2. bind_inv H1.
  repeat match goal with
         | Ea : ?m = Ok ?a, Eb : ?m = Ok ?b |- _ =>
             assert_fails (constr_eq a b);
             assert (Hab : a = b) by congruence; subst b; clear Eb
         end.
  repeat match goal with
         | Heq : PropsSI _ _ _ _ _ _ = Ok _ |- _ =>
             rewrite Heq in H2; cbn [bind] in H2; clear Heq
         | Heq : truediv _ _ = Ok _ |- _ =>
             rewrite Heq in H2; cbn [bind] in H2; clear Heq
         end.
  injection H1 as <-. injection H2 as <-.
  intros fuel Qleak. unfold Tank.maximum_Qin.
  match goal with |- bind (Tank.while_loop _ ?s1 _ (Tank.initial ?s1)) _ =
                     bind (Tank.while_loop _ ?s2 _ (Tank.initial ?s2)) _ =>
    change (Tank.initial s2) with (Tank.initial s1);
    assert (Hloop : forall v, Tank.while_loop fuel s1 Qleak v
                              = Tank.while_loop fuel s2 Qleak v)
  end.
  { induction fuel as [| fuel IH]; intros v; [reflexivity |].
    rewrite !while_loop_S.
    match goal with
    | |- (if _ then bind ?a _ else _) = (if _ then bind ?b _ else _) =>
        change b with a
    end.
    cbn [Tank.Pvent]. destruct (_ <? _); [| reflexivity].
    destruct (Tank.loop_body _ _ _); cbn [bind]; [apply IH | reflexivity ..]. }
  rewrite Hloop. reflexivity.
Qed.

(** ** The insulation heat balance *)

Section HeatBalance.
Context `{NP : NumPy} `{SP : SciPy}.
Variables (self : Tank.t)
  (L_in_max Q_str t1 emis_mli k_vac t_mli k_mli Qmax : Qc).


End HeatBalance.

(** ** Shell thickness *)

Section Thickness.
Context `{NP : NumPy}.

(** C7.  For an inner material that is not one of the two composites
    (and a yield strength that is not zero) the method returns
    [P_test * R_in / yield_strength] with winding angle 0.  With the
    radius fixed, a test pressure [k] times as large gives [k] times the
    thickness, and a yield strength [k] times as large gives the
    thickness divided by [k]. *)
Theorem isotropic_thickness (self other : Tank.t) (k : Qc) :
  Tank.composite (Tank.material self) = false ->
  Tank.composite (Tank.material other) = false ->
  yield_strength (Tank.mat_property self) <> 0 ->
  k <> 0 ->
  Tank.R_in other = Tank.R_in self ->
  let th := Tank.P_test self * Tank.R_in self
            / yield_strength (Tank.mat_property self) in
  Tank.inner_tank_thickness self = Ok (th, num 0) /\
  (Tank.P_test other = k * Tank.P_test self ->
   yield_strength (Tank.mat_property other)
   = yield_strength (Tank.mat_property self) ->
   Tank.inner_tank_thickness other = Ok (k * th, num 0)) /\
  (Tank.P_test other = Tank.P_test self ->
   yield_strength (Tank.mat_property other)
   = k * yield_strength (Tank.mat_property self) ->
   Tank.inner_tank_thickness other = Ok (th / k, num 0)).
Proof.
  intros Hs Ho Hy Hk HR th. unfold Tank.inner_tank_thickness.
  rewrite Hs, Ho. split; [| split].
  - rewrite (truediv_nonzero _ _ Hy). reflexivity.
  - intros HP HY. rewrite HP, HY, HR, (truediv_nonzero _ _ Hy). cbn [bind].
    do 2 f_equal. unfold th. field. exact Hy.
  - intros HP HY. rewrite HP, HY, HR.
    assert (Hky : k * yield_strength (Tank.mat_property self) <> 0).
    { intros E. apply Qcmult_integral in E. destruct E; contradiction. }
    rewrite (truediv_nonzero _ _ Hky). cbn [bind].
    do 2 f_equal. unfold th. field. split; assumption.
Qed.

(** The search keeps the smallest thickness met so far and the first
    angle that reached it. *)
Lemma angle_search_spec (f : Qc -> Qc) (l : list Qc) (t0 a0 : Qc) :
  let '(t, a) := Tank.angle_search f l t0 a0 in
  (forall c, In c l -> t <= f c) /\
  ((t = t0 /\ a = a0 /\ forall c, In c l -> t0 <= f c) \/
   (t < t0 /\ exists pre post,
      l = (pre ++ a :: post)%list /\ f a = t /\
      forall c, In c pre -> t < f c)).
Proof.
  unfold Tank.angle_search. revert t0 a0.
  induction l as [| c l IH]; intros t0 a0; cbn [fold_left].
  - split; [intros c [] |]. left. split; [reflexivity |].
    split; [reflexivity | intros c []].
  - unfold Tank.keep_smaller at 2. cbn [fst].
    destruct (f c <? t0) eqn:Ec.
    + apply Qcltb_lt in Ec. specialize (IH (f c) c).
      destruct (fold_left _ l (f c, c)) as [t a].
      destruct IH as [Hall Hcase]. 
      assert (Htc : t <= f c).
      { destruct Hcase as [(-> & _) | (Hlt & _)];
          [apply Qcle_refl | apply Qclt_le_weak; exact Hlt]. }
      split.
      * intros c' [<- | Hin]; [exact Htc | exact (Hall c' Hin)].
      * right. split; [exact (Qcle_lt_trans _ _ _ Htc Ec) |].
        destruct Hcase
          as [(-> & -> & _) | (Hlt & pre & post & -> & Hfa & Hpre)].
        -- exists []%list, l. split; [reflexivity |].
           split; [reflexivity | intros c' []].
        -- exists (c :: pre)%list, post. split; [reflexivity |].
           split; [exact Hfa |].
           intros c' [<- | Hin]; [exact Hlt | exact (Hpre c' Hin)].
    + apply Qcltb_ge in Ec. specialize (IH t0 a0).
      destruct (fold_left _ l (t0, a0)) as [t a].
      destruct IH as [Hall Hcase].
      assert (Htt : t <= t0).
      { destruct Hcase as [(-> & _) | (Hlt & _)];
          [apply Qcle_refl | apply Qclt_le_weak; exact Hlt]. }
      split.
      * intros c' [<- | Hin];
          [exact (Qcle_trans _ _ _ Htt Ec) | exact (Hall c' Hin)].
      * destruct Hcase
          as [(-> & -> & Hl) | (Hlt & pre & post & -> & Hfa & Hpre)].
        -- left. split; [reflexivity |]. split; [reflexivity |].
           intros c' [<- | Hin]; [exact Ec | exact (Hl c' Hin)].
        -- right. split; [exact Hlt |].
           exists (c :: pre)%list, post. split; [reflexivity |].
           split; [exact Hfa |].
           intros c' [<- | Hin];
             [exact (Qclt_le_trans _ _ _ Hlt Ec) | exact (Hpre c' Hin)].
Qed.

(** C8.  For a composite inner material the search over the three
    winding angles returns an angle that is one of the candidates and a
    thickness that is at most the netting thickness at every candidate;
    every candidate listed before the returned angle has a strictly
    larger thickness, so among equal minima the first one wins; and as
    soon as some candidate lies below the initial bound 1000 the returned
    thickness is the netting thickness at the returned angle.  (The
    divisors of the netting formula are assumed non-zero: numpy would
    give [inf] or [nan] there.) *)
Theorem composite_thickness_search (self : Tank.t) :
  Tank.composite (Tank.material self) = true ->
  yield_strength (Tank.mat_property self) <> 0 ->
  fibre_ratio (Tank.mat_property self) <> 0 ->
  (forall c, In c Tank.angle -> np_cos c <> 0) ->
  let thickness :=
    Tank.netting_thickness (Tank.P_test self * Tank.R_in self)
      (Tank.P_test self * Tank.R_in self / num 2) (Tank.mat_property self) in
  exists t a,
    Tank.inner_tank_thickness self = Ok (t, a) /\
    In a Tank.angle /\
    (forall c, In c Tank.angle -> t <= thickness c) /\
    (exists pre post,
       Tank.angle = (pre ++ a :: post)%list /\
       forall c, In c pre -> t < thickness c) /\
    ((exists c, In c Tank.angle /\ thickness c < num 1000) ->
     t = thickness a).
Proof.
  intros Hc _ _ _ thickness. unfold Tank.inner_tank_thickness. rewrite Hc.
  pose proof (angle_search_spec thickness Tank.angle (num 1000) (num 0)) as H.
  fold thickness.
  destruct (Tank.angle_search thickness Tank.angle (num 1000) (num 0))
    as [t a].
  destruct H as [Hall Hcase]. exists t, a. split; [reflexivity |].
  destruct Hcase as [(-> & -> & Hl) | (Hlt & pre & post & Hsplit & Hfa & Hpre)].
  - split; [left; reflexivity |]. split; [exact Hall |].
    split.
    + exists []%list, [num 90; num 0.1]%list.
      split; [reflexivity | intros c []].
    + intros (c & Hin & Hlt). exfalso.
      exact (Qclt_not_le _ _ Hlt (Hl c Hin)).
  - split; [rewrite Hsplit; apply in_elt |]. split; [exact Hall |].
    split; [exists pre, post; split; [exact Hsplit | exact Hpre] |].
    intros _. symmetry. exact Hfa.
Qed.

End Thickness.

(** ** The sweep *)

Lemma for_each_app {A} (body : A -> stmt) (l1 l2 : list A) (w : World) :
  for_each body (l1 ++ l2) w =
  match for_each body l1 w with
  | (w', Ok _) => for_each body l2 w'
  | stopped => stopped
  end.
Proof.
  revert w. induction l1 as [| a l1 IH]; intros w; cbn [for_each app].
  - reflexivity.
  - destruct (body a w) as [w' [[] | e |]]; [apply IH | reflexivity ..].
Qed.

Lemma for_each_map {A B} (h : A -> B) (body : B -> stmt) (l : list A)
    (w : World) :
  for_each body (map h l) w = for_each (fun a => body (h a)) l w.
Proof.
  revert w. induction l as [| a l IH]; intros w; cbn [for_each map].
  - reflexivity.
  - destruct (body (h a) w) as [w' [[] | e |]]; [apply IH | reflexivity ..].
Qed.

Lemma for_each_ext {A} (body body' : A -> stmt) (l : list A) (w : World) :
  (forall a w', In a l -> body a w' = body' a w') ->
  for_each body l w = for_each body' l w.
Proof.
  revert w. induction l as [| a l IH]; intros w H; cbn [for_each].
  - reflexivity.
  - rewrite <- (H a w (or_introl eq_refl)).
    destruct (body a w) as [w' [[] | e |]]; [| reflexivity ..].
    apply IH. intros a' w'' Hin. apply H. right. exact Hin.
Qed.

Lemma for_each_flat_map {A B} (f : A -> list B) (body : B -> stmt)
    (l : list A) (w : World) :
  for_each body (flat_map f l) w = for_each (fun a => for_each body (f a)) l w.
Proof.
  revert w. induction l as [| a l IH]; intros w; cbn [for_each flat_map].
  - reflexivity.
  - rewrite for_each_app.
    destruct (for_each body (f a) w) as [w' [[] | e |]];
      [apply IH | reflexivity ..].
Qed.

Section SweepFacts.
Context `{CP : CoolProp} `{NP : NumPy} `{SP : SciPy}.
Variable fuel : nat.
Variables (materials : list string) (mat_properties : list MatProperty).

Lemma sweep_flat (P_vents : list Qc) (w : World) :
  combine materials mat_properties <> [] ->
  sweep fuel materials mat_properties P_vents w
  = for_each (visit fuel materials mat_properties)
      (combinations materials mat_properties P_vents) w.
Proof.
  intros Hne. unfold sweep, combinations. rewrite for_each_flat_map.
  apply for_each_ext. intros P_vent w' _.
  rewrite for_each_flat_map.
  unfold on_value at 1.
  destruct (per_vent fuel materials mat_properties P_vent)
    as [[[V_in fill_ratio] Qmax] | e |] eqn:Ev.
  - apply for_each_ext. intros inner w1 _. rewrite for_each_map.
    apply for_each_ext. intros outer w2 _.
    unfold visit, sizing_of. rewrite Ev. reflexivity.
  - destruct (combine materials mat_properties) as [| p ps]; [congruence |].
    cbn [for_each map]. unfold visit at 1, sizing_of. rewrite Ev.
    destruct p. reflexivity.
  - destruct (combine materials mat_properties) as [| p ps]; [congruence |].
    cbn [for_each map]. unfold visit at 1, sizing_of. rewrite Ev.
    destruct p. reflexivity.
Qed.

Lemma combinations_no_pairs (P_vents : list Qc) :
  combine materials mat_properties = [] ->
  combinations materials mat_properties P_vents = [].
Proof.
  intros E. unfold combinations. rewrite E.
  induction P_vents as [| p ps IH]; [reflexivity | exact IH].
Qed.

Lemma visit_loop_stops (pre post : list combination) (c : combination)
    (e : exn) (w : World) :
  (forall c', In c' pre ->
     is_ok (sizing_of fuel materials mat_properties c') = true) ->
  sizing_of fuel materials mat_properties c = Raise e ->
  for_each (visit fuel materials mat_properties) (pre ++ c :: post) w
  = (stored fuel materials mat_properties pre w, Raise e).
Proof.
  revert w. induction pre as [| c0 pre IH]; intros w Hpre Hc.
  - cbn [app for_each stored]. unfold visit.
    destruct c as [[P_vent inner] outer].
    rewrite Hc. reflexivity.
  - cbn [app for_each stored].
    pose proof (Hpre c0 (or_introl eq_refl)) as H0.
    unfold visit at 1. destruct c0 as [[P_vent inner] outer].
    destruct (sizing_of fuel materials mat_properties (P_vent, inner, outer))
      as [r | e0 |]; try discriminate.
    cbn [on_value]. apply IH; [| exact Hc].
    intros c' Hin. apply Hpre. right. exact Hin.
Qed.

(** The vent pressures stored for combinations that were all sized. *)
Lemma stored_plot_P_vents (cs : list combination) (w : World) :
  (forall c, In c cs ->
     is_ok (sizing_of fuel materials mat_properties c) = true) ->
  plot_P_vents (stored fuel materials mat_properties cs w)
  = (plot_P_vents w ++ map (fun c => fst (fst c)) cs)%list.
Proof.
  revert w. induction cs as [| [[P_vent inner] outer] cs IH]; intros w H.
  - cbn [stored map]. rewrite app_nil_r. reflexivity.
  - cbn [stored map fst].
    pose proof (H _ (or_introl eq_refl)) as H0.
    destruct (sizing_of fuel materials mat_properties (P_vent, inner, outer))
      as [r | e |]; try discriminate.
    rewrite IH by (intros c Hin; apply H; right; exact Hin).
    cbn [store plot_P_vents]. unfold append. rewrite <- app_assoc.
    reflexivity.
Qed.

(** C9, as the code has it.  The sweep has no handler around the sizing
    calls.  When, in the order of the three loops, every combination
    before [c] is sized and sizing [c] raises [e], the sweep ends with
    [e] at that point: the world holds exactly the results stored for the
    combinations before [c]; no later combination is sized, and nothing
    in the world records the failure. *)
Theorem sweep_stops_at_first_error (P_vents : list Qc)
    (pre post : list combination) (c : combination) (e : exn) (w : World) :
  combinations materials mat_properties P_vents = (pre ++ c :: post)%list ->
  (forall c', In c' pre ->
     is_ok (sizing_of fuel materials mat_properties c') = true) ->
  sizing_of fuel materials mat_properties c = Raise e ->
  sweep fuel materials mat_properties P_vents w
  = (stored fuel materials mat_properties pre w, Raise e).
Proof.
  intros Hsplit Hpre Hc. rewrite sweep_flat.
  - rewrite Hsplit. exact (visit_loop_stops pre post c e w Hpre Hc).
  - intros E. rewrite (combinations_no_pairs P_vents E) in Hsplit.
    destruct pre; discriminate.
Qed.

End SweepFacts.

(** * Further properties *)

(** ** Order on the rationals *)

Lemma Qcmult_pos_pos (a b : Qc) : 0 < a -> 0 < b -> 0 < a * b.
Proof.
  intros Ha Hb. pose proof (Qcmult_lt_compat_r 0 a b Hb Ha) as H.
  rewrite Qcmult_0_l in H. exact H.
Qed.

Lemma Qcmult_neg_neg (a b : Qc) : a < 0 -> b < 0 -> 0 < a * b.
Proof.
  intros Ha Hb. replace (a * b) with ((- a) * (- b)) by ring.
  apply Qcmult_pos_pos.
  - apply (proj1 (Qclt_minus_iff a 0)) in Ha. rewrite Qcplus_0_l in Ha.
    exact Ha.
  - apply (proj1 (Qclt_minus_iff b 0)) in Hb. rewrite Qcplus_0_l in Hb.
    exact Hb.
Qed.

Lemma Qclt_0_minus (a b : Qc) : a < b -> 0 < b - a.
Proof. intros H. apply (proj1 (Qclt_minus_iff a b)). exact H. Qed.

Lemma Qclt_minus_0 (a b : Qc) : a < b -> a - b < 0.
Proof.
  intros H. apply (proj2 (Qclt_minus_iff (a - b) 0)).
  replace (0 + - (a - b)) with (b - a) by ring. exact (Qclt_0_minus a b H).
Qed.

Lemma Qcle_0_minus (a b : Qc) : a <= b -> 0 <= b - a.
Proof. intros H. apply (proj1 (Qcle_minus_iff a b)). exact H. Qed.

Lemma Qcmult_nonneg (a b : Qc) : 0 <= a -> 0 <= b -> 0 <= a * b.
Proof.
  intros Ha Hb. pose proof (Qcmult_le_compat_r 0 a b Ha Hb) as H.
  rewrite Qcmult_0_l in H. exact H.
Qed.

Lemma Qcplus_nonneg (a b : Qc) : 0 <= a -> 0 <= b -> 0 <= a + b.
Proof.
  intros Ha Hb. pose proof (Qcplus_le_compat 0 a 0 b Ha Hb) as H.
  rewrite Qcplus_0_l in H. exact H.
Qed.

Lemma Qcplus_nonneg_pos (a b : Qc) : 0 <= a -> 0 < b -> 0 < a + b.
Proof.
  intros Ha Hb. apply Qclt_le_trans with b; [exact Hb |].
  pose proof (Qcplus_le_compat 0 a b b Ha (Qcle_refl b)) as H.
  rewrite Qcplus_0_l in H. exact H.
Qed.

Lemma Qcpos_neq (a : Qc) : 0 < a -> a <> 0.
Proof. intros H E. rewrite E in H. exact (Qclt_not_le _ _ H (Qcle_refl _)). Qed.

Lemma Qcinv_pos (d : Qc) : 0 < d -> 0 < / d.
Proof.
  unfold Qclt. cbn [this Qcinv Q2Qc]. rewrite !Qred_correct.
  apply Qinv_lt_0_compat.
Qed.

Lemma Qcmult_le_mono (a b c d : Qc) :
  0 <= a -> a <= b -> 0 <= c -> c <= d -> a * c <= b * d.
Proof.
  intros Ha Hab Hc Hcd.
  apply Qcle_trans with (b * c).
  - apply Qcmult_le_compat_r; assumption.
  - rewrite (Qcmult_comm b c), (Qcmult_comm b d).
    apply Qcmult_le_compat_r; [assumption |].
    exact (Qcle_trans _ _ _ Ha Hab).
Qed.

(** Sums and products of non-negative terms. *)
Ltac nonneg :=
  repeat first
    [ assumption
    | apply Qcmult_nonneg
    | apply Qcplus_nonneg
    | apply Qclt_le_weak; assumption
    | apply Qcleb_le; vm_compute; reflexivity ].

(** ** The integrator: where it starts, stalls and fails *)

(** What [__init__] keeps of its arguments. *)
Lemma init_inputs `{CP : CoolProp} MAWP material material2 mat_property
    mass_h2 mat2_property fill V_in p_vent self :
  Tank.__init__ MAWP material material2 mat_property mass_h2 mat2_property
    fill V_in p_vent = Ok self ->
  Tank.V_in self = V_in /\ Tank.Pvent self = p_vent /\
  Tank.P0 self = num 101000 /\ Tank.material2 self = material2 /\
  Tank.mat2_property self = mat2_property /\ Tank.fill_ratio self = fill.
Proof.
  unfold Tank.__init__. intros H. bind_inv H. injection H as <-.
  cbn. repeat split.
Qed.

(** With a zero right-hand side the solve returns the zero vector. *)
Lemma linalg_solve_zero (A : mat4) (x : vec4) :
  linalg_solve A (0, 0, 0, 0) = Ok x -> x = (0, 0, 0, 0).
Proof.
  unfold linalg_solve. destruct (det4 A =? 0); [discriminate |].
  intros H. injection H as <-.
  destruct A as [[[[[[a11 a12] a13] a14] [[[a21 a22] a23] a24]]
                   [[[a31 a32] a33] a34]] [[[a41 a42] a43] a44]].
  unfold replace_col, det4, det3.
  repeat f_equal; unfold Qcdiv; ring.
Qed.

(** A system whose second and fourth rows vanish in the last two columns
    has no unique solution. *)
Lemma linalg_solve_degenerate (a12 a21 a22 c a42 e : Qc) (B : vec4) :
  c = 0 -> e = 0 ->
  linalg_solve ((1, a12, 0, 0), (a21, a22, c, 0), (0, 0, 1, 1),
                (0, a42, e, 0)) B = Raise LinAlgError.
Proof.
  intros -> ->. unfold linalg_solve.
  replace (det4 _) with (0 : Qc) by (unfold det4, det3; ring).
  reflexivity.
Qed.

Section IntegratorMore.
Context `{CP : CoolProp}.
Variables (self : Tank.t) (Qleak : Qc).

Notation "l [-1]" := (lst (0 : Qc) l) (at level 1, format "l [-1]").

(** The loop does not start when the pressure is already at the vent
    pressure. *)
Lemma while_loop_at_vent fuel :
  Tank.Pvent self <= Tank.P0 self ->
  Tank.while_loop fuel self Qleak (Tank.initial self)
  = Ok (Tank.initial self).
Proof.
  intros H.
  destruct fuel; cbn [Tank.while_loop Tank.initial Tank.P];
    unfold lst; cbn [last];
    rewrite (proj2 (Qcltb_ge _ _) H); reflexivity.
Qed.

(** The objective before any time has passed. *)
Lemma objective_initial :
  Tank.objective self (Tank.initial self) = - of_int (Tank.dormancy self).
Proof.
  unfold Tank.objective. cbn [Tank.initial Tank.time]. unfold lst. cbn [last].
  apply Qc_is_canon.
  unfold of_int, num, Qcminus, Qcplus, Qcopp, Qcdiv, Qcmult, Qcinv, Q2Qc.
  cbn [this]. rewrite !Qred_correct.
  unfold Qeq, Qplus, Qopp, Qmult, Qinv, inject_Z. cbn. lia.
Qed.

(** With no heat the solved derivatives are all zero. *)
Lemma differential_matrix_zero v d :
  Tank.differential_matrix self 0 v = Ok d -> d = (0, 0, 0, 0).
Proof.
  unfold Tank.differential_matrix. intros H. bind_inv H.
  cbv zeta in H. exact (linalg_solve_zero _ _ H).
Qed.

(** Every sample of [P] an iteration appends is [next_P]. *)
Lemma update_P v dP dT dmg dml v' :
  Tank.update self v (dP, dT, dmg, dml) = Ok v' ->
  (Tank.P v')[-1] = Tank.next_P self v dP.
Proof.
  intros Hu.
  destruct (Qclt_le_dec 0 ((Tank.mg v)[-1] + of_int Tank.dt * dmg))
    as [Hpos | Hneg].
  - destruct (update_unclamped _ _ _ _ _ _ _ Hpos Hu)
      as (T_sat & rg & rl & h_g & h_l & p_s & _ & _ & _ & _ & _ & _ & ->).
    cbn [Tank.P]. apply lst_append.
  - destruct (update_clamped _ _ _ _ _ _ _ Hneg Hu) as (T_sat & _ & ->).
    cbn [Tank.P]. apply lst_append.
Qed.

(** X1.  A tank whose vent pressure is not above its initial pressure is
    at the vent pressure before the first iteration: for every heat input
    [maximum_Qin] returns zero elapsed hours minus the dormancy. *)
Theorem vented_at_start fuel :
  Tank.Pvent self <= Tank.P0 self ->
  Tank.maximum_Qin fuel self Qleak = Ok (- of_int (Tank.dormancy self)).
Proof.
  intros H. unfold Tank.maximum_Qin. rewrite (while_loop_at_vent fuel H).
  cbn [bind]. rewrite objective_initial. reflexivity.
Qed.

(** The lengths of the lists an iteration leaves behind. *)
Lemma update_lengths v d v' :
  Tank.update self v d = Ok v' ->
  List.length (Tank.P v') = S (List.length (Tank.P v)) /\
  List.length (Tank.T v') = S (List.length (Tank.T v)) /\
  List.length (Tank.mg v') = S (List.length (Tank.mg v)) /\
  ((Tank.clamps v d = true /\
    List.length (Tank.ml v') = List.length (Tank.ml v) /\
    List.length (Tank.x v') = List.length (Tank.x v) /\
    List.length (Tank.rhog v') = List.length (Tank.rhog v) /\
    List.length (Tank.rhol v') = List.length (Tank.rhol v) /\
    List.length (Tank.hg v') = List.length (Tank.hg v) /\
    List.length (Tank.hl v') = List.length (Tank.hl v) /\
    List.length (Tank.Ps v') = List.length (Tank.Ps v) /\
    Tank.time v' = Tank.time v) \/
   (Tank.clamps v d = false /\
    List.length (Tank.ml v') = S (List.length (Tank.ml v)) /\
    List.length (Tank.x v') = S (List.length (Tank.x v)) /\
    List.length (Tank.rhog v') = S (List.length (Tank.rhog v)) /\
    List.length (Tank.rhol v') = S (List.length (Tank.rhol v)) /\
    List.length (Tank.hg v') = S (List.length (Tank.hg v)) /\
    List.length (Tank.hl v') = S (List.length (Tank.hl v)) /\
    List.length (Tank.Ps v') = S (List.length (Tank.Ps v)) /\
    Tank.time v'
    = append (Tank.time v) (lst 0%Z (Tank.time v) + Tank.dt)%Z)).
Proof.
  destruct d as [[[dP dT] dmg] dml]. intros Hu.
  assert (Hlen : forall (A : Type) (l : list A) (a : A),
             List.length (append l a) = S (List.length l)).
  { intros A l a. unfold append. rewrite length_app. cbn. lia. }
  destruct (Qclt_le_dec 0 ((Tank.mg v)[-1] + of_int Tank.dt * dmg))
    as [Hpos | Hneg].
  - destruct (update_unclamped _ _ _ _ _ _ _ Hpos Hu)
      as (T_sat & rg & rl & h_g & h_l & p_s & _ & _ & _ & _ & _ & _ & ->).
    cbn [Tank.P Tank.T Tank.mg Tank.ml Tank.x Tank.rhog Tank.rhol Tank.hg
         Tank.hl Tank.Ps Tank.time].
    rewrite !Hlen. repeat (split; [reflexivity |]). right.
    split; [apply clamps_false; exact Hpos |].
    repeat (split; [reflexivity |]). reflexivity.
  - destruct (update_clamped _ _ _ _ _ _ _ Hneg Hu) as (T_sat & _ & ->).
    cbn [Tank.P Tank.T Tank.mg Tank.ml Tank.x Tank.rhog Tank.rhol Tank.hg
         Tank.hl Tank.Ps Tank.time].
    rewrite !Hlen. repeat (split; [reflexivity |]). left.
    split; [apply clamps_true; exact Hneg |].
    repeat (split; [reflexivity |]). reflexivity.
Qed.

End IntegratorMore.

Section ZeroHeat.
Context `{CP : CoolProp}.
Variable self : Tank.t.

(** With no heat, an iteration below the vent pressure leaves the
    pressure where it was. *)
Lemma while_loop_zero_heat fuel v :
  lst 0 (Tank.P v) < Tank.Pvent self ->
  is_ok (Tank.while_loop fuel self 0 v) = false.
Proof.
  revert v. induction fuel as [| fuel IH]; intros v Hlt;
    cbn [Tank.while_loop]; rewrite (proj2 (Qcltb_lt _ _) Hlt).
  - reflexivity.
  - unfold Tank.loop_body.
    destruct (Tank.differential_matrix self 0 v) as [d | e |] eqn:Ed;
      cbn [bind]; try reflexivity.
    rewrite (differential_matrix_zero self v d Ed).
    destruct (Tank.update self v (0, 0, 0, 0)) as [v' | e |] eqn:Eu;
      cbn [bind]; try reflexivity.
    apply IH. rewrite (update_P self v 0 0 0 0 v' Eu).
    unfold Tank.next_P.
    replace (lst 0 (Tank.P v)
             + of_int Tank.dt * (0 * of_int (Tank.stratification_factor self)))
      with (lst 0 (Tank.P v)) by ring.
    exact Hlt.
Qed.

(** X2.  Without heat input the derivatives are zero and the pressure
    never moves: below the vent pressure a call with [Qleak = 0] returns
    no value, whatever the fuel (it raises or runs for ever). *)
Theorem zero_heat_never_returns fuel :
  Tank.P0 self < Tank.Pvent self ->
  is_ok (Tank.maximum_Qin fuel self 0) = false.
Proof.
  intros H. unfold Tank.maximum_Qin.
  pose proof (while_loop_zero_heat fuel (Tank.initial self) H) as Hl.
  destruct (Tank.while_loop fuel self 0 (Tank.initial self));
    [discriminate | reflexivity | reflexivity].
Qed.

End ZeroHeat.

Section Alignment.
Context `{CP : CoolProp}.
Variables (self : Tank.t) (Qleak : Qc).

Lemma aligned_initial : aligned (Tank.initial self).
Proof. unfold aligned. cbn. repeat split; lia. Qed.

Lemma aligned_update v d v' :
  Tank.update self v d = Ok v' -> aligned v -> aligned v'.
Proof.
  intros Hu (HT & Hmg & Hml & Hx & Hrg & Hrl & Hhg & Hhl & HPs & Hle & Ht).
  destruct (update_lengths self v d v' Hu)
    as (HP' & HT' & Hmg' & [(_ & Hml' & Hx' & Hrg' & Hrl' & Hhg' & Hhl' & HPs'
                               & Ht')
                           | (_ & Hml' & Hx' & Hrg' & Hrl' & Hhg' & Hhl' & HPs'
                                & Ht')]).
  - unfold aligned. rewrite Ht'. repeat split; lia.
  - assert (Hn : List.length (Tank.time v') = S (List.length (Tank.time v))).
    { rewrite Ht'. unfold append. rewrite length_app. cbn. lia. }
    assert (Hl : lst 0%Z (Tank.time v')
                 = (lst 0%Z (Tank.time v) + Tank.dt)%Z).
    { rewrite Ht'. apply lst_append. }
    unfold aligned. rewrite Hl, Ht. unfold Tank.dt. repeat split; lia.
Qed.

Lemma aligned_loop fuel v v' :
  Tank.while_loop fuel self Qleak v = Ok v' -> aligned v -> aligned v'.
Proof.
  revert v. induction fuel as [| fuel IH]; intros v H Hv;
    cbn [Tank.while_loop] in H.
  - destruct (_ <? _); [discriminate |]. injection H as <-. exact Hv.
  - destruct (_ <? _); [| injection H as <-; exact Hv].
    apply bind_Ok in H. destruct H as (v1 & Hbody & H).
    apply (IH v1 H). unfold Tank.loop_body in Hbody.
    apply bind_Ok in Hbody. destruct Hbody as (d & _ & Hu).
    exact (aligned_update v d v1 Hu Hv).
Qed.

End Alignment.

Section AlignmentThm.
Context `{CP : CoolProp}.
Variables (self : Tank.t) (Qleak : Qc).

(** X3.  When the loop of [maximum_Qin] ends, [P], [T] and [mg] have one
    sample per iteration, the other eight lists one sample per iteration
    that did not clamp (so they are equally long among themselves and
    never longer than [P]), and the last time is 250 s for each sample
    after the first. *)
Theorem lists_aligned fuel v :
  Tank.while_loop fuel self Qleak (Tank.initial self) = Ok v ->
  aligned v.
Proof.
  intros H.
  exact (aligned_loop self Qleak fuel _ v H (aligned_initial self)).
Qed.

(** X4.  Where the two phases have the same density and the same
    enthalpy, the coefficient matrix is singular: the iteration yields no
    derivatives, whatever the property provider and the heat input. *)
Theorem equal_phases_singular v :
  lst 0 (Tank.rhog v) = lst 0 (Tank.rhol v) ->
  lst 0 (Tank.hg v) = lst 0 (Tank.hl v) ->
  is_ok (Tank.differential_matrix self Qleak v) = false.
Proof.
  intros Hr Hh.
  destruct (Tank.differential_matrix self Qleak v) as [d | e |] eqn:H;
    [exfalso | reflexivity | reflexivity].
  unfold Tank.differential_matrix in H. bind_inv H.
  rewrite Hr in E8. rewrite E8 in E9. injection E9 as <-.
  cbv zeta in H. rewrite linalg_solve_degenerate in H.
  - discriminate H.
  - ring.
  - rewrite Hh. ring.
Qed.

End AlignmentThm.

(** X5.  The dormancy model does not see the shell: two tanks built
    with the same fill ratio, hydrogen volume and vent pressure give the
    same result of [maximum_Qin] for every heat input, whatever their
    MAWP, materials, material properties and hydrogen mass.  The heat
    leak the sweep computes once per vent pressure, with the first
    material for both shells, is the one of every material pair. *)
Theorem heat_leak_ignores_shell `{CP : CoolProp} MAWP1 MAWP2
    material1 material2 material1' material2'
    mat_property1 mat_property2 mat_property1' mat_property2'
    fill V_in p_vent m1 m2 self1 self2 :
  Tank.__init__ MAWP1 material1 material1' mat_property1 m1 mat_property1'
    fill V_in p_vent = Ok self1 ->
  Tank.__init__ MAWP2 material2 material2' mat_property2 m2 mat_property2'
    fill V_in p_vent = Ok self2 ->
  forall fuel Qleak,
    Tank.maximum_Qin fuel self1 Qleak = Tank.maximum_Qin fuel self2 Qleak.
Proof.
  unfold Tank.__init__. intros H1 H2. bind_inv H1.
  repeat match goal with
         | Ea : ?m = Ok ?a, Eb : ?m = Ok ?b |- _ =>
             assert_fails (constr_eq a b);
             assert (Hab : a = b) by congruence; subst b; clear Eb
         end.
  repeat match goal with
         | Heq : PropsSI _ _ _ _ _ _ = Ok _ |- _ =>
             rewrite Heq in H2; cbn [bind] in H2; clear Heq
         | Heq : truediv _ _ = Ok _ |- _ =>
             rewrite Heq in H2; cbn [bind] in H2; clear Heq
         end.
  injection H1 as <-. injection H2 as <-.
  intros fuel Qleak. unfold Tank.maximum_Qin.
  match goal with |- bind (Tank.while_loop _ ?s1 _ (Tank.initial ?s1)) _ =
                     bind (Tank.while_loop _ ?s2 _ (Tank.initial ?s2)) _ =>
    change (Tank.initial s2) with (Tank.initial s1);
    assert (Hloop : forall v, Tank.while_loop fuel s1 Qleak v
                              = Tank.while_loop fuel s2 Qleak v)
  end.
  { induction fuel as [| fuel IH]; intros v; [reflexivity |].
    rewrite !while_loop_S.
    match goal with
    | |- (if _ then bind ?a _ else _) = (if _ then bind ?b _ else _) =>
        change b with a
    end.
    cbn [Tank.Pvent]. destruct (_ <? _); [| reflexivity].
    destruct (Tank.loop_body _ _ _); cbn [bind]; [apply IH | reflexivity ..]. }
  rewrite Hloop. reflexivity.
Qed.

Section LowVent.
Context `{CP : CoolProp} `{SP : SciPy}.
Variables (fuel : nat) (material material2 : string)
  (mat_property mat2_property : MatProperty)
  (MAWP mass_h2 Q_str str_mass fill_ratio V_in P_vent : Qc).

(** X6.  A vent pressure at or below the fixed initial pressure of
    101000 Pa makes the dormancy objective -24 h at both ends of the
    bracket, so [compute_Qleak] ends in the solver's [ValueError]. *)
Theorem vent_below_initial_raises self :
  Tank.__init__ MAWP material material2 mat_property mass_h2 mat2_property
    fill_ratio V_in P_vent = Ok self ->
  P_vent <= num 101000 ->
  compute_Qleak fuel material material2 mat_property MAWP mass_h2 Q_str
    mat2_property str_mass fill_ratio V_in P_vent = Raise ValueError.
Proof.
  intros Hinit Hp. unfold compute_Qleak. rewrite Hinit. cbn [bind].
  assert (Hv : Tank.Pvent self <= Tank.P0 self).
  { unfold Tank.__init__ in Hinit. bind_inv Hinit. injection Hinit as <-.
    exact Hp. }
  assert (Hend : forall Q, Tank.maximum_Qin fuel self Q = Ok (- of_int 24)).
  { intros Q. unfold Tank.maximum_Qin.
    rewrite (while_loop_at_vent self Q fuel Hv). cbn [bind].
    rewrite objective_initial.
    destruct (init_constants _ _ _ _ _ _ _ _ _ _ Hinit) as (-> & _).
    reflexivity. }
  rewrite (root_scalar_same_sign _ _ _ _ _ (Hend _) (Hend _));
    [reflexivity |].
  apply Qcltb_lt. reflexivity.
Qed.

End LowVent.

(** ** The geometry of the shell *)

Section Geometry.
Context `{NP : NumPy}.
Variable self : Tank.t.

(** The volume of the inner shell at length [l]: a cylinder of length
    [l - 2 R_in] between two hemispheres. *)
Lemma volume_equation_long (l : Qc) :
  num 2 * Tank.R_in self <= l ->
  Tank.volume_equation self l
  = np_pi * Tank.R_in self ^ 2 * (l - num 2 * Tank.R_in self)
    + (num 4 / num 3) * np_pi * Tank.R_in self ^ 3 - Tank.V_in self.
Proof.
  intros H. unfold Tank.volume_equation. cbv zeta.
  assert (E : (l - num 2 * Tank.R_in self <? 0) = false).
  { apply Qcltb_ge. apply Qcle_minus_iff in H. exact H. }
  rewrite E. reflexivity.
Qed.

(** A root of [volume_equation] is not in the penalty branch. *)
Lemma volume_root (l : Qc) :
  Tank.volume_equation self l = 0 ->
  0 <= l - num 2 * Tank.R_in self /\
  np_pi * Tank.R_in self ^ 2 * (l - num 2 * Tank.R_in self)
  + (num 4 / num 3) * np_pi * Tank.R_in self ^ 3 = Tank.V_in self.
Proof.
  unfold Tank.volume_equation. cbv zeta.
  destruct (_ <? 0) eqn:EL.
  - intros E. apply (f_equal this) in E. vm_compute in E. discriminate.
  - intros E. split; [apply Qcltb_ge; exact EL |].
    match type of E with ?V - _ = 0 =>
      transitivity (V - Tank.V_in self + Tank.V_in self); [ring |]
    end.
    rewrite E. ring.
Qed.

(** X7.  A length at which [volume_equation] vanishes is one at which
    the shell without walls, gap and insulation holds exactly the
    hydrogen volume: [total_volume] and [volume_equation] use the same
    geometry. *)
Theorem volume_root_total (l : Qc) :
  Tank.volume_equation self l = 0 ->
  Tank.total_volume self l 0 0 0 0 = Tank.V_in self.
Proof.
  intros H. destruct (volume_root l H) as (_ & <-).
  unfold Tank.total_volume. cbn [Qcpower]. ring.
Qed.

(** X8.  From the shortest admissible length on, [volume_equation] is
    strictly increasing in the length, so it has at most one root there;
    below it the function is the constant penalty. *)
Theorem volume_equation_increasing (l1 l2 : Qc) :
  0 < np_pi -> 0 < Tank.R_in self ->
  num 2 * Tank.R_in self <= l1 -> l1 < l2 ->
  Tank.volume_equation self l1 < Tank.volume_equation self l2.
Proof.
  intros Hpi HR H1 H12.
  rewrite (volume_equation_long l1 H1).
  rewrite (volume_equation_long l2)
    by (apply Qclt_le_weak; exact (Qcle_lt_trans _ _ _ H1 H12)).
  set (c := np_pi * Tank.R_in self ^ 2).
  assert (Hc : 0 < c).
  { unfold c. apply Qcmult_pos_pos; [exact Hpi |].
    change (Tank.R_in self ^ 2) with (Tank.R_in self * (Tank.R_in self * 1)).
    rewrite Qcmult_1_r. apply Qcmult_pos_pos; exact HR. }
  apply (proj2 (Qclt_minus_iff _ _)).
  match goal with |- 0 < ?e =>
    replace e with ((l2 - l1) * c) by (unfold c; ring)
  end.
  apply Qcmult_pos_pos; [| exact Hc].
  exact (Qclt_0_minus _ _ H12).
Qed.

(** X9.  At a length that solves [volume_equation], the outer volume
    [total_volume] is at least the hydrogen volume, whatever non-negative
    gap and layer thicknesses are added to the radius. *)
Theorem tank_encloses_hydrogen (l dv t1 t2 t_mli : Qc) :
  0 < np_pi -> 0 <= Tank.R_in self ->
  Tank.volume_equation self l = 0 ->
  0 <= dv -> 0 <= t1 -> 0 <= t2 -> 0 <= t_mli ->
  Tank.V_in self <= Tank.total_volume self l dv t1 t2 t_mli.
Proof.
  intros Hpi HR Hroot Hdv Ht1 Ht2 Hmli.
  destruct (volume_root l Hroot) as (EL & <-). clear Hroot.
  unfold Tank.total_volume. cbv zeta.
  set (R := Tank.R_in self) in *. set (L := l - num 2 * R) in *.
  set (w := dv + t1 + t2 + t_mli).
  assert (Hw : 0 <= w) by (unfold w; nonneg).
  apply (proj2 (Qcle_minus_iff _ _)).
  match goal with |- 0 <= ?e =>
    replace e with
      (np_pi * (L * (w * (R + R + w)))
       + num 4 / num 3
         * (np_pi * (w * (R * R + R * R + R * R
                          + (R * w + R * w + R * w) + w * w))))
      by (unfold w; cbn [Qcpower]; ring)
  end.
  nonneg.
Qed.

End Geometry.

(** ** Sizing one tank *)

(** What a returned tuple passes through from the arguments. *)
Lemma compute_tank_volume_passes `{CP : CoolProp} `{NP : NumPy} `{SP : SciPy}
    material material2 mat_property MAWP mass_h2 Q_str mat2_property str_mass
    fill_ratio V_in P_vent Qmax r :
  compute_tank_volume material material2 mat_property MAWP mass_h2 Q_str
    mat2_property str_mass fill_ratio V_in P_vent Qmax = Ok r ->
  Qleak r = Qmax /\ Vh2 r = V_in /\ p_vent r = P_vent.
Proof.
  unfold compute_tank_volume. intros H.
  apply bind_Ok in H. destruct H as (self & Hinit & H).
  apply bind_Ok in H. destruct H as (L_solution & _ & H).
  apply bind_Ok in H. destruct H as ([th ang1] & _ & H).
  apply bind_Ok in H. destruct H as (L & _ & H).
  apply bind_Ok in H.
  destruct H as ([[[[[dv0 t20] ang2] Ql] Qc0] Qr] & Hheat & H).
  cbv zeta in H.
  destruct (Tank.total_mass _ _ _ _ _ _ _) as [[mass_inner mass_outer] mass_mli].
  injection H as <-. cbn [Qleak Vh2 p_vent]. split; [| split].
  - unfold Tank.heat_influx in Hheat.
    apply bind_Ok in Hheat. destruct Hheat as (dv1 & _ & Hheat).
    destruct (Tank.outer_thickness _ _ _ _) as [t2_min alpha].
    bind_inv Hheat. injection Hheat as _ _ _ HQ _ _. symmetry. exact HQ.
  - exact (proj1 (init_inputs _ _ _ _ _ _ _ _ _ _ Hinit)).
  - reflexivity.
Qed.

Section Sizing.
Context `{CP : CoolProp} `{NP : NumPy} `{SP : SciPy}.
Variables (material material2 : string)
  (mat_property mat2_property : MatProperty)
  (MAWP mass_h2 Q_str str_mass fill_ratio V_in P_vent Qmax : Qc).

(** X10.  What every tuple [compute_tank_volume] returns satisfies: both
    wall thicknesses are at least [t_limit]; the heat leak in it is the
    [Qmax] it was called with, not a recomputed sum; the hydrogen volume
    and the vent pressure are its arguments; the radius is 0.8; and the
    mass error is the total mass minus the module's [estimated_mass] and
    the hydrogen mass of the call. *)
Theorem sizing_fields r :
  compute_tank_volume material material2 mat_property MAWP mass_h2 Q_str
    mat2_property str_mass fill_ratio V_in P_vent Qmax = Ok r ->
  t_limit <= t1 r /\ t_limit <= t2 r /\ Qleak r = Qmax /\ Vh2 r = V_in /\
  p_vent r = P_vent /\ R_in r = num 0.8 /\
  mass_error r = Mt r - estimated_mass - mass_h2.
Proof.
  unfold compute_tank_volume. intros H.
  apply bind_Ok in H. destruct H as (self & Hinit & H).
  apply bind_Ok in H. destruct H as (L_solution & _ & H).
  apply bind_Ok in H. destruct H as ([th ang1] & _ & H).
  apply bind_Ok in H. destruct H as (L & _ & H).
  apply bind_Ok in H.
  destruct H as ([[[[[dv0 t20] ang2] Ql] Qc0] Qr] & Hheat & H).
  cbv zeta in H.
  destruct (Tank.total_mass _ _ _ _ _ _ _) as [[mass_inner mass_outer] mass_mli].
  injection H as <-. cbn [t1 t2 Qleak Vh2 p_vent R_in mass_error Mt].
  destruct (init_constants _ _ _ _ _ _ _ _ _ _ Hinit) as (_ & _ & _ & HR & _).
  destruct (init_inputs _ _ _ _ _ _ _ _ _ _ Hinit) as (HV & _).
  split.
  { destruct (th <? t_limit) eqn:E; [apply Qcle_refl |].
    apply Qcltb_ge. exact E. }
  split.
  { unfold Qcmax. destruct (t20 <? t_limit) eqn:E; [apply Qcle_refl |].
    apply Qcltb_ge. exact E. }
  split.
  { unfold Tank.heat_influx in Hheat.
    apply bind_Ok in Hheat. destruct Hheat as (dv1 & _ & Hheat).
    destruct (Tank.outer_thickness _ _ _ _) as [t2_min alpha].
    bind_inv Hheat. injection Hheat as _ _ _ HQ _ _. symmetry. exact HQ. }
  repeat split; assumption.
Qed.

(** X11.  The totals of a returned tuple are those of its own
    dimensions: volume, masses, CO2 and embodied energy are computed from
    the length, the gap and the two thicknesses the tuple reports (the
    thicknesses after the floor [t_limit]), and the total mass adds the
    hydrogen and the structure to the three layer masses. *)
Theorem sizing_consistent self r :
  Tank.__init__ MAWP material material2 mat_property mass_h2 mat2_property
    fill_ratio V_in P_vent = Ok self ->
  compute_tank_volume material material2 mat_property MAWP mass_h2 Q_str
    mat2_property str_mass fill_ratio V_in P_vent Qmax = Ok r ->
  let masses :=
    Tank.total_mass self (L_in r) (dv r) (t1 r) (t2 r) t_mli dens_mli in
  let mass_inner := fst (fst masses) in
  let mass_outer := snd (fst masses) in
  let mass_mli := snd masses in
  Vt r = Tank.total_volume self (L_in r) (dv r) (t1 r) (t2 r) t_mli /\
  Mt r = mass_inner + mass_outer + mass_mli + mass_h2 + str_mass /\
  co2_kg r = Tank.kg_co2 self mass_inner mass_outer mass_mli str_mass
               mli_co2 co2_kevlar /\
  emb_energy r = Tank.embodied_energy self mass_inner mass_outer mass_mli
                   str_mass kevlar_ee mli_ee.
Proof.
  intros Hinit H. unfold compute_tank_volume in H. rewrite Hinit in H.
  cbn [bind] in H.
  apply bind_Ok in H. destruct H as (L_solution & _ & H).
  apply bind_Ok in H. destruct H as ([th ang1] & _ & H).
  apply bind_Ok in H. destruct H as (L & _ & H).
  apply bind_Ok in H.
  destruct H as ([[[[[dv0 t20] ang2] Ql] Qc0] Qr] & _ & H).
  cbv zeta in H.
  destruct (Tank.total_mass _ _ _ _ _ _ _)
    as [[mass_inner mass_outer] mass_mli] eqn:Em.
  injection H as <-. cbn [Vt Mt co2_kg emb_energy L_in dv t1 t2].
  rewrite Em. cbn [fst snd]. repeat split; reflexivity.
Qed.

(** X12.  A hydrogen volume below that of the sphere of radius 0.8 m, or
    above that of the longest tank the bracket admits (10 m), gives
    [volume_equation] the same sign at both ends of the bracket
    [[2 R_in, 10]]: the length solve raises [ValueError] and no tank is
    sized. *)
Theorem volume_out_of_range_raises self :
  Tank.__init__ MAWP material material2 mat_property mass_h2 mat2_property
    fill_ratio V_in P_vent = Ok self ->
  0 < np_pi ->
  let sphere := (num 4 / num 3) * np_pi * num 0.8 ^ 3 in
  let longest := np_pi * num 0.8 ^ 2 * (num 10 - num 2 * num 0.8) + sphere in
  V_in < sphere \/ longest < V_in ->
  compute_tank_volume material material2 mat_property MAWP mass_h2 Q_str
    mat2_property str_mass fill_ratio V_in P_vent Qmax = Raise ValueError.
Proof.
  intros Hinit Hpi sphere longest Hout.
  unfold compute_tank_volume. rewrite Hinit. cbn [bind].
  destruct (init_constants _ _ _ _ _ _ _ _ _ _ Hinit) as (_ & _ & _ & HR & _).
  destruct (init_inputs _ _ _ _ _ _ _ _ _ _ Hinit) as (HV & _).
  rewrite (root_scalar_same_sign
             (fun l => Ok (Tank.volume_equation self l)) _ _ _ _
             eq_refl eq_refl); [reflexivity |].
  rewrite !volume_equation_long.
  - rewrite HR, HV.
    replace (num 2 * num 0.8 - num 2 * num 0.8) with (0 : Qc) by ring.
    rewrite Qcmult_0_r, Qcplus_0_l. fold sphere.
    assert (Hgap : sphere < longest).
    { unfold longest. apply (proj2 (Qclt_minus_iff _ _)).
      match goal with |- 0 < ?e =>
        replace e with (np_pi * (num 0.8 ^ 2 * (num 10 - num 2 * num 0.8)))
          by ring
      end.
      apply Qcmult_pos_pos; [exact Hpi |].
      apply Qcltb_lt. vm_compute. reflexivity. }
    fold longest.
    destruct Hout as [Hlow | Hhigh].
    + apply Qcmult_pos_pos; apply Qclt_0_minus;
        [exact Hlow | exact (Qclt_trans _ _ _ Hlow Hgap)].
    + apply Qcmult_neg_neg; apply Qclt_minus_0;
        [exact (Qclt_trans _ _ _ Hgap Hhigh) | exact Hhigh].
  - rewrite HR. apply Qcleb_le. vm_compute. reflexivity.
  - apply Qcle_refl.
Qed.

(** X13.  When the length solve reports no convergence the source only
    prints a message: the inner wall is sized next (and may raise its own
    error), and the read of [L_in] that follows raises
    [UnboundLocalError] before the heat balance is attempted. *)
Theorem length_not_converged self sol :
  Tank.__init__ MAWP material material2 mat_property mass_h2 mat2_property
    fill_ratio V_in P_vent = Ok self ->
  root_scalar (fun l => Ok (Tank.volume_equation self l))
    (num 2 * Tank.R_in self) (num 10) = Ok sol ->
  converged sol = false ->
  compute_tank_volume material material2 mat_property MAWP mass_h2 Q_str
    mat2_property str_mass fill_ratio V_in P_vent Qmax
  = (_ <- Tank.inner_tank_thickness self ;; Raise UnboundLocalError).
Proof.
  intros Hinit Hsol Hc. unfold compute_tank_volume.
  rewrite Hinit. cbn [bind]. rewrite Hsol. cbn [bind]. rewrite Hc.
  destruct (Tank.inner_tank_thickness self) as [[th ang] | e |]; reflexivity.
Qed.

End Sizing.

(** ** The fill fraction *)

Section Fill.
Context `{CP : CoolProp}.

(** What a successful call of [fA] computed. *)
Lemma fA_Ok (mh2 P_vent V f : Qc) :
  fA mh2 P_vent = Ok (V, f) ->
  exists rho_l_f rho_l_0,
    PropsSI "D" "P" P_vent "Q" 0 "ParaHydrogen" = Ok rho_l_f /\
    PropsSI "D" "P" (num 101325) "Q" 0 "ParaHydrogen" = Ok rho_l_0 /\
    rho_l_f <> 0 /\ rho_l_0 <> 0 /\ mh2 <> 0 /\
    V = mh2 / rho_l_f / num 0.98 /\
    f = mh2 / rho_l_0 / (mh2 / rho_l_f / num 0.98).
Proof.
  unfold fA. cbv zeta. intros H. bind_inv H. injection H as <- <-.
  apply truediv_Ok in E0, E1, E3, E4.
  destruct E0 as (Hf & ->), E1 as (_ & ->), E3 as (H0 & ->), E4 as (Hv & ->).
  exists r, r2. repeat split; try assumption.
  intros ->. apply Hv. unfold Qcdiv. ring.
Qed.

(** X14.  The initial fill fraction [fA] returns does not depend on the
    hydrogen mass, and the tank volume is proportional to it: it is 0.98
    times the ratio of the liquid density at the vent pressure to that at
    101325 Pa. *)
Theorem fA_scales (mh2 P_vent V f k : Qc) :
  fA mh2 P_vent = Ok (V, f) ->
  k <> 0 ->
  fA (k * mh2) P_vent = Ok (k * V, f) /\
  exists rho_l_f rho_l_0,
    PropsSI "D" "P" P_vent "Q" 0 "ParaHydrogen" = Ok rho_l_f /\
    PropsSI "D" "P" (num 101325) "Q" 0 "ParaHydrogen" = Ok rho_l_0 /\
    f = num 0.98 * rho_l_f / rho_l_0.
Proof.
  intros H Hk.
  destruct (fA_Ok _ _ _ _ H) as (rf & r0 & Ef & E0 & Hf & H0 & Hm & -> & ->).
  assert (H98 : num 0.98 <> 0) by (intros E; apply (f_equal this) in E;
                                   vm_compute in E; discriminate).
  assert (Hkm : k * mh2 <> 0).
  { intros E. apply Qcmult_integral in E. destruct E; contradiction. }
  split.
  - unfold fA. cbv zeta. rewrite Ef. cbn [bind].
    rewrite (truediv_nonzero _ _ Hf). cbn [bind].
    rewrite (truediv_nonzero _ _ H98). cbn [bind].
    rewrite E0. cbn [bind].
    rewrite (truediv_nonzero _ _ H0). cbn [bind].
    rewrite truediv_nonzero.
    + cbn [bind]. f_equal. f_equal; field; repeat split; assumption.
    + intros E. apply Hkm.
      transitivity (k * mh2 / rf / num 0.98 * (rf * num 0.98));
        [field; split; assumption | rewrite E; ring].
  - exists rf, r0. split; [exact Ef |]. split; [exact E0 |].
    field. repeat split; assumption.
Qed.

(** X15.  For a hydrogen mass of zero [fA] never returns: the total
    volume is zero and the fill fraction divides by it. *)
Theorem fA_zero_mass (P_vent : Qc) : is_ok (fA 0 P_vent) = false.
Proof.
  destruct (fA 0 P_vent) as [[V f] | e |] eqn:H; [| reflexivity ..].
  destruct (fA_Ok _ _ _ _ H) as (_ & _ & _ & _ & _ & _ & Hm & _).
  exfalso. apply Hm. reflexivity.
Qed.

End Fill.

(** ** The outer shell and the radiation term *)

Section OuterShell.
Context `{NP : NumPy} `{SP : SciPy}.
Variables (self : Tank.t)
  (L_in_max Q_str t1 emis_mli k_vac t_mli k_mli Qmax : Qc).

(** X16.  The outer wall [heat_influx] returns is sized against the
    ambient pressure 101325 Pa on the radius [R_in + t1 + dv + t_mli].
    For a material that is not one of the two composites it is
    [P_amb * radius / yield_strength] with angle 0; for a composite it is
    at most the initial bound 1000 and at most the netting thickness at
    every candidate angle, and the angle is 0 or a candidate.  The fourth
    component is the [Qmax] of the call.  (Divisors are assumed non-zero,
    where numpy would give [inf] or [nan].) *)
Theorem outer_shell_thickness dv t2 alpha Q Q_cond Q_rad :
  Tank.heat_influx self L_in_max Q_str t1 emis_mli k_vac t_mli k_mli Qmax
  = Ok (dv, t2, alpha, Q, Q_cond, Q_rad) ->
  yield_strength (Tank.mat2_property self) <> 0 ->
  (Tank.composite (Tank.material2 self) = true ->
   fibre_ratio (Tank.mat2_property self) <> 0 /\
   forall c, In c Tank.angle -> np_cos c <> 0) ->
  let radius := Tank.R_in self + t1 + dv + t_mli in
  let thickness :=
    Tank.netting_thickness (num 101325 * radius) (num 101325 * radius / num 2)
      (Tank.mat2_property self) in
  Q = Qmax /\
  (Tank.composite (Tank.material2 self) = false ->
   t2 = num 101325 * radius / yield_strength (Tank.mat2_property self) /\
   alpha = num 0) /\
  (Tank.composite (Tank.material2 self) = true ->
   t2 <= num 1000 /\ (forall c, In c Tank.angle -> t2 <= thickness c) /\
   (alpha = num 0 \/ In alpha Tank.angle)).
Proof.
  intros H _ _ radius thickness. unfold Tank.heat_influx in H.
  apply bind_Ok in H. destruct H as (dv0 & _ & H).
  destruct (Tank.outer_thickness self t1 t_mli dv0) as [t2_min a] eqn:Eo.
  bind_inv H. injection H as -> -> -> HQ _ _.
  split; [symmetry; exact HQ |].
  unfold Tank.outer_thickness in Eo. cbv zeta in Eo.
  destruct (Tank.composite (Tank.material2 self)).
  - split; [discriminate |]. intros _.
    pose proof (angle_search_spec thickness Tank.angle (num 1000) (num 0))
      as Hs.
    unfold thickness, radius in Hs. rewrite Eo in Hs.
    destruct Hs as [Hall Hcase]. fold radius in Hall. fold thickness in Hall.
    split; [| split; [exact Hall |]].
    + destruct Hcase as [(-> & _) | (Hlt & _)];
        [apply Qcle_refl | apply Qclt_le_weak; exact Hlt].
    + destruct Hcase as [(_ & -> & _) | (_ & pre & post & Hsplit & _)];
        [left; reflexivity | right; rewrite Hsplit; apply in_elt].
  - split; [| discriminate]. intros _. injection Eo as <- <-.
    split; reflexivity.
Qed.

End OuterShell.

Section Radiation.
Context `{NP : NumPy}.
Variables (self : Tank.t) (L_in_max t1 emis_mli t_mli : Qc).

(** X17.  With emissivities in (0, 1], a tank no warmer than the ambient
    300 K and non-negative dimensions, [Q_rad] returns for every
    non-negative gap, and a wider gap gives at least as much radiation:
    the formula multiplies the flux by the area [A2] of the outer
    surface, which grows with the gap. *)
Theorem radiation_grows_with_gap (dv1 dv2 : Qc) :
  0 < np_pi -> 0 <= L_in_max -> 0 <= Tank.R_in self + t1 + t_mli ->
  0 <= Tank.T0 self -> Tank.T0 self <= num 300 ->
  0 < emis_mli -> emis_mli <= 1 ->
  0 < emissivity (Tank.mat2_property self) ->
  emissivity (Tank.mat2_property self) <= 1 ->
  0 <= dv1 -> dv1 <= dv2 ->
  exists q1 q2,
    Tank.Q_rad self L_in_max t1 emis_mli t_mli dv1 = Ok q1 /\
    Tank.Q_rad self L_in_max t1 emis_mli t_mli dv2 = Ok q2 /\
    q1 <= q2.
Proof.
  intros Hpi HL Hr HT0 HT He1 He1' He2 He2' Hdv1 Hdv.
  unfold Tank.Q_rad. cbv zeta.
  rewrite (truediv_nonzero _ _ (Qcpos_neq _ He1)). cbn [bind].
  rewrite (truediv_nonzero _ _ (Qcpos_neq _ He2)). cbn [bind].
  eexists. eexists. split; [reflexivity |]. split; [reflexivity |].
  set (eps2 := emissivity (Tank.mat2_property self)) in *.
  set (r1 := Tank.R_in self + t1 + t_mli) in *.
  set (c := num 5.670374419e-8 * (num 300 ^ 4 - Tank.T0 self ^ 4)).
  set (D := 1 / emis_mli + 1 / eps2 - 1).
  assert (Hc : 0 <= c).
  { unfold c. apply Qcmult_nonneg; [apply Qcleb_le; vm_compute; reflexivity |].
    apply Qcle_0_minus. cbn [Qcpower]. rewrite !Qcmult_1_r.
    assert (H2 : Tank.T0 self * Tank.T0 self <= num 300 * num 300)
      by (apply Qcmult_le_mono; assumption).
    assert (H3 : Tank.T0 self * (Tank.T0 self * Tank.T0 self)
                 <= num 300 * (num 300 * num 300)).
    { apply Qcmult_le_mono; try assumption. apply Qcmult_nonneg; assumption. }
    apply Qcmult_le_mono; try assumption.
    apply Qcmult_nonneg; [assumption |]. apply Qcmult_nonneg; assumption. }
  assert (HD : 0 < D).
  { unfold D.
    replace (1 / emis_mli + 1 / eps2 - 1)
      with ((1 - emis_mli) * / emis_mli + / eps2)
      by (field; split; apply Qcpos_neq; assumption).
    apply Qcplus_nonneg_pos; [| exact (Qcinv_pos _ He2)].
    apply Qcmult_nonneg; [exact (Qcle_0_minus _ _ He1') |].
    apply Qclt_le_weak. exact (Qcinv_pos _ He1). }
  apply (proj2 (Qcle_minus_iff _ _)).
  match goal with |- 0 <= ?e =>
    replace e with
      (c * / D * (num 2 * np_pi
                  * ((dv2 - dv1)
                     * (L_in_max + num 2 * (r1 + dv1 + (r1 + dv2))))))
      by (unfold Qcdiv; ring)
  end.
  pose proof (Qcle_trans _ _ _ Hdv1 Hdv) as Hdv2.
  pose proof (Qcle_0_minus _ _ Hdv) as Hd.
  pose proof (Qcinv_pos _ HD) as HiD.
  nonneg.
Qed.

End Radiation.

(** ** The sweep, when it completes *)

(** An invariant of every pass through the body is an invariant of the
    loop, however the loop ends. *)
Lemma for_each_invariant {A} (Inv : World -> Prop) (body : A -> stmt)
    (l : list A) (w : World) :
  (forall a w', Inv w' -> Inv (fst (body a w'))) ->
  Inv w -> Inv (fst (for_each body l w)).
Proof.
  intros Hbody. revert w. induction l as [| a l IH]; intros w Hw;
    cbn [for_each].
  - exact Hw.
  - pose proof (Hbody a w Hw) as Ha.
    destruct (body a w) as [w' [[] | e |]]; [apply IH; exact Ha | exact Ha ..].
Qed.

Lemma on_value_invariant {A} (Inv : World -> Prop) (m : result A)
    (k : A -> stmt) (w : World) :
  (forall a w', Inv w' -> Inv (fst (k a w'))) ->
  Inv w -> Inv (fst (on_value m k w)).
Proof.
  intros Hk Hw. unfold on_value. destruct m as [a | e |];
    [apply Hk; exact Hw | exact Hw ..].
Qed.

Lemma store_balanced material material2 P_vent r w :
  balanced w -> balanced (store material material2 P_vent r w).
Proof.
  unfold balanced, store. cbn. unfold append. rewrite !length_app. cbn.
  intros (H1 & H2 & H3 & H4 & H5 & H6 & H7 & H8 & H9).
  repeat split; lia.
Qed.

Lemma length_flat_map_const {A B} (f : A -> list B) (k : nat) (l : list A) :
  (forall a, List.length (f a) = k) ->
  List.length (flat_map f l) = (List.length l * k)%nat.
Proof.
  intros Hf. induction l as [| a l IH]; [reflexivity |].
  cbn [flat_map List.length]. rewrite length_app, IH, Hf. reflexivity.
Qed.

Section SweepMore.
Context `{CP : CoolProp} `{NP : NumPy} `{SP : SciPy}.
Variable fuel : nat.
Variables (materials : list string) (mat_properties : list MatProperty).

Lemma visit_loop_completes (cs : list combination) (w : World) :
  (forall c, In c cs ->
     is_ok (sizing_of fuel materials mat_properties c) = true) ->
  for_each (visit fuel materials mat_properties) cs w
  = (stored fuel materials mat_properties cs w, Ok tt).
Proof.
  revert w. induction cs as [| c0 cs IH]; intros w Hcs.
  - reflexivity.
  - cbn [for_each stored].
    pose proof (Hcs c0 (or_introl eq_refl)) as H0.
    unfold visit at 1. destruct c0 as [[P_vent inner] outer].
    destruct (sizing_of fuel materials mat_properties (P_vent, inner, outer))
      as [r | e0 |]; try discriminate.
    cbn [on_value]. apply IH.
    intros c' Hin. apply Hcs. right. exact Hin.
Qed.

Lemma stored_csv (cs : list combination) (w : World) :
  (forall c, In c cs ->
     is_ok (sizing_of fuel materials mat_properties c) = true) ->
  cs <> [] ->
  tank_results_csv (stored fuel materials mat_properties cs w)
  = Some ((match tank_results_csv w with
           | None => [header]
           | Some rows => rows
           end ++ csv_rows fuel materials mat_properties cs)%list).
Proof.
  revert w. induction cs as [| [[P_vent inner] outer] cs IH]; intros w H Hne;
    [congruence |].
  cbn [stored csv_rows flat_map fst snd].
  pose proof (H _ (or_introl eq_refl)) as H0.
  destruct (sizing_of fuel materials mat_properties (P_vent, inner, outer))
    as [r | e |]; try discriminate.
  destruct cs as [| c cs].
  - cbn [stored flat_map store tank_results_csv]. rewrite app_nil_r.
    unfold write_csv, append. destruct (tank_results_csv w); reflexivity.
  - rewrite IH by (try discriminate; intros c' Hin; apply H; right; exact Hin).
    cbn [store tank_results_csv]. f_equal.
    fold (csv_rows fuel materials mat_properties (c :: cs)).
    unfold write_csv, append.
    destruct (tank_results_csv w); cbn [app]; rewrite <- ?app_assoc;
      reflexivity.
Qed.

Lemma csv_rows_length (cs : list combination) :
  (forall c, In c cs ->
     is_ok (sizing_of fuel materials mat_properties c) = true) ->
  List.length (csv_rows fuel materials mat_properties cs) = List.length cs.
Proof.
  induction cs as [| c cs IH]; intros H; [reflexivity |].
  cbn [csv_rows flat_map]. rewrite length_app.
  fold (csv_rows fuel materials mat_properties cs).
  rewrite IH by (intros c' Hin; apply H; right; exact Hin).
  pose proof (H c (or_introl eq_refl)) as H0.
  destruct (sizing_of fuel materials mat_properties c); try discriminate.
  reflexivity.
Qed.

Lemma combinations_nonempty (P_vents : list Qc) :
  combine materials mat_properties <> [] -> P_vents <> [] ->
  combinations materials mat_properties P_vents <> [].
Proof.
  intros Hc Hp. destruct P_vents as [| p ps]; [congruence |].
  destruct (combine materials mat_properties) as [| m ms] eqn:E; [congruence |].
  unfold combinations. rewrite E. cbn. discriminate.
Qed.

Lemma sizing_of_p_vent P_vent inner outer r :
  sizing_of fuel materials mat_properties (P_vent, inner, outer) = Ok r ->
  p_vent r = P_vent.
Proof.
  unfold sizing_of. intros H. apply bind_Ok in H.
  destruct H as ([[V_in fill_ratio] Qmax] & _ & H).
  unfold size_pair in H. destruct inner as [m p], outer as [m2 p2].
  exact (proj2 (proj2 (compute_tank_volume_passes _ _ _ _ _ _ _ _ _ _ _ _ _
                         H))).
Qed.

(** X18.  When every combination of the three loops can be sized, the
    sweep ends normally and has stored the results of all of them, in
    the order of the loops. *)
Theorem sweep_completes (P_vents : list Qc) (w : World) :
  combine materials mat_properties <> [] ->
  (forall c, In c (combinations materials mat_properties P_vents) ->
     is_ok (sizing_of fuel materials mat_properties c) = true) ->
  sweep fuel materials mat_properties P_vents w
  = (stored fuel materials mat_properties
       (combinations materials mat_properties P_vents) w, Ok tt).
Proof.
  intros Hne Hall. rewrite (sweep_flat _ _ _ _ _ Hne).
  exact (visit_loop_completes _ w Hall).
Qed.

(** X19.  After a sweep in which every combination was sized, the file
    holds what it held before (the header, written once, when there was
    no file), followed by one data row per combination in the order of
    the loops; a second sweep appends its rows and writes no second
    header. *)
Theorem csv_after_sweep (P_vents : list Qc) (w : World) :
  combine materials mat_properties <> [] -> P_vents <> [] ->
  (forall c, In c (combinations materials mat_properties P_vents) ->
     is_ok (sizing_of fuel materials mat_properties c) = true) ->
  let rows := csv_rows fuel materials mat_properties
                (combinations materials mat_properties P_vents) in
  tank_results_csv (fst (sweep fuel materials mat_properties P_vents w))
  = Some ((match tank_results_csv w with
           | None => [header]
           | Some old => old
           end ++ rows)%list) /\
  List.length rows
  = (List.length P_vents
     * (List.length (combine materials mat_properties)
        * List.length (combine materials mat_properties)))%nat.
Proof.
  intros Hne Hp Hall rows. split.
  - rewrite (sweep_flat _ _ _ _ _ Hne), (visit_loop_completes _ w Hall).
    cbn [fst]. apply (stored_csv _ w Hall).
    exact (combinations_nonempty P_vents Hne Hp).
  - unfold rows. rewrite (csv_rows_length _ Hall). unfold combinations.
    apply length_flat_map_const. intros P_vent.
    apply length_flat_map_const. intros inner. apply length_map.
Qed.

(** X20.  The ten plot lists grow together: if they are equally long
    before the sweep they are equally long after it, also when the sweep
    is ended by an exception. *)
Theorem plot_lists_balanced (P_vents : list Qc) (w : World) :
  balanced w ->
  balanced (fst (sweep fuel materials mat_properties P_vents w)).
Proof.
  unfold sweep. apply for_each_invariant. intros P_vent w1.
  apply on_value_invariant. intros [[V_in fill_ratio] Qmax] w2.
  apply for_each_invariant. intros inner w3.
  apply for_each_invariant. intros outer w4.
  apply on_value_invariant. intros r w5. cbn [fst].
  apply store_balanced.
Qed.

(** X21.  The heat leak and the hydrogen volume are computed once per
    vent pressure: every material pair sized at the same vent pressure
    carries the same [Qleak], [Vh2] and [p_vent] in its result. *)
Theorem heat_leak_shared_per_vent P_vent inner outer inner' outer' r r' :
  sizing_of fuel materials mat_properties (P_vent, inner, outer) = Ok r ->
  sizing_of fuel materials mat_properties (P_vent, inner', outer') = Ok r' ->
  Qleak r = Qleak r' /\ Vh2 r = Vh2 r' /\
  p_vent r = P_vent /\ p_vent r' = P_vent.
Proof.
  intros H H'.
  pose proof (sizing_of_p_vent _ _ _ _ H) as Hp.
  pose proof (sizing_of_p_vent _ _ _ _ H') as Hp'.
  unfold sizing_of in H, H'.
  destruct (per_vent fuel materials mat_properties P_vent)
    as [[[V_in fill_ratio] Qmax] | e |]; try discriminate.
  cbn [bind] in H, H'. unfold size_pair in H, H'.
  destruct inner as [m p], outer as [m2 p2], inner' as [m' p'],
    outer' as [m2' p2'].
  destruct (compute_tank_volume_passes _ _ _ _ _ _ _ _ _ _ _ _ _ H)
    as (-> & -> & _).
  destruct (compute_tank_volume_passes _ _ _ _ _ _ _ _ _ _ _ _ _ H')
    as (-> & -> & _).
  repeat split; assumption.
Qed.

End SweepMore.

Section EmptyTables.
Context `{CP : CoolProp} `{NP : NumPy} `{SP : SciPy}.

(** X22.  With an empty material table (or an empty property table) the
    first vent pressure ends the sweep with [IndexError] at
    [materials[0]] (at [mat_properties[0]]), once [fA] has returned, and
    nothing is stored. *)
Theorem empty_table_raises (fuel : nat) (materials : list string)
    (mat_properties : list MatProperty) (P_vent : Qc) (P_vents : list Qc)
    (w : World) :
  is_ok (fA mass_h2 P_vent) = true ->
  materials = [] \/ mat_properties = [] ->
  sweep fuel materials mat_properties (P_vent :: P_vents) w
  = (w, Raise IndexError).
Proof.
  intros HfA Hempty. unfold sweep. cbn [for_each].
  assert (Hv : per_vent fuel materials mat_properties P_vent
               = Raise IndexError).
  { unfold per_vent. destruct (fA mass_h2 P_vent) as [[V f] | e |];
      try discriminate.
    cbn [bind]. destruct Hempty as [-> | ->]; [reflexivity |].
    destruct materials; reflexivity. }
  rewrite Hv. reflexivity.
Qed.

End EmptyTables.

(** ** Reading the results back *)

Section OpenFacts.
Context `{CP : CoolProp} `{NP : NumPy} `{SP : SciPy} `{PT : PyText}.
Variable fuel : nat.
Variables (materials : list string) (mat_properties : list MatProperty).

(** Reading a row the sweep wrote appends to the plot lists what the
    sweep appended when it wrote the row. *)
Lemma read_row_data_row material material2 r w :
  read_row (data_row material material2 r) w
  = (with_file (tank_results_csv w)
       (store material material2 (p_vent r) r w), Ok tt).
Proof.
  unfold read_row, and_then, append_to, on_value, float_at, getitem, data_row.
  cbn [nth_error text bind]. rewrite !py_float_str. cbn [bind].
  reflexivity.
Qed.

Lemma store_with_file material material2 P_vent r f w :
  with_file f (store material material2 P_vent r (with_file f w))
  = with_file f (store material material2 P_vent r w).
Proof. reflexivity. Qed.

Lemma stored_with_file cs f f' w :
  with_file f (stored fuel materials mat_properties cs (with_file f' w))
  = with_file f (stored fuel materials mat_properties cs w).
Proof.
  revert w f'. induction cs as [| [[P_vent inner] outer] cs IH]; intros w f'.
  - reflexivity.
  - cbn [stored].
    destruct (sizing_of fuel materials mat_properties (P_vent, inner, outer))
      as [r | e |]; [| reflexivity ..].
    rewrite <- (IH (store (fst inner) (fst outer) P_vent r (with_file f' w))
                  (write_csv (fst inner) (fst outer) r (tank_results_csv w))).
    reflexivity.
Qed.

Lemma read_rows_stored cs w :
  (forall c, In c cs ->
     is_ok (sizing_of fuel materials mat_properties c) = true) ->
  for_each read_row (csv_rows fuel materials mat_properties cs) w
  = (with_file (tank_results_csv w)
       (stored fuel materials mat_properties cs w), Ok tt).
Proof.
  revert w. induction cs as [| [[P_vent inner] outer] cs IH]; intros w H.
  - destruct w; reflexivity.
  - cbn [csv_rows flat_map stored fst snd].
    pose proof (H _ (or_introl eq_refl)) as H0.
    destruct (sizing_of fuel materials mat_properties (P_vent, inner, outer))
      as [r | e |] eqn:Er; try discriminate.
    cbn [app for_each]. rewrite read_row_data_row.
    rewrite (sizing_of_p_vent _ _ _ _ _ _ _ Er).
    fold (csv_rows fuel materials mat_properties cs).
    rewrite IH by (intros c Hin; apply H; right; exact Hin).
    cbn [tank_results_csv with_file]. rewrite stored_with_file. reflexivity.
Qed.

(** X23.  Reading back the file that a sweep wrote from scratch, in
    which every combination was sized, appends to the ten plot lists
    exactly what that sweep appended to them, in the same order, and ends
    normally: the columns read (0-5, 10, 12, 13, 16) are the columns the
    values were written to.  In a fresh process the lists after reading
    are those of the sweep. *)
Theorem open_reads_back (cs : list combination) (w : World) :
  (forall c, In c cs ->
     is_ok (sizing_of fuel materials mat_properties c) = true) ->
  cs <> [] ->
  let file := tank_results_csv
                (stored fuel materials mat_properties cs empty_world) in
  open_block (with_file file w)
  = Rows (with_file file (stored fuel materials mat_properties cs w)) (Ok tt).
Proof.
  intros H Hne file. unfold open_block, OPEN.
  cbn [tank_results_csv with_file]. unfold file.
  rewrite (stored_csv _ _ _ _ _ H Hne). cbn [tank_results_csv empty_world app].
  rewrite (read_rows_stored cs _ H). cbn [tank_results_csv with_file].
  rewrite stored_with_file. reflexivity.
Qed.

End OpenFacts.

Section ShortRow.
Context `{PT : PyText}.

Lemma getitem_short (row : list cell) (i : nat) :
  (List.length row <= i)%nat -> getitem row i = Raise IndexError.
Proof.
  intros H. unfold getitem.
  rewrite (proj2 (nth_error_None row i) H). reflexivity.
Qed.

(** One append, whether or not its argument could be evaluated, leaves
    the other lists alone. *)
Ltac step :=
  match goal with
  | |- context [float_at ?row ?i] =>
      destruct (float_at row i) as [? | ? |]; cbn [fst snd is_ok]
  | |- context [getitem ?row ?i] =>
      destruct (getitem row i) as [? | ? |]; cbn [fst snd is_ok]
  end.

(** X24.  Reading is not all-or-nothing.  A row with at least one and at
    most sixteen cells ends the loop with an exception (at the latest
    [IndexError] at [row[16]]) after [plot_mats] has received its entry
    and before [plot_P_vents] receives one: the lists are left with
    different lengths. *)
Theorem short_row_unbalances (hdr row : list cell) (rest : list (list cell))
    (w : World) :
  tank_results_csv w = Some (hdr :: row :: rest) ->
  (1 <= List.length row <= 16)%nat ->
  exists w' r,
    open_block w = Rows w' r /\ is_ok r = false /\
    List.length (plot_mats w') = S (List.length (plot_mats w)) /\
    plot_P_vents w' = plot_P_vents w.
Proof.
  intros Hfile [Hlo Hhi]. unfold open_block, OPEN. rewrite Hfile.
  cbn [for_each].
  assert (H : is_ok (snd (read_row row w)) = false /\
              List.length (plot_mats (fst (read_row row w)))
              = S (List.length (plot_mats w)) /\
              plot_P_vents (fst (read_row row w)) = plot_P_vents w).
  { unfold read_row, and_then, append_to, on_value.
    assert (H16 : float_at row 16 = Raise IndexError)
      by (unfold float_at; rewrite (getitem_short row 16 Hhi); reflexivity).
    rewrite H16.
    assert (H0 : exists s, getitem row 0 = Ok s).
    { destruct row as [| c row']; [cbn in Hlo; lia |].
      eexists. reflexivity. }
    destruct H0 as (s & ->).
    assert (Hlen : List.length (plot_mats (append_mats s w))
                   = S (List.length (plot_mats w))).
    { cbn [append_mats plot_mats]. unfold append. rewrite length_app.
      cbn. lia. }
    repeat step;
      (split; [reflexivity | split; [exact Hlen | reflexivity]]). }
  destruct (read_row row w) as [w' [[] | e |]]; cbn [fst snd is_ok] in H;
    destruct H as (Hr & Hm & Hp); try discriminate;
    eexists; eexists; (split; [reflexivity |]);
    (split; [reflexivity | split; assumption]).
Qed.

End ShortRow.

(** ** Evaluated runs on the synthetic fluid *)

Import Synthetic.

(** Evaluates a closed computation and offers its value as the witness of
    an existential. *)
Ltac exists_value m :=
  let r := eval vm_compute in m in
  match r with Ok ?a => exists a end.

(** Two evaluated rationals differ. *)
Ltac Qc_differ :=
  let E := fresh "E" in
  intros E; apply (f_equal this) in E; vm_compute in E; discriminate.

(** Two expressions evaluate to the same rational. *)
Ltac Qc_same := apply Qc_is_canon; vm_compute; reflexivity.

(** Extends a run that never clamped by one evaluated iteration. *)
Ltac advance R :=
  match type of R with
  | unclamped_run ?s ?q ?v =>
      let d := eval vm_compute in (Tank.differential_matrix s q v) in
      match d with
      | Ok ?dd =>
          let u := eval vm_compute in (Tank.update s v dd) in
          match u with
          | Ok ?vv =>
              let R' := fresh "R" in
              assert (R' : unclamped_run s q vv)
                by (apply (unclamped_next s q v dd vv R);
                    vm_compute; reflexivity)
          end
      end
  end.

Lemma mass_conservation_witness :
  exists self v,
    Tank.__init__ MAWP "Al-7075-T6" "G10" Al_7075_T6 mass_h2 G10
      (num 0.5) 1 (num 1000000) = Ok self /\
    unclamped_run self (num 5000) v /\
    List.length (Tank.mg v) = 4%nat /\
    lst 0 (Tank.mg v) <> Tank.mg0 self /\
    lst 0 (Tank.mg v) + lst 0 (Tank.ml v) = Tank.mg0 self + Tank.ml0 self.
Proof.
  exists_value (Tank.__init__ MAWP "Al-7075-T6" "G10" Al_7075_T6 mass_h2 G10
                  (num 0.5) 1 (num 1000000)).
  match goal with |- exists v, _ /\ unclamped_run ?s ?q v /\ _ =>
    pose proof (unclamped_start s q) as R0 end.
  advance R0. advance R. advance R1.
  match type of R2 with unclamped_run _ _ ?v => exists v end.
  split; [vm_compute; reflexivity |].
  split; [exact R2 |]. split; [reflexivity |].
  split; [intros E; apply (f_equal this) in E; vm_compute in E; discriminate |].
  exact (proj2 (mass_conservation _ _ _ R2)).
Defined.

Lemma clamp_or_advance_witness :
  exists self v d v',
    Tank.__init__ MAWP "Al-7075-T6" "G10" Al_7075_T6 mass_h2 G10
      (num 0.999) 1 (num 1000000) = Ok self /\
    Tank.loop_body self (num 10000) (Tank.initial self) = Ok v /\
    Tank.differential_matrix self (num 10000) v = Ok d /\
    Tank.clamps v d = true /\
    Tank.loop_body self (num 10000) v = Ok v' /\
    Tank.mg v' = (Tank.mg v ++ [0])%list /\ Tank.ml v' = Tank.ml v /\
    Tank.time v' = [0%Z; 250%Z]%list.
Proof.
  exists_value (Tank.__init__ MAWP "Al-7075-T6" "G10" Al_7075_T6 mass_h2 G10
                  (num 0.999) 1 (num 1000000)).
  match goal with |- exists v d v', _ /\ Tank.loop_body ?s ?q ?v0 = _ /\ _ =>
    exists_value (Tank.loop_body s q v0) end.
  match goal with
  | |- exists d v', _ /\ _ /\ Tank.differential_matrix ?s ?q ?v = _ /\ _ =>
      exists_value (Tank.differential_matrix s q v);
      exists_value (Tank.loop_body s q v)
  end.
  split; [vm_compute; reflexivity |]. split; [vm_compute; reflexivity |].
  match goal with |- ?D = Ok ?d /\ ?C = true /\ ?L = Ok ?v' /\ _ =>
    assert (Hd : D = Ok d) by (vm_compute; reflexivity);
    assert (Hl : L = Ok v') by (vm_compute; reflexivity);
    assert (Hc : C = true) by (vm_compute; reflexivity)
  end.
  split; [exact Hd |]. split; [exact Hc |]. split; [exact Hl |].
  pose proof (clamp_or_advance _ _ _ _ _ _ _ _ Hd Hl) as (_ & _ & Hclamp & _).
  apply clamps_true in Hc.
  destruct (Hclamp Hc) as (Hmg & Hml & _ & _ & _ & _ & _ & _ & Ht).
  split; [exact Hmg |]. split; [exact Hml |]. rewrite Ht. reflexivity.
Defined.

(** The sweep's dormancy search at a vent pressure of 111200 Pa, with the
    tables of the source: [fA] gives the tank volume and fill fraction,
    and the solver converges to an allowable heat leak. *)
Lemma synthetic_fA :
  fA mass_h2 (num 111200) = Ok (num (10653 / 1372), num 0.98).
Proof.
  vm_compute. apply f_equal. apply f_equal2; apply Qc_is_canon; reflexivity.
Qed.

Lemma synthetic_Qleak :
  compute_Qleak 400 "Al-7075-T6" "Al-7075-T6" Al_7075_T6 MAWP mass_h2 0
    Al_7075_T6 0 (num 0.98) (num (10653 / 1372)) (num 111200)
  = Ok (num (4397077 / 437500)).
Proof.
  vm_compute. apply f_equal. apply Qc_is_canon. reflexivity.
Qed.

(** The run at the heat leak the solver returned ends after 345 steps. *)
Lemma synthetic_round_trip :
  exists self r,
    Tank.__init__ MAWP "Al-7075-T6" "Al-7075-T6" Al_7075_T6 mass_h2
      Al_7075_T6 (num 0.98) (num (10653 / 1372)) (num 111200) = Ok self /\
    Tank.maximum_Qin 400 self (num (4397077 / 437500)) = Ok r /\
    r = of_int (250 * 345) / num 3600 - of_int 24.
Proof.
  exists_value (Tank.__init__ MAWP "Al-7075-T6" "Al-7075-T6" Al_7075_T6
                  mass_h2 Al_7075_T6 (num 0.98) (num (10653 / 1372))
                  (num 111200)).
  match goal with |- exists r, _ /\ ?M = _ /\ _ => exists_value M end.
  split; [vm_compute; reflexivity |].
  split; [vm_compute; reflexivity |].
  Qc_same.
Qed.

(** C2 fails as stated: on the synthetic fluid the root finder converges,
    and the elapsed time at the returned heat leak is 345 steps, 150 s
    short of 24 h, outside a tolerance of 0.01 h. *)
Lemma round_trip_counterexample :
  exists self Qmax r,
    Tank.__init__ MAWP "Al-7075-T6" "Al-7075-T6" Al_7075_T6 mass_h2
      Al_7075_T6 (num 0.98) (num (10653 / 1372)) (num 111200) = Ok self /\
    compute_Qleak 400 "Al-7075-T6" "Al-7075-T6" Al_7075_T6 MAWP mass_h2 0
      Al_7075_T6 0 (num 0.98) (num (10653 / 1372)) (num 111200) = Ok Qmax /\
    Tank.maximum_Qin 400 self Qmax = Ok r /\
    ~ Qcabs r <= num 0.01.
Proof.
  destruct synthetic_round_trip as (self & r & Hi & Hm & Hr).
  exists self, (num (4397077 / 437500)), r.
  split; [exact Hi |]. split; [exact synthetic_Qleak |].
  split; [exact Hm |].
  rewrite Hr. intros H. apply Qcleb_le in H. vm_compute in H. discriminate.
Qed.

Lemma round_trip_off_grid_witness :
  exists self Qmax r,
    Tank.__init__ MAWP "Al-7075-T6" "Al-7075-T6" Al_7075_T6 mass_h2
      Al_7075_T6 (num 0.98) (num (10653 / 1372)) (num 111200) = Ok self /\
    compute_Qleak 400 "Al-7075-T6" "Al-7075-T6" Al_7075_T6 MAWP mass_h2 0
      Al_7075_T6 0 (num 0.98) (num (10653 / 1372)) (num 111200) = Ok Qmax /\
    Tank.maximum_Qin 400 self Qmax = Ok r /\
    num (1 / 36) <= Qcabs r.
Proof.
  destruct synthetic_round_trip as (self & r & Hi & Hm & _).
  exists self, (num (4397077 / 437500)), r.
  split; [exact Hi |]. split; [exact synthetic_Qleak |].
  split; [exact Hm |].
  exact (proj2 (proj2 (round_trip_off_grid _ _ _ _ _ _ _ _ _ _ _ _ _ _ _ _
                         Hi synthetic_Qleak Hm))).
Defined.

Lemma no_sign_change_raises_witness :
  exists self fa fb,
    Tank.__init__ MAWP "Al-7075-T6" "G10" Al_7075_T6 mass_h2 G10
      (num 0.5) 1 (num 125200) = Ok self /\
    Tank.maximum_Qin 100 self (num 10) = Ok fa /\
    Tank.maximum_Qin 100 self (num 1000) = Ok fb /\
    0 < fa * fb /\
    compute_Qleak 100 "Al-7075-T6" "G10" Al_7075_T6 MAWP mass_h2 0 G10 0
      (num 0.5) 1 (num 125200) = Raise ValueError.
Proof.
  exists_value (Tank.__init__ MAWP "Al-7075-T6" "G10" Al_7075_T6 mass_h2 G10
                  (num 0.5) 1 (num 125200)).
  match goal with |- exists fa fb, _ /\ ?A = _ /\ ?B = _ /\ _ =>
    exists_value A; exists_value B end.
  match goal with |- ?I /\ ?A /\ ?B /\ ?S /\ _ =>
    assert (Hi : I) by (vm_compute; reflexivity);
    assert (Ha : A) by (vm_compute; reflexivity);
    assert (Hb : B) by (vm_compute; reflexivity);
    assert (Hs : S) by (apply Qcltb_lt; vm_compute; reflexivity)
  end.
  split; [exact Hi |]. split; [exact Ha |]. split; [exact Hb |].
  split; [exact Hs |].
  exact (no_sign_change_raises _ _ _ _ _ _ _ _ _ _ _ _ _ _ _ Hi Ha Hb Hs).
Defined.

Lemma mass_h2_irrelevant_witness :
  exists self1 self2,
    Tank.__init__ MAWP "Al-7075-T6" "G10" Al_7075_T6 mass_h2 G10
      (num 0.5) 1 (num 125200) = Ok self1 /\
    Tank.__init__ MAWP "Al-7075-T6" "G10" Al_7075_T6 (num 6.2) G10
      (num 0.5) 1 (num 125200) = Ok self2 /\
    Tank.mass_h2 self1 <> Tank.mass_h2 self2 /\
    Tank.maximum_Qin 100 self1 (num 10) = Tank.maximum_Qin 100 self2 (num 10).
Proof.
  exists_value (Tank.__init__ MAWP "Al-7075-T6" "G10" Al_7075_T6 mass_h2 G10
                  (num 0.5) 1 (num 125200)).
  exists_value (Tank.__init__ MAWP "Al-7075-T6" "G10" Al_7075_T6 (num 6.2) G10
                  (num 0.5) 1 (num 125200)).
  match goal with |- ?I1 /\ ?I2 /\ _ =>
    assert (H1 : I1) by (vm_compute; reflexivity);
    assert (H2 : I2) by (vm_compute; reflexivity)
  end.
  split; [exact H1 |]. split; [exact H2 |].
  split; [intros E; apply (f_equal this) in E; vm_compute in E; discriminate |].
  exact (mass_h2_irrelevant _ _ _ _ _ _ _ _ _ _ _ _ H1 H2 100%nat (num 10)).
Defined.


Lemma isotropic_thickness_witness :
  exists self stronger_test stronger_metal th,
    Tank.__init__ MAWP "Al-7075-T6" "G10" Al_7075_T6 mass_h2 G10
      (num 0.5) 1 (num 257000) = Ok self /\
    Tank.__init__ (num 2420000) "Al-7075-T6" "G10" Al_7075_T6 mass_h2 G10
      (num 0.5) 1 (num 257000) = Ok stronger_test /\
    Tank.__init__ MAWP "Al-7075-T6" "G10" (double_yield Al_7075_T6) mass_h2
      G10 (num 0.5) 1 (num 257000) = Ok stronger_metal /\
    Tank.inner_tank_thickness self = Ok (th, num 0) /\
    Tank.inner_tank_thickness stronger_test = Ok (num 2 * th, num 0) /\
    Tank.inner_tank_thickness stronger_metal = Ok (th / num 2, num 0).
Proof.
  exists_value (Tank.__init__ MAWP "Al-7075-T6" "G10" Al_7075_T6 mass_h2 G10
                  (num 0.5) 1 (num 257000)).
  exists_value (Tank.__init__ (num 2420000) "Al-7075-T6" "G10" Al_7075_T6
                  mass_h2 G10 (num 0.5) 1 (num 257000)).
  exists_value (Tank.__init__ MAWP "Al-7075-T6" "G10"
                  (double_yield Al_7075_T6) mass_h2 G10
                  (num 0.5) 1 (num 257000)).
  match goal with
  | |- exists th, _ /\ _ /\ _ /\ Tank.inner_tank_thickness ?s = _ /\
                  Tank.inner_tank_thickness ?o1 = _ /\
                  Tank.inner_tank_thickness ?o2 = _ =>
      pose proof (isotropic_thickness s o1 (num 2)) as H1;
      pose proof (isotropic_thickness s o2 (num 2)) as H2;
      exists (Tank.P_test s * Tank.R_in s
              / yield_strength (Tank.mat_property s))
  end.
  split; [vm_compute; reflexivity |]. split; [vm_compute; reflexivity |].
  split; [vm_compute; reflexivity |].
  destruct H1 as (Hself & Htest & _);
    [reflexivity | reflexivity | Qc_differ | Qc_differ | reflexivity |].
  destruct H2 as (_ & _ & Hmetal);
    [reflexivity | reflexivity | Qc_differ | Qc_differ | reflexivity |].
  split; [exact Hself |]. split.
  - apply Htest; [Qc_same | reflexivity].
  - apply Hmetal; [reflexivity | Qc_same].
Defined.

Lemma composite_thickness_search_witness :
  exists self t,
    Tank.__init__ MAWP "G10" "Al-7075-T6" G10 mass_h2 Al_7075_T6
      (num 0.5) 1 (num 257000) = Ok self /\
    Tank.inner_tank_thickness self = Ok (t, num 0) /\
    (forall c, In c Tank.angle ->
       t = Tank.netting_thickness (Tank.P_test self * Tank.R_in self)
             (Tank.P_test self * Tank.R_in self / num 2)
             (Tank.mat_property self) c).
Proof.
  exists_value (Tank.__init__ MAWP "G10" "Al-7075-T6" G10 mass_h2 Al_7075_T6
                  (num 0.5) 1 (num 257000)).
  match goal with |- exists t, _ /\ Tank.inner_tank_thickness ?s = _ /\ _ =>
    destruct (composite_thickness_search s)
      as (t & a & Hret & Hin & Hmin & (pre & post & Hsplit & Hpre) & Hbelow)
  end.
  - reflexivity.
  - Qc_differ.
  - Qc_differ.
  - intros c [<- | [<- | [<- | []]]]; Qc_differ.
  - exists t. split; [vm_compute; reflexivity |].
    assert (Ha : a = num 0).
    { destruct pre as [| c0 pre].
      - injection Hsplit as Ha _. symmetry. exact Ha.
      - injection Hsplit as Hc0 _. exfalso.
        apply (Qclt_not_le _ _ (Hpre c0 (or_introl eq_refl))).
        rewrite <- Hc0.
        rewrite Hbelow; [| exists (num 0); split;
                             [left; reflexivity
                             | apply Qcltb_lt; vm_compute; reflexivity]].
        destruct Hin as [<- | [<- | [<- | []]]];
          apply Qcleb_le; vm_compute; reflexivity. }
    subst a. split; [exact Hret |].
    intros c Hc. 
    rewrite Hbelow; [| exists (num 0); split;
                         [left; reflexivity
                         | apply Qcltb_lt; vm_compute; reflexivity]].
    destruct Hc as [<- | [<- | [<- | []]]]; Qc_same.
Defined.

(** The per-pressure part of the sweep at a vent pressure of 111200 Pa. *)
Lemma synthetic_per_vent :
  per_vent 400 materials mat_properties (num 111200)
  = Ok (num (10653 / 1372), num 0.98, num (4397077 / 437500)).
Proof.
  unfold per_vent. rewrite synthetic_fA. cbn [bind].
  change (index0 materials) with (Ok "Al-7075-T6" : result string).
  change (index0 mat_properties) with (Ok Al_7075_T6).
  cbn [bind]. rewrite synthetic_Qleak. reflexivity.
Qed.

Lemma synthetic_sizing_ok (c : combination) :
  In c (combinations materials mat_properties [num 111200]%list) ->
  is_ok (sizing_of 400 materials mat_properties c) = true.
Proof.
  intros Hin. cbn in Hin.
  repeat (destruct Hin as [<- | Hin]);
    [unfold sizing_of; rewrite synthetic_per_vent; vm_compute; reflexivity ..
    | destruct Hin].
Qed.

(** C9 fails as stated: with the first vent pressure above the critical
    pressure of the fluid the property lookup raises, the sweep ends with
    that error, and the four combinations of the second vent pressure,
    every one of which can be sized, are never visited. *)
Lemma sweep_counterexample :
  sweep 400 materials mat_properties [num 1300000; num 111200]%list
    empty_world = (empty_world, Raise ValueError) /\
  forall c, In c (combinations materials mat_properties [num 111200]%list) ->
    is_ok (sizing_of 400 materials mat_properties c) = true.
Proof.
  split; [vm_compute; reflexivity | exact synthetic_sizing_ok].
Qed.

Lemma sweep_stops_at_first_error_witness :
  exists w,
    sweep 400 materials mat_properties [num 111200; num 1300000]%list
      empty_world = (w, Raise ValueError) /\
    plot_P_vents w = [num 111200; num 111200; num 111200; num 111200]%list.
Proof.
  pose proof (sweep_stops_at_first_error 400 materials mat_properties
                [num 111200; num 1300000]%list
                (combinations materials mat_properties [num 111200]%list)
                (tl (combinations materials mat_properties [num 1300000]%list))
                (num 1300000, ("Al-7075-T6", Al_7075_T6),
                 ("Al-7075-T6", Al_7075_T6))
                ValueError empty_world) as H.
  eexists. split.
  - apply H.
    + reflexivity.
    + exact synthetic_sizing_ok.
    + vm_compute. reflexivity.
  - rewrite (stored_plot_P_vents _ _ _ _ _ synthetic_sizing_ok).
    reflexivity.
Defined.

(** ** Evaluated instances of the further properties *)

Lemma vented_at_start_witness :
  exists self,
    Tank.__init__ MAWP "Al-7075-T6" "G10" Al_7075_T6 mass_h2 G10
      (num 0.5) 1 (num 101000) = Ok self /\
    Tank.Pvent self <= Tank.P0 self /\
    Tank.maximum_Qin 0 self (num 500) = Ok (- of_int 24).
Proof.
  exists_value (Tank.__init__ MAWP "Al-7075-T6" "G10" Al_7075_T6 mass_h2 G10
                  (num 0.5) 1 (num 101000)).
  split; [vm_compute; reflexivity |].
  match goal with |- ?A /\ _ =>
    assert (H : A) by (apply Qcleb_le; vm_compute; reflexivity)
  end.
  split; [exact H |].
  exact (vented_at_start _ (num 500) 0 H).
Defined.

Lemma zero_heat_never_returns_witness :
  exists self,
    Tank.__init__ MAWP "Al-7075-T6" "G10" Al_7075_T6 mass_h2 G10
      (num 0.5) 1 (num 500000) = Ok self /\
    Tank.P0 self < Tank.Pvent self /\
    is_ok (Tank.maximum_Qin 1000 self 0) = false.
Proof.
  exists_value (Tank.__init__ MAWP "Al-7075-T6" "G10" Al_7075_T6 mass_h2 G10
                  (num 0.5) 1 (num 500000)).
  split; [vm_compute; reflexivity |].
  match goal with |- ?A /\ _ =>
    assert (H : A) by (apply Qcltb_lt; vm_compute; reflexivity)
  end.
  split; [exact H |].
  exact (zero_heat_never_returns _ 1000 H).
Defined.

Lemma lists_aligned_witness :
  exists self v,
    Tank.__init__ MAWP "Al-7075-T6" "G10" Al_7075_T6 mass_h2 G10
      (num 0.999) 1 (num 500000) = Ok self /\
    Tank.while_loop 10 self (num 10000) (Tank.initial self) = Ok v /\
    List.length (Tank.P v) = 3%nat /\ List.length (Tank.time v) = 2%nat /\
    aligned v.
Proof.
  exists_value (Tank.__init__ MAWP "Al-7075-T6" "G10" Al_7075_T6 mass_h2 G10
                  (num 0.999) 1 (num 500000)).
  match goal with |- exists v, _ /\ ?L = _ /\ _ => exists_value L end.
  match goal with |- ?I /\ ?L /\ _ =>
    assert (Hl : L) by (vm_compute; reflexivity)
  end.
  split; [vm_compute; reflexivity |]. split; [exact Hl |].
  split; [reflexivity |]. split; [reflexivity |].
  exact (lists_aligned _ _ _ _ Hl).
Defined.

Lemma equal_phases_singular_witness :
  exists self,
    Tank.__init__ MAWP "Al-7075-T6" "G10" Al_7075_T6 mass_h2 G10
      (num 0.5) 1 (num 500000) = Ok self /\
    is_ok (Tank.differential_matrix self (num 500)
             {| Tank.P := [num 1200000]%list; Tank.T := [num 57]%list;
                Tank.mg := [num 10]%list; Tank.ml := [num 20]%list;
                Tank.rhog := [num 30]%list; Tank.rhol := [num 30]%list;
                Tank.hg := [num 200000]%list; Tank.hl := [num 200000]%list;
                Tank.x := [num (1 / 3)]%list; Tank.Ps := [num 1200000]%list;
                Tank.time := [0%Z]%list |}) = false.
Proof.
  exists_value (Tank.__init__ MAWP "Al-7075-T6" "G10" Al_7075_T6 mass_h2 G10
                  (num 0.5) 1 (num 500000)).
  split; [vm_compute; reflexivity |].
  apply equal_phases_singular; reflexivity.
Defined.

Lemma heat_leak_ignores_shell_witness :
  exists self1 self2,
    Tank.__init__ MAWP "Al-7075-T6" "Al-7075-T6" Al_7075_T6 mass_h2
      Al_7075_T6 (num 0.5) 1 (num 125200) = Ok self1 /\
    Tank.__init__ (num 600000) "G10" "SS-304" G10 (num 6.2) SS_304
      (num 0.5) 1 (num 125200) = Ok self2 /\
    Tank.maximum_Qin 100 self1 (num 10) = Tank.maximum_Qin 100 self2 (num 10).
Proof.
  exists_value (Tank.__init__ MAWP "Al-7075-T6" "Al-7075-T6" Al_7075_T6
                  mass_h2 Al_7075_T6 (num 0.5) 1 (num 125200)).
  exists_value (Tank.__init__ (num 600000) "G10" "SS-304" G10 (num 6.2) SS_304
                  (num 0.5) 1 (num 125200)).
  match goal with |- ?I1 /\ ?I2 /\ _ =>
    assert (H1 : I1) by (vm_compute; reflexivity);
    assert (H2 : I2) by (vm_compute; reflexivity)
  end.
  split; [exact H1 |]. split; [exact H2 |].
  exact (heat_leak_ignores_shell _ _ _ _ _ _ _ _ _ _ _ _ _ _ _ _ _ H1 H2
           100%nat (num 10)).
Defined.

Lemma vent_below_initial_raises_witness :
  exists self,
    Tank.__init__ MAWP "Al-7075-T6" "G10" Al_7075_T6 mass_h2 G10
      (num 0.5) 1 (num 90000) = Ok self /\
    num 90000 <= num 101000 /\
    compute_Qleak 0 "Al-7075-T6" "G10" Al_7075_T6 MAWP mass_h2 0 G10 0
      (num 0.5) 1 (num 90000) = Raise ValueError.
Proof.
  exists_value (Tank.__init__ MAWP "Al-7075-T6" "G10" Al_7075_T6 mass_h2 G10
                  (num 0.5) 1 (num 90000)).
  match goal with |- ?I /\ ?A /\ _ =>
    assert (Hi : I) by (vm_compute; reflexivity);
    assert (H : A) by (apply Qcleb_le; vm_compute; reflexivity)
  end.
  split; [exact Hi |]. split; [exact H |].
  exact (vent_below_initial_raises _ _ _ _ _ _ _ _ _ _ _ _ _ Hi H).
Defined.

Lemma volume_root_total_witness :
  exists self,
    Tank.__init__ MAWP "Al-7075-T6" "G10" Al_7075_T6 mass_h2 G10 (num 0.98)
      (np_pi * num 0.8 ^ 2 * (num 5 - num 2 * num 0.8)
       + num 4 / num 3 * np_pi * num 0.8 ^ 3) (num 111200) = Ok self /\
    Tank.volume_equation self (num 5) = 0 /\
    Tank.total_volume self (num 5) 0 0 0 0 = Tank.V_in self.
Proof.
  exists_value (Tank.__init__ MAWP "Al-7075-T6" "G10" Al_7075_T6 mass_h2 G10
                  (num 0.98)
                  (np_pi * num 0.8 ^ 2 * (num 5 - num 2 * num 0.8)
                   + num 4 / num 3 * np_pi * num 0.8 ^ 3) (num 111200)).
  split; [vm_compute; reflexivity |].
  match goal with |- ?A /\ _ => assert (H : A) by Qc_same end.
  split; [exact H |].
  exact (volume_root_total _ _ H).
Defined.

Lemma volume_equation_increasing_witness :
  exists self,
    Tank.__init__ MAWP "Al-7075-T6" "G10" Al_7075_T6 mass_h2 G10 (num 0.98)
      (num 5) (num 111200) = Ok self /\
    0 < np_pi /\ 0 < Tank.R_in self /\
    num 2 * Tank.R_in self <= num 2 /\ num 2 < num 3 /\
    Tank.volume_equation self (num 2) < Tank.volume_equation self (num 3).
Proof.
  exists_value (Tank.__init__ MAWP "Al-7075-T6" "G10" Al_7075_T6 mass_h2 G10
                  (num 0.98) (num 5) (num 111200)).
  split; [vm_compute; reflexivity |].
  match goal with |- ?A /\ ?B /\ ?C /\ ?D /\ _ =>
    assert (Ha : A) by (apply Qcltb_lt; vm_compute; reflexivity);
    assert (Hb : B) by (apply Qcltb_lt; vm_compute; reflexivity);
    assert (Hc : C) by (apply Qcleb_le; vm_compute; reflexivity);
    assert (Hd : D) by (apply Qcltb_lt; vm_compute; reflexivity)
  end.
  repeat (split; [assumption |]).
  exact (volume_equation_increasing _ _ _ Ha Hb Hc Hd).
Defined.

Lemma tank_encloses_hydrogen_witness :
  exists self,
    Tank.__init__ MAWP "Al-7075-T6" "G10" Al_7075_T6 mass_h2 G10 (num 0.98)
      (np_pi * num 0.8 ^ 2 * (num 5 - num 2 * num 0.8)
       + num 4 / num 3 * np_pi * num 0.8 ^ 3) (num 111200) = Ok self /\
    0 < np_pi /\ 0 <= Tank.R_in self /\
    Tank.volume_equation self (num 5) = 0 /\
    Tank.V_in self
    <= Tank.total_volume self (num 5) (num 0.05) (num 0.002) (num 0.001)
         t_mli.
Proof.
  exists_value (Tank.__init__ MAWP "Al-7075-T6" "G10" Al_7075_T6 mass_h2 G10
                  (num 0.98)
                  (np_pi * num 0.8 ^ 2 * (num 5 - num 2 * num 0.8)
                   + num 4 / num 3 * np_pi * num 0.8 ^ 3) (num 111200)).
  split; [vm_compute; reflexivity |].
  match goal with |- ?A /\ ?B /\ ?C /\ _ =>
    assert (Ha : A) by (apply Qcltb_lt; vm_compute; reflexivity);
    assert (Hb : B) by (apply Qcleb_le; vm_compute; reflexivity);
    assert (Hc : C) by Qc_same
  end.
  repeat (split; [assumption |]).
  apply (tank_encloses_hydrogen _ _ _ _ _ _ Ha Hb Hc);
    apply Qcleb_le; vm_compute; reflexivity.
Defined.

(** The sizing of one tank on the synthetic fluid. *)
Lemma synthetic_tank :
  exists self r,
    Tank.__init__ MAWP "Al-7075-T6" "G10" Al_7075_T6 mass_h2 G10 (num 0.98)
      (num (10653 / 1372)) (num 111200) = Ok self /\
    compute_tank_volume "Al-7075-T6" "G10" Al_7075_T6 MAWP mass_h2 (num 0.4)
      G10 (num 100) (num 0.98) (num (10653 / 1372)) (num 111200) (num 10)
    = Ok r.
Proof.
  exists_value (Tank.__init__ MAWP "Al-7075-T6" "G10" Al_7075_T6 mass_h2 G10
                  (num 0.98) (num (10653 / 1372)) (num 111200)).
  exists_value (compute_tank_volume "Al-7075-T6" "G10" Al_7075_T6 MAWP mass_h2
                  (num 0.4) G10 (num 100) (num 0.98) (num (10653 / 1372))
                  (num 111200) (num 10)).
  split; vm_compute; reflexivity.
Qed.

Lemma sizing_fields_witness :
  exists r,
    compute_tank_volume "Al-7075-T6" "G10" Al_7075_T6 MAWP mass_h2 (num 0.4)
      G10 (num 100) (num 0.98) (num (10653 / 1372)) (num 111200) (num 10)
    = Ok r /\
    t_limit <= t1 r /\ t_limit <= t2 r /\ Qleak r = num 10 /\
    Vh2 r = num (10653 / 1372) /\ p_vent r = num 111200.
Proof.
  destruct synthetic_tank as (self & r & _ & Hc). exists r.
  split; [exact Hc |].
  destruct (sizing_fields _ _ _ _ _ _ _ _ _ _ _ _ _ Hc)
    as (H1 & H2 & H3 & H4 & H5 & _).
  repeat split; assumption.
Defined.

Lemma sizing_consistent_witness :
  exists self r,
    Tank.__init__ MAWP "Al-7075-T6" "G10" Al_7075_T6 mass_h2 G10 (num 0.98)
      (num (10653 / 1372)) (num 111200) = Ok self /\
    compute_tank_volume "Al-7075-T6" "G10" Al_7075_T6 MAWP mass_h2 (num 0.4)
      G10 (num 100) (num 0.98) (num (10653 / 1372)) (num 111200) (num 10)
    = Ok r /\
    Vt r = Tank.total_volume self (L_in r) (dv r) (t1 r) (t2 r) t_mli /\
    co2_kg r
    = (let masses := Tank.total_mass self (L_in r) (dv r) (t1 r) (t2 r)
                       t_mli dens_mli in
       Tank.kg_co2 self (fst (fst masses)) (snd (fst masses)) (snd masses)
         (num 100) mli_co2 co2_kevlar).
Proof.
  destruct synthetic_tank as (self & r & Hi & Hc). exists self, r.
  split; [exact Hi |]. split; [exact Hc |].
  destruct (sizing_consistent _ _ _ _ _ _ _ _ _ _ _ _ _ _ Hi Hc)
    as (HV & _ & Hco2 & _).
  split; [exact HV | exact Hco2].
Defined.

Lemma volume_out_of_range_raises_witness :
  exists self,
    Tank.__init__ MAWP "Al-7075-T6" "G10" Al_7075_T6 mass_h2 G10
      (num 0.98) 1 (num 111200) = Ok self /\
    0 < np_pi /\
    1 < num 4 / num 3 * np_pi * num 0.8 ^ 3 /\
    compute_tank_volume "Al-7075-T6" "G10" Al_7075_T6 MAWP mass_h2 (num 0.4)
      G10 (num 100) (num 0.98) 1 (num 111200) (num 10) = Raise ValueError.
Proof.
  exists_value (Tank.__init__ MAWP "Al-7075-T6" "G10" Al_7075_T6 mass_h2 G10
                  (num 0.98) 1 (num 111200)).
  match goal with |- ?I /\ ?A /\ ?B /\ _ =>
    assert (Hi : I) by (vm_compute; reflexivity);
    assert (Ha : A) by (apply Qcltb_lt; vm_compute; reflexivity);
    assert (Hb : B) by (apply Qcltb_lt; vm_compute; reflexivity)
  end.
  split; [exact Hi |]. split; [exact Ha |]. split; [exact Hb |].
  exact (volume_out_of_range_raises _ _ _ _ _ _ _ _ _ _ _ _ _ Hi Ha
           (or_introl Hb)).
Defined.

Lemma length_not_converged_witness :
  exists self sol,
    Tank.__init__ MAWP "Al-7075-T6" "G10" Al_7075_T6 mass_h2 G10
      (num 0.98) (num 5) (num 111200) = Ok self /\
    @root_scalar impatient (fun l => Ok (Tank.volume_equation self l))
      (num 2 * Tank.R_in self) (num 10) = Ok sol /\
    converged sol = false /\
    @compute_tank_volume fluid numpy impatient "Al-7075-T6" "G10" Al_7075_T6
      MAWP mass_h2 (num 0.4) G10 (num 100) (num 0.98) (num 5) (num 111200)
      (num 10) = Raise UnboundLocalError.
Proof.
  exists_value (Tank.__init__ MAWP "Al-7075-T6" "G10" Al_7075_T6 mass_h2 G10
                  (num 0.98) (num 5) (num 111200)).
  match goal with |- exists sol, _ /\ ?R = _ /\ _ => exists_value R end.
  match goal with |- ?I /\ ?R /\ ?C /\ _ =>
    assert (Hi : I) by (vm_compute; reflexivity);
    assert (Hr : R) by (vm_compute; reflexivity);
    assert (Hc : C) by reflexivity
  end.
  split; [exact Hi |]. split; [exact Hr |]. split; [exact Hc |].
  rewrite (@length_not_converged fluid numpy impatient _ _ _ _ _ _ _ _ _ _ _ _
             _ _ Hi Hr Hc).
  vm_compute. reflexivity.
Defined.

Lemma fA_scales_witness :
  fA mass_h2 (num 111200) = Ok (num (10653 / 1372), num 0.98) /\
  num 2 <> 0 /\
  fA (num 2 * mass_h2) (num 111200)
  = Ok (num 2 * num (10653 / 1372), num 0.98).
Proof.
  assert (Hk : num 2 <> 0) by Qc_differ.
  split; [exact synthetic_fA |]. split; [exact Hk |].
  exact (proj1 (fA_scales _ _ _ _ _ synthetic_fA Hk)).
Defined.

Lemma outer_shell_thickness_witness :
  exists self dv t2 alpha Q_cond Q_rad,
    Tank.__init__ MAWP "Al-7075-T6" "G10" Al_7075_T6 mass_h2 G10
      (num 0.5) 1 (num 257000) = Ok self /\
    Tank.heat_influx self (num 5) Q_og_str (num 0.002) emis_mli k_vac t_mli
      k_mli (num 5000) = Ok (dv, t2, alpha, num 5000, Q_cond, Q_rad) /\
    t2 <= num 1000 /\
    t2 <= Tank.netting_thickness
            (num 101325 * (Tank.R_in self + num 0.002 + dv + t_mli))
            (num 101325 * (Tank.R_in self + num 0.002 + dv + t_mli) / num 2)
            G10 (num 90).
Proof.
  exists_value (Tank.__init__ MAWP "Al-7075-T6" "G10" Al_7075_T6 mass_h2 G10
                  (num 0.5) 1 (num 257000)).
  match goal with
  | |- exists dv, exists _ _ _ _, _ /\ ?H = _ /\ _ =>
    let r := eval vm_compute in H in
    match r with
    | Ok (?dv0, ?t20, ?a0, ?Q0, ?qc0, ?qr0) =>
        exists dv0, t20, a0, qc0, qr0;
        assert (Hh : H = Ok (dv0, t20, a0, Q0, qc0, qr0))
          by (vm_compute; reflexivity)
    end
  end.
  split; [vm_compute; reflexivity |].
  destruct (outer_shell_thickness _ _ _ _ _ _ _ _ _ _ _ _ _ _ _ Hh)
    as (HQ & _ & Hcomp).
  - Qc_differ.
  - intros _. split; [Qc_differ |].
    intros c [<- | [<- | [<- | []]]]; Qc_differ.
  - destruct (Hcomp eq_refl) as (Hle & Hall & _).
    split; [rewrite <- HQ; exact Hh |]. split; [exact Hle |].
    apply Hall. right. left. reflexivity.
Defined.

Lemma radiation_grows_with_gap_witness :
  exists self,
    Tank.__init__ MAWP "Al-7075-T6" "G10" Al_7075_T6 mass_h2 G10 (num 0.5) 1
      (num 257000) = Ok self /\
    0 < np_pi /\ 0 <= Tank.T0 self /\ Tank.T0 self <= num 300 /\
    0 < emis_mli /\ emis_mli <= 1 /\
    0 < emissivity (Tank.mat2_property self) /\
    emissivity (Tank.mat2_property self) <= 1 /\
    exists q1 q2,
      Tank.Q_rad self (num 5) (num 0.002) emis_mli t_mli (num 0.01) = Ok q1 /\
      Tank.Q_rad self (num 5) (num 0.002) emis_mli t_mli (num 0.05) = Ok q2 /\
      q1 <= q2.
Proof.
  exists_value (Tank.__init__ MAWP "Al-7075-T6" "G10" Al_7075_T6 mass_h2 G10
                  (num 0.5) 1 (num 257000)).
  split; [vm_compute; reflexivity |].
  match goal with |- ?A /\ ?B /\ ?C /\ ?D /\ ?E /\ ?F /\ ?G /\ _ =>
    assert (Ha : A) by (apply Qcltb_lt; vm_compute; reflexivity);
    assert (Hb : B) by (apply Qcleb_le; vm_compute; reflexivity);
    assert (Hc : C) by (apply Qcleb_le; vm_compute; reflexivity);
    assert (Hd : D) by (apply Qcltb_lt; vm_compute; reflexivity);
    assert (He : E) by (apply Qcleb_le; vm_compute; reflexivity);
    assert (Hf : F) by (apply Qcltb_lt; vm_compute; reflexivity);
    assert (Hg : G) by (apply Qcleb_le; vm_compute; reflexivity)
  end.
  repeat (split; [assumption |]).
  apply (radiation_grows_with_gap _ _ _ _ _ _ _ Ha); try assumption;
    apply Qcleb_le; vm_compute; reflexivity.
Defined.

Lemma sweep_completes_witness :
  combine materials mat_properties <> []%list /\
  sweep 400 materials mat_properties [num 111200]%list empty_world
  = (stored 400 materials mat_properties
       (combinations materials mat_properties [num 111200]%list) empty_world,
     Ok tt).
Proof.
  assert (Hne : combine materials mat_properties <> []%list) by discriminate.
  split; [exact Hne |].
  exact (sweep_completes 400 materials mat_properties [num 111200]%list
           empty_world Hne synthetic_sizing_ok).
Defined.

Lemma csv_after_sweep_witness :
  exists rows,
    tank_results_csv
      (fst (sweep 400 materials mat_properties [num 111200]%list empty_world))
    = Some (header :: rows) /\
    List.length rows = 4%nat.
Proof.
  assert (Hne : combine materials mat_properties <> []%list) by discriminate.
  assert (Hp : [num 111200]%list <> []%list) by discriminate.
  destruct (csv_after_sweep 400 materials mat_properties [num 111200]%list
              empty_world Hne Hp synthetic_sizing_ok) as [Hfile Hlen].
  eexists. split; [exact Hfile | exact Hlen].
Defined.

Lemma plot_lists_balanced_witness :
  balanced empty_world /\
  balanced (fst (sweep 400 materials mat_properties P_vents empty_world)).
Proof.
  assert (H : balanced empty_world) by (repeat split).
  split; [exact H |].
  exact (plot_lists_balanced 400 materials mat_properties P_vents empty_world H).
Defined.

Lemma heat_leak_shared_per_vent_witness :
  exists r r',
    sizing_of 400 materials mat_properties
      (num 111200, ("Al-7075-T6", Al_7075_T6), ("Al-7075-T6", Al_7075_T6))
    = Ok r /\
    sizing_of 400 materials mat_properties
      (num 111200, ("G10", G10), ("Al-7075-T6", Al_7075_T6)) = Ok r' /\
    Qleak r = Qleak r' /\ Vh2 r = Vh2 r'.
Proof.
  assert (H1 : is_ok (sizing_of 400 materials mat_properties
                        (num 111200, ("Al-7075-T6", Al_7075_T6),
                         ("Al-7075-T6", Al_7075_T6))) = true)
    by (apply synthetic_sizing_ok; cbn; tauto).
  assert (H2 : is_ok (sizing_of 400 materials mat_properties
                        (num 111200, ("G10", G10),
                         ("Al-7075-T6", Al_7075_T6))) = true)
    by (apply synthetic_sizing_ok; cbn; tauto).
  destruct (sizing_of 400 materials mat_properties
              (num 111200, ("Al-7075-T6", Al_7075_T6),
               ("Al-7075-T6", Al_7075_T6))) as [r | e |] eqn:E1;
    [| discriminate H1 ..].
  destruct (sizing_of 400 materials mat_properties
              (num 111200, ("G10", G10), ("Al-7075-T6", Al_7075_T6)))
    as [r' | e |] eqn:E2;
    [| discriminate H2 ..].
  exists r, r'. split; [reflexivity |]. split; [reflexivity |].
  destruct (heat_leak_shared_per_vent _ _ _ _ _ _ _ _ _ _ E1 E2)
    as (HQ & HV & _).
  split; [exact HQ | exact HV].
Defined.

Lemma empty_table_raises_witness :
  is_ok (fA mass_h2 (num 111200)) = true /\
  sweep 400 []%list mat_properties [num 111200; num 600000]%list empty_world
  = (empty_world, Raise IndexError).
Proof.
  assert (H : is_ok (fA mass_h2 (num 111200)) = true)
    by (rewrite synthetic_fA; reflexivity).
  split; [exact H |].
  exact (empty_table_raises 400 []%list mat_properties (num 111200)
           [num 600000]%list empty_world H (or_introl eq_refl)).
Defined.

Lemma open_reads_back_witness :
  combinations materials mat_properties [num 111200]%list <> []%list /\
  open_block
    (with_file
       (tank_results_csv
          (stored 400 materials mat_properties
             (combinations materials mat_properties [num 111200]%list)
             empty_world))
       empty_world)
  = Rows
      (with_file
         (tank_results_csv
            (stored 400 materials mat_properties
               (combinations materials mat_properties [num 111200]%list)
               empty_world))
         (stored 400 materials mat_properties
            (combinations materials mat_properties [num 111200]%list)
            empty_world))
      (Ok tt).
Proof.
  assert (Hne : combinations materials mat_properties [num 111200]%list
                <> []%list) by discriminate.
  split; [exact Hne |].
  exact (open_reads_back 400 materials mat_properties _ empty_world
           synthetic_sizing_ok Hne).
Defined.

Lemma short_row_unbalances_witness :
  exists w' r,
    open_block
      (with_file
         (Some [header; [Str "Al-7075-T6"; Str "G10"; Num MAWP]]%list)
         empty_world) = Rows w' r /\
    is_ok r = false /\
    List.length (plot_mats w') = 1%nat /\ plot_P_vents w' = []%list.
Proof.
  apply (short_row_unbalances header
           [Str "Al-7075-T6"; Str "G10"; Num MAWP]%list []%list
           (with_file
              (Some [header; [Str "Al-7075-T6"; Str "G10"; Num MAWP]]%list)
              empty_world)).
  - reflexivity.
  - cbn. lia.
Defined.
